(** * The consumer component of bit, embedded in Rocq

    A shallow embedding of [src/consumer/component/consumer-component.js]:
    the [Component] aggregate, its constructor and validation, the lazy
    [files] and [docs] getters, the shared-directory computation and strip,
    the build and test orchestration, the copy of dependencies from the
    model twin and the (de)serialization functions.

    JavaScript objects become records, [undefined]/[null] become [None],
    exceptions and rejected promises become the [Throw] case of [Result],
    and the mutation of [this] is explicit state passing in the monad [M].
    Calls that leave the process (plugins, isolated environment, stores)
    are recorded in a trace of [Event]s. Paths follow the POSIX flavour of
    Node's [path] module. *)

From Stdlib Require Import ZArith Ascii String List Lia Bool.
From stdpp Require Import base option list strings gmap.

#[local] Set Warnings "-register-all".
#[local] Open Scope string_scope.

(** ** JavaScript strings *)

Module JsString.

(** [s.includes(pat)] *)
Definition includes (pat s : string) : bool :=
  match String.index 0 pat s with Some _ => true | None => false end.

(** Index of the last occurrence of the character [c], if any. *)
Fixpoint last_index (c : ascii) (s : string) : option nat :=
  match s with
  | EmptyString => None
  | String x r =>
      match last_index c r with
      | Some k => Some (S k)
      | None => if Ascii.eqb x c then Some 0 else None
      end
  end.

(** [s.lastIndexOf(c)]: -1 when the character does not occur. *)
Definition lastIndexOf (c : ascii) (s : string) : Z :=
  match last_index c s with Some k => Z.of_nat k | None => (-1)%Z end.

(** [s.substring(a, b)]: both ends are clamped to [0, length] and swapped
    when they come in the wrong order. *)
Definition substring (a b : Z) (s : string) : string :=
  let len := Z.of_nat (String.length s) in
  let clamp := fun z => Z.max 0 (Z.min z len) in
  let lo := Z.min (clamp a) (clamp b) in
  let hi := Z.max (clamp a) (clamp b) in
  String.substring (Z.to_nat lo) (Z.to_nat (hi - lo)) s.

(** [s.replace(pat, rep)] with a string pattern: only the first
    occurrence is replaced. *)
Definition replace (pat rep s : string) : string :=
  match String.index 0 pat s with
  | Some i =>
      String.substring 0 i s ++ rep ++
      String.substring (i + String.length pat)
                       (String.length s - (i + String.length pat)) s
  | None => s
  end.

(** [s.split(c)] for a one-character separator. *)
Fixpoint split (c : ascii) (s : string) : list string :=
  match s with
  | EmptyString => [EmptyString]
  | String x r =>
      if Ascii.eqb x c then EmptyString :: split c r
      else match split c r with
           | seg :: segs => String x seg :: segs
           | [] => [String x EmptyString]
           end
  end.

(** Last character of a string. *)
Fixpoint last_char (s : string) : option ascii :=
  match s with
  | EmptyString => None
  | String x EmptyString => Some x
  | String _ r => last_char r
  end.

(** A string is falsy exactly when it is empty. *)
Definition truthy (s : string) : bool :=
  match s with EmptyString => false | _ => true end.

(** [s || d] on strings. *)
Definition or_else (s : option string) (d : string) : string :=
  match s with
  | Some v => if truthy v then v else d
  | None => d
  end.

(** Longest common prefix of two strings. *)
Fixpoint common_prefix (a b : string) : string :=
  match a, b with
  | String x a', String y b' =>
      if Ascii.eqb x y then String x (common_prefix a' b') else EmptyString
  | _, _ => EmptyString
  end.

(** The line feed character, as a string. *)
Definition newline : string := String (Ascii.ascii_of_nat 10) EmptyString.

(** The double quote character, as a string. *)
Definition dquote : string := String (Ascii.ascii_of_nat 34) EmptyString.


End JsString.

(** ** Node's [path] module, POSIX flavour

    [path] is part of the runtime, not of the repository; the functions
    below follow its documented behaviour on POSIX systems. *)

Module Path.

Definition slash : ascii := "/"%char.
Definition sep : string := "/".

(** Segment resolution of [normalizeString]: empty and [.] segments
    vanish, [..] removes the segment before it, and is kept only when
    there is nothing to remove and the path is relative. [acc] holds the
    segments kept so far, last one first. *)
Fixpoint resolve (allowAboveRoot : bool) (acc segs : list string) : list string :=
  match segs with
  | [] => rev acc
  | seg :: rest =>
      if bool_decide (seg = "") || bool_decide (seg = ".") then
        resolve allowAboveRoot acc rest
      else if bool_decide (seg = "..") then
        match acc with
        | top :: acc' =>
            if bool_decide (top = "..") then
              resolve allowAboveRoot
                      (if allowAboveRoot then ".." :: acc else acc) rest
            else resolve allowAboveRoot acc' rest
        | [] =>
            resolve allowAboveRoot
                    (if allowAboveRoot then [".."] else []) rest
        end
      else resolve allowAboveRoot (seg :: acc) rest
  end.

Definition isAbsolute (p : string) : bool :=
  match p with String c _ => Ascii.eqb c slash | EmptyString => false end.

Definition trailingSeparator (p : string) : bool :=
  match JsString.last_char p with
  | Some c => Ascii.eqb c slash
  | None => false
  end.

(** [path.normalize(p)] *)
Definition normalize (p : string) : string :=
  if JsString.truthy p then
    let body := String.concat sep
                  (resolve (negb (isAbsolute p)) [] (JsString.split slash p)) in
    if JsString.truthy body then
      (if isAbsolute p then sep else "") ++ body ++
      (if trailingSeparator p then sep else "")
    else if isAbsolute p then sep
    else if trailingSeparator p then "./" else "."
  else ".".

(** [path.join(a, b)]: the non-empty arguments are glued with a
    separator and the result is normalized. *)
Definition join (a b : string) : string :=
  match JsString.truthy a, JsString.truthy b with
  | true, true => normalize (a ++ sep ++ b)
  | true, false => normalize a
  | false, true => normalize b
  | false, false => "."
  end.

End Path.

(** ** Values that cross the JSON boundary *)

Inductive json : Type :=
| JNull
| JBool (b : bool)
| JNum (n : Z)
| JStr (s : string)
| JArr (items : list json)
| JObj (fields : list (string * json)).

(** Property read [o.key] on a parsed value: the last binding of a key
    wins, as [JSON.parse] keeps it; anything but an object has no
    properties of interest. *)
Fixpoint assoc_last (key : string) (fields : list (string * json)) : option json :=
  match fields with
  | [] => None
  | (k, v) :: rest =>
      match assoc_last key rest with
      | Some w => Some w
      | None => if bool_decide (k = key) then Some v else None
      end
  end.

Definition json_get (key : string) (j : json) : option json :=
  match j with
  | JObj fields => assoc_last key fields
  | _ => None
  end.

(** JavaScript truthiness of a parsed value. *)
Definition json_truthy (j : json) : bool :=
  match j with
  | JNull => false
  | JBool b => b
  | JNum n => negb (n =? 0)%Z
  | JStr s => JsString.truthy s
  | JArr _ => true
  | JObj _ => true
  end.

Definition json_isArray (j : json) : bool :=
  match j with JArr _ => true | _ => false end.

(** ** Failures

    A thrown exception and a rejected promise are both [Throw]. The
    constructors are the error classes the component raises; [External]
    stands for whatever a plugin or another collaborator throws. *)

Inductive Error : Type :=
| GeneralError (msg : string)
| JsError (msg : string)
| TypeError (msg : string)
| SyntaxError (msg : string)
| InvalidCompilerInterface (compilerName : string)
| ExternalBuildError (original : Error) (id : string)
| ExternalTestError (original : Error) (id : string)
| ComponentSpecsFailed (report : option string)
| External (msg : string).

(** [err.message] *)
Definition error_message (e : Error) : string :=
  match e with
  | GeneralError m | JsError m | TypeError m | SyntaxError m | External m => m
  | InvalidCompilerInterface _ | ExternalBuildError _ _
  | ExternalTestError _ _ | ComponentSpecsFailed _ => ""
  end.

Inductive Result (A : Type) : Type :=
| Ok (value : A)
| Throw (e : Error).
Arguments Ok {A} value.
Arguments Throw {A} e.

Definition is_ok {A} (r : Result A) : bool :=
  match r with Ok _ => true | Throw _ => false end.

(** ** Collaborating classes

    The classes below live in files that are not part of the sources at
    hand; their data and the few methods the component calls are modelled
    from the specification. *)

Definition PackageMap : Type := gmap string string.
Definition Doclet : Type := string.
Definition Blob : Type := string.

Inductive ComponentOrigin : Type := AUTHORED | IMPORTED | NESTED.

#[global] Instance ComponentOrigin_eq_dec : EqDecision ComponentOrigin.
Proof. solve_decision. Defined.

Module BitId.
(** Modelled from the spec: the component identity (bit-id.js is
    missing), a value of three fields whose string form derives from all
    of them. *)
Record t : Type := mk { scope : option string; name : string; version : option string }.

Definition toString (i : t) : string :=
  let base := match scope i with
              | Some s => if JsString.truthy s then s ++ "/" ++ name i else name i
              | None => name i
              end in
  match version i with
  | Some v => if JsString.truthy v then base ++ "@" ++ v else base
  | None => base
  end.
End BitId.

Module SourceFile.
(** Modelled from the spec: a source file of the component
    (sources/source-file.js is missing): base directory, path relative to
    it, contents and the test flag. *)
Record t : Type := mk { base : string; relative : string; contents : string; test : bool }.

(** [file.path] *)
Definition path (f : t) : string := Path.join (base f) (relative f).

(** [file.clone()] *)
Definition clone (f : t) : t := f.

(** [file.updatePaths({ newBase, newRelative })]: an absent or empty
    argument keeps the current value. *)
Definition updatePaths (newBase newRelative : option string) (f : t) : t :=
  {| base := JsString.or_else newBase (base f);
     relative := JsString.or_else newRelative (relative f);
     contents := contents f;
     test := test f |}.
End SourceFile.

Module Dist.
(** Modelled from the spec: a build artifact (sources/dist.js is
    missing), shaped like a source file. *)
Record t : Type := mk { base : string; relative : string; contents : string; test : bool }.

Definition path (d : t) : string := Path.join (base d) (relative d).

Definition updatePaths (newBase newRelative : option string) (d : t) : t :=
  {| base := JsString.or_else newBase (base d);
     relative := JsString.or_else newRelative (relative d);
     contents := contents d;
     test := test d |}.
End Dist.

Module Dists.
(** What JavaScript code may hand to [new Dists(...)] or find in a
    [dists] position: an array of artifacts, a [Dists] instance (an
    object whose field [dists] holds the inner value), or a parsed value
    that was not converted. *)
Inductive arg : Type :=
| Array (l : list Dist.t)
| Wrapped (inner : arg)
| Raw (j : json).

(** Modelled from the spec: the artifact set (sources/dists.js is
    missing). Its serialized shape is the wrapped object
    [{dists: [...]}], so an instance is its field [dists]. *)
Record t : Type := mk { dists : arg }.

Definition arg_truthy (a : arg) : bool :=
  match a with Raw j => json_truthy j | _ => true end.

(** [new Dists(dists)]: an absent value becomes the empty array. *)
Definition new (a : option arg) : t :=
  match a with
  | Some v => if arg_truthy v then mk v else mk (Array [])
  | None => mk (Array [])
  end.

(** The instance seen as a plain value, as [toObject] exposes it. *)
Definition as_arg (d : t) : arg := Wrapped (dists d).

(** [dists.get()] *)
Definition get (d : t) : arg := dists d.

(** [dists.isEmpty()] *)
Definition isEmpty (d : t) : bool :=
  match dists d with Array [] => true | _ => false end.

(** [dists.stripOriginallySharedDir(dir, pathWithoutSharedDir)]: every
    artifact gets its relative path rewritten by the callback. *)
Definition stripOriginallySharedDir (dir : option string)
    (pathWithoutSharedDir : string -> option string -> string) (d : t) : t :=
  match dists d with
  | Array l =>
      mk (Array (map (fun x =>
            Dist.updatePaths (Some (Dist.base x))
              (Some (pathWithoutSharedDir (Dist.relative x) dir)) x) l))
  | _ => d
  end.
End Dists.

(** The workspace index (bitmap) and its records, consumed through the
    contract of the specification. *)
Record ComponentMap : Type := mkComponentMap {
  cm_origin : ComponentOrigin;
  cm_rootDir : option string;
  cm_originallySharedDir : option string
}.

Record BitMap : Type := mkBitMap {
  getComponentIfExist : BitId.t -> option ComponentMap;
  projectRoot : string
}.

Module Dependencies.
(** Modelled from the spec: a dependency record (dependencies/ is
    missing): the target identity and the relative source paths that
    referenced it. *)
Record RelativePath : Type :=
  mkPath { sourceRelativePath : string; destinationRelativePath : string }.
Record Dependency : Type :=
  mkDep { id : BitId.t; relativePaths : list RelativePath }.

(** One dependency class: an ordered collection of records. *)
Record t : Type := mk { dependencies : list Dependency }.

(** [new Dependencies(dependencies)] *)
Definition new (l : option (list Dependency)) : t := mk (default [] l).

(** [getClone()] *)
Definition getClone (d : t) : list Dependency := dependencies d.

(** [getSourcesPaths()]: the source paths of every record, in order. *)
Definition getSourcesPaths (d : t) : list string :=
  concat (map (fun dep => map sourceRelativePath (relativePaths dep)) (dependencies d)).

(** [getByIdStr(id)]: the first record whose identity prints as [id]. *)
Definition getByIdStr (idStr : string) (d : t) : option Dependency :=
  List.find (fun dep => bool_decide (BitId.toString (id dep) = idStr)) (dependencies d).

(** [add(dependency)] *)
Definition add (dep : Dependency) (d : t) : t := mk (dependencies d ++ [dep]).

(** [stripOriginallySharedDir(bitMap, dir)]: the shared prefix segment
    is removed from every recorded source path. *)
Definition stripOriginallySharedDir (bitMap : option BitMap)
    (dir : option string) (d : t) : t :=
  match dir with
  | Some s =>
      if JsString.truthy s then
        mk (map (fun dep =>
              mkDep (id dep)
                (map (fun rp =>
                   mkPath (JsString.replace (s ++ Path.sep) "" (sourceRelativePath rp))
                          (destinationRelativePath rp))
                   (relativePaths dep)))
              (dependencies d))
      else d
  | None => d
  end.
End Dependencies.

Module License.
(** Modelled from the spec: the license file of a component
    (sources/license.js is missing). *)
Record t : Type := mk { src : string; contents : string }.
End License.

(** Test results as a tester plugin returns them, one per file. *)
Record RawTest : Type := mkRawTest { rt_title : string; rt_pass : bool }.
Record RawFailure : Type := mkRawFailure { title : string; err : option Error }.
Record RawTestsResults : Type := mkRaw {
  specPath : option string;
  raw_pass : bool;
  raw_tests : list RawTest;
  raw_failures : list RawFailure
}.

Module SpecsResults.
(** Modelled from the spec: the uniform result type per test file
    (specs-results is missing). *)
Record t : Type := mk {
  specFile : option string;
  pass : bool;
  tests : list RawTest;
  failures : list RawFailure
}.
End SpecsResults.

Record Log : Type := mkLog { log_message : string; log_date : string }.

Record customResolvedPath : Type :=
  mkCustomPath { destinationPath : string; importSource : string }.

(** The [_files] field: typed file objects, or the raw serialized object
    that the getter still has to load. *)
Inductive FilesField : Type :=
| FilesArray (l : list SourceFile.t)
| FilesRaw (o : json).

(** ** The serialized component document

    The plain object [toObject] returns and [fromObject] reads. A field is
    [None] when the property is [undefined] or [null]. *)
Record ComponentObject : Type := mkObject {
  o_name : option string;
  o_box : option string;
  o_version : option string;
  o_mainFile : option string;
  o_scope : option string;
  o_lang : option string;
  o_bindingPrefix : option string;
  o_compiler : option json;
  o_tester : option json;
  o_detachedCompiler : option bool;
  o_detachedTester : option bool;
  o_dependencies : option (list Dependencies.Dependency);
  o_devDependencies : option (list Dependencies.Dependency);
  o_compilerDependencies : option (list Dependencies.Dependency);
  o_testerDependencies : option (list Dependencies.Dependency);
  o_packageDependencies : option PackageMap;
  o_devPackageDependencies : option PackageMap;
  o_peerPackageDependencies : option PackageMap;
  o_compilerPackageDependencies : option PackageMap;
  o_testerPackageDependencies : option PackageMap;
  o_files : option FilesField;
  o_docs : option (list Doclet);
  o_dists : option Dists.arg;
  o_specsResults : option (list json);
  o_license : option string;
  o_log : option Log;
  o_deprecated : option bool
}.

(** [object.files = files; object.dists = dists] *)
Definition assign_files_dists (files : option FilesField) (dists : option Dists.arg)
    (o : ComponentObject) : ComponentObject :=
  mkObject (o_name o) (o_box o) (o_version o) (o_mainFile o) (o_scope o) (o_lang o)
    (o_bindingPrefix o) (o_compiler o) (o_tester o) (o_detachedCompiler o)
    (o_detachedTester o) (o_dependencies o) (o_devDependencies o)
    (o_compilerDependencies o) (o_testerDependencies o) (o_packageDependencies o)
    (o_devPackageDependencies o) (o_peerPackageDependencies o)
    (o_compilerPackageDependencies o) (o_testerPackageDependencies o)
    files (o_docs o) dists (o_specsResults o) (o_license o) (o_log o)
    (o_deprecated o).


(** ** Plugins *)

(** The context object a compiler receives. *)
Record BuildContext : Type := mkBuildContext {
  componentObject : ComponentObject;
  rootDistFolder : string;
  componentDir : option string
}.

(** A file as a compiler hands it back; [None] contents is a file
    without textual content. *)
Record BuiltFile : Type := mkBuiltFile {
  bf_base : string;
  bf_relative : string;
  bf_contents : option string;
  bf_test : bool
}.

Record CompilerActionParams : Type := mkCompilerActionParams {
  cap_files : list SourceFile.t;
  cap_rawConfig : Blob;
  cap_dynamicConfig : Blob;
  cap_configFiles : list Blob;
  cap_api : Blob;
  cap_context : BuildContext
}.

(** The object a modern compiler action resolves to. *)
Record CompilerActionResult : Type := mkCompilerActionResult {
  car_files : option (list BuiltFile)
}.

Record InstallContext : Type := mkInstallContext {
  ic_workspaceDir : string;
  ic_componentDir : option string;
  ic_dependentId : BitId.t
}.

(** A compiler plugin. [action] is the modern contract, [oldAction] the
    legacy one; either may be missing. *)
Record CompilerExtension : Type := mkCompiler {
  cmp_name : string;
  cmp_loaded : bool;
  cmp_install : option bool -> InstallContext -> Result unit;
  cmp_action : option (CompilerActionParams -> Result (option CompilerActionResult));
  cmp_oldAction : option (list SourceFile.t -> string -> BuildContext -> Result (list BuiltFile));
  cmp_rawConfig : Blob;
  cmp_dynamicConfig : Blob;
  cmp_files : list Blob;
  cmp_api : Blob;
  cmp_toObject : json
}.

Record TesterContext : Type := mkTesterContext {
  tc_componentObject : ComponentObject;
  tc_paths : option (list (string * string))
}.

Record TesterActionParams : Type := mkTesterActionParams {
  tap_testFiles : list (Dist.t + SourceFile.t);
  tap_rawConfig : Blob;
  tap_dynamicConfig : Blob;
  tap_configFiles : list Blob;
  tap_api : Blob;
  tap_context : TesterContext
}.

(** A tester plugin, with the same two contracts; the legacy one takes
    the path of a single test file. *)
Record TesterExtension : Type := mkTester {
  tst_name : string;
  tst_loaded : bool;
  tst_install : option bool -> Result unit;
  tst_action : option (TesterActionParams -> Result (list RawTestsResults));
  tst_oldAction : option (string -> Result RawTestsResults);
  tst_filePath : string;
  tst_context : option (list (string * string));
  tst_rawConfig : Blob;
  tst_dynamicConfig : Blob;
  tst_files : list Blob;
  tst_api : Blob;
  tst_toObject : json
}.
Inductive Component : Type := mkComponent {
  name : string;
  version : option string;
  scope : option string;
  lang : string;
  bindingPrefix : string;
  mainFile : string;
  compiler : option CompilerExtension;
  tester : option TesterExtension;
  dependencies : Dependencies.t;
  devDependencies : Dependencies.t;
  compilerDependencies : Dependencies.t;
  testerDependencies : Dependencies.t;
  packageDependencies : PackageMap;
  devPackageDependencies : PackageMap;
  peerPackageDependencies : PackageMap;
  compilerPackageDependencies : PackageMap;
  testerPackageDependencies : PackageMap;
  _docs : option (list Doclet);
  _files : option FilesField;
  dists : Dists.t;
  specsResults : option (list SpecsResults.t);
  license : option License.t;
  log : option Log;
  writtenPath : option string;
  originallySharedDir : option string;
  _wasOriginallySharedDirStripped : bool;
  componentFromModel : option Component;
  isolatedEnvironment : option string;
  deprecated : bool;
  origin : option ComponentOrigin;
  detachedCompiler : option bool;
  detachedTester : option bool;
  customResolvedPaths : list customResolvedPath
}.

(** Assignments to the fields the operations mutate. *)
Definition set_mainFile (v : string) (c : Component) : Component :=
  mkComponent (name c) (version c) (scope c) (lang c) (bindingPrefix c) v
    (compiler c) (tester c) (dependencies c) (devDependencies c)
    (compilerDependencies c) (testerDependencies c) (packageDependencies c)
    (devPackageDependencies c) (peerPackageDependencies c)
    (compilerPackageDependencies c) (testerPackageDependencies c) (_docs c)
    (_files c) (dists c) (specsResults c) (license c) (log c) (writtenPath c)
    (originallySharedDir c) (_wasOriginallySharedDirStripped c)
    (componentFromModel c) (isolatedEnvironment c) (deprecated c) (origin c)
    (detachedCompiler c) (detachedTester c) (customResolvedPaths c).
Definition set_dependencies (v : Dependencies.t) (c : Component) : Component :=
  mkComponent (name c) (version c) (scope c) (lang c) (bindingPrefix c)
    (mainFile c) (compiler c) (tester c) v (devDependencies c)
    (compilerDependencies c) (testerDependencies c) (packageDependencies c)
    (devPackageDependencies c) (peerPackageDependencies c)
    (compilerPackageDependencies c) (testerPackageDependencies c) (_docs c)
    (_files c) (dists c) (specsResults c) (license c) (log c) (writtenPath c)
    (originallySharedDir c) (_wasOriginallySharedDirStripped c)
    (componentFromModel c) (isolatedEnvironment c) (deprecated c) (origin c)
    (detachedCompiler c) (detachedTester c) (customResolvedPaths c).
Definition set_devDependencies (v : Dependencies.t) (c : Component) : Component :=
  mkComponent (name c) (version c) (scope c) (lang c) (bindingPrefix c)
    (mainFile c) (compiler c) (tester c) (dependencies c) v
    (compilerDependencies c) (testerDependencies c) (packageDependencies c)
    (devPackageDependencies c) (peerPackageDependencies c)
    (compilerPackageDependencies c) (testerPackageDependencies c) (_docs c)
    (_files c) (dists c) (specsResults c) (license c) (log c) (writtenPath c)
    (originallySharedDir c) (_wasOriginallySharedDirStripped c)
    (componentFromModel c) (isolatedEnvironment c) (deprecated c) (origin c)
    (detachedCompiler c) (detachedTester c) (customResolvedPaths c).
Definition set_compilerDependencies (v : Dependencies.t) (c : Component) : Component :=
  mkComponent (name c) (version c) (scope c) (lang c) (bindingPrefix c)
    (mainFile c) (compiler c) (tester c) (dependencies c) (devDependencies c)
    v (testerDependencies c) (packageDependencies c) (devPackageDependencies
    c) (peerPackageDependencies c) (compilerPackageDependencies c)
    (testerPackageDependencies c) (_docs c) (_files c) (dists c) (specsResults
    c) (license c) (log c) (writtenPath c) (originallySharedDir c)
    (_wasOriginallySharedDirStripped c) (componentFromModel c)
    (isolatedEnvironment c) (deprecated c) (origin c) (detachedCompiler c)
    (detachedTester c) (customResolvedPaths c).
Definition set_testerDependencies (v : Dependencies.t) (c : Component) : Component :=
  mkComponent (name c) (version c) (scope c) (lang c) (bindingPrefix c)
    (mainFile c) (compiler c) (tester c) (dependencies c) (devDependencies c)
    (compilerDependencies c) v (packageDependencies c) (devPackageDependencies
    c) (peerPackageDependencies c) (compilerPackageDependencies c)
    (testerPackageDependencies c) (_docs c) (_files c) (dists c) (specsResults
    c) (license c) (log c) (writtenPath c) (originallySharedDir c)
    (_wasOriginallySharedDirStripped c) (componentFromModel c)
    (isolatedEnvironment c) (deprecated c) (origin c) (detachedCompiler c)
    (detachedTester c) (customResolvedPaths c).
Definition set_docs (v : option (list Doclet)) (c : Component) : Component :=
  mkComponent (name c) (version c) (scope c) (lang c) (bindingPrefix c)
    (mainFile c) (compiler c) (tester c) (dependencies c) (devDependencies c)
    (compilerDependencies c) (testerDependencies c) (packageDependencies c)
    (devPackageDependencies c) (peerPackageDependencies c)
    (compilerPackageDependencies c) (testerPackageDependencies c) v (_files c)
    (dists c) (specsResults c) (license c) (log c) (writtenPath c)
    (originallySharedDir c) (_wasOriginallySharedDirStripped c)
    (componentFromModel c) (isolatedEnvironment c) (deprecated c) (origin c)
    (detachedCompiler c) (detachedTester c) (customResolvedPaths c).
Definition set_files (v : option FilesField) (c : Component) : Component :=
  mkComponent (name c) (version c) (scope c) (lang c) (bindingPrefix c)
    (mainFile c) (compiler c) (tester c) (dependencies c) (devDependencies c)
    (compilerDependencies c) (testerDependencies c) (packageDependencies c)
    (devPackageDependencies c) (peerPackageDependencies c)
    (compilerPackageDependencies c) (testerPackageDependencies c) (_docs c) v
    (dists c) (specsResults c) (license c) (log c) (writtenPath c)
    (originallySharedDir c) (_wasOriginallySharedDirStripped c)
    (componentFromModel c) (isolatedEnvironment c) (deprecated c) (origin c)
    (detachedCompiler c) (detachedTester c) (customResolvedPaths c).
Definition set_dists (v : Dists.t) (c : Component) : Component :=
  mkComponent (name c) (version c) (scope c) (lang c) (bindingPrefix c)
    (mainFile c) (compiler c) (tester c) (dependencies c) (devDependencies c)
    (compilerDependencies c) (testerDependencies c) (packageDependencies c)
    (devPackageDependencies c) (peerPackageDependencies c)
    (compilerPackageDependencies c) (testerPackageDependencies c) (_docs c)
    (_files c) v (specsResults c) (license c) (log c) (writtenPath c)
    (originallySharedDir c) (_wasOriginallySharedDirStripped c)
    (componentFromModel c) (isolatedEnvironment c) (deprecated c) (origin c)
    (detachedCompiler c) (detachedTester c) (customResolvedPaths c).
Definition set_specsResults (v : option (list SpecsResults.t)) (c : Component) : Component :=
  mkComponent (name c) (version c) (scope c) (lang c) (bindingPrefix c)
    (mainFile c) (compiler c) (tester c) (dependencies c) (devDependencies c)
    (compilerDependencies c) (testerDependencies c) (packageDependencies c)
    (devPackageDependencies c) (peerPackageDependencies c)
    (compilerPackageDependencies c) (testerPackageDependencies c) (_docs c)
    (_files c) (dists c) v (license c) (log c) (writtenPath c)
    (originallySharedDir c) (_wasOriginallySharedDirStripped c)
    (componentFromModel c) (isolatedEnvironment c) (deprecated c) (origin c)
    (detachedCompiler c) (detachedTester c) (customResolvedPaths c).
Definition set_writtenPath (v : option string) (c : Component) : Component :=
  mkComponent (name c) (version c) (scope c) (lang c) (bindingPrefix c)
    (mainFile c) (compiler c) (tester c) (dependencies c) (devDependencies c)
    (compilerDependencies c) (testerDependencies c) (packageDependencies c)
    (devPackageDependencies c) (peerPackageDependencies c)
    (compilerPackageDependencies c) (testerPackageDependencies c) (_docs c)
    (_files c) (dists c) (specsResults c) (license c) (log c) v
    (originallySharedDir c) (_wasOriginallySharedDirStripped c)
    (componentFromModel c) (isolatedEnvironment c) (deprecated c) (origin c)
    (detachedCompiler c) (detachedTester c) (customResolvedPaths c).
Definition set_originallySharedDir (v : option string) (c : Component) : Component :=
  mkComponent (name c) (version c) (scope c) (lang c) (bindingPrefix c)
    (mainFile c) (compiler c) (tester c) (dependencies c) (devDependencies c)
    (compilerDependencies c) (testerDependencies c) (packageDependencies c)
    (devPackageDependencies c) (peerPackageDependencies c)
    (compilerPackageDependencies c) (testerPackageDependencies c) (_docs c)
    (_files c) (dists c) (specsResults c) (license c) (log c) (writtenPath c)
    v (_wasOriginallySharedDirStripped c) (componentFromModel c)
    (isolatedEnvironment c) (deprecated c) (origin c) (detachedCompiler c)
    (detachedTester c) (customResolvedPaths c).
Definition set_wasOriginallySharedDirStripped (v : bool) (c : Component) : Component :=
  mkComponent (name c) (version c) (scope c) (lang c) (bindingPrefix c)
    (mainFile c) (compiler c) (tester c) (dependencies c) (devDependencies c)
    (compilerDependencies c) (testerDependencies c) (packageDependencies c)
    (devPackageDependencies c) (peerPackageDependencies c)
    (compilerPackageDependencies c) (testerPackageDependencies c) (_docs c)
    (_files c) (dists c) (specsResults c) (license c) (log c) (writtenPath c)
    (originallySharedDir c) v (componentFromModel c) (isolatedEnvironment c)
    (deprecated c) (origin c) (detachedCompiler c) (detachedTester c)
    (customResolvedPaths c).
Definition set_isolatedEnvironment (v : option string) (c : Component) : Component :=
  mkComponent (name c) (version c) (scope c) (lang c) (bindingPrefix c)
    (mainFile c) (compiler c) (tester c) (dependencies c) (devDependencies c)
    (compilerDependencies c) (testerDependencies c) (packageDependencies c)
    (devPackageDependencies c) (peerPackageDependencies c)
    (compilerPackageDependencies c) (testerPackageDependencies c) (_docs c)
    (_files c) (dists c) (specsResults c) (license c) (log c) (writtenPath c)
    (originallySharedDir c) (_wasOriginallySharedDirStripped c)
    (componentFromModel c) v (deprecated c) (origin c) (detachedCompiler c)
    (detachedTester c) (customResolvedPaths c).
Definition set_customResolvedPaths (v : list customResolvedPath) (c : Component) : Component :=
  mkComponent (name c) (version c) (scope c) (lang c) (bindingPrefix c)
    (mainFile c) (compiler c) (tester c) (dependencies c) (devDependencies c)
    (compilerDependencies c) (testerDependencies c) (packageDependencies c)
    (devPackageDependencies c) (peerPackageDependencies c)
    (compilerPackageDependencies c) (testerPackageDependencies c) (_docs c)
    (_files c) (dists c) (specsResults c) (license c) (log c) (writtenPath c)
    (originallySharedDir c) (_wasOriginallySharedDirStripped c)
    (componentFromModel c) (isolatedEnvironment c) (deprecated c) (origin c)
    (detachedCompiler c) (detachedTester c) v.

(** Assignments made by the code that builds or loads a component. *)
Definition set_compiler (v : option CompilerExtension) (c : Component) : Component :=
  mkComponent (name c) (version c) (scope c) (lang c) (bindingPrefix c)
    (mainFile c) v (tester c) (dependencies c) (devDependencies c)
    (compilerDependencies c) (testerDependencies c) (packageDependencies c)
    (devPackageDependencies c) (peerPackageDependencies c)
    (compilerPackageDependencies c) (testerPackageDependencies c) (_docs c)
    (_files c) (dists c) (specsResults c) (license c) (log c) (writtenPath c)
    (originallySharedDir c) (_wasOriginallySharedDirStripped c)
    (componentFromModel c) (isolatedEnvironment c) (deprecated c) (origin c)
    (detachedCompiler c) (detachedTester c) (customResolvedPaths c).
Definition set_tester (v : option TesterExtension) (c : Component) : Component :=
  mkComponent (name c) (version c) (scope c) (lang c) (bindingPrefix c)
    (mainFile c) (compiler c) v (dependencies c) (devDependencies c)
    (compilerDependencies c) (testerDependencies c) (packageDependencies c)
    (devPackageDependencies c) (peerPackageDependencies c)
    (compilerPackageDependencies c) (testerPackageDependencies c) (_docs c)
    (_files c) (dists c) (specsResults c) (license c) (log c) (writtenPath c)
    (originallySharedDir c) (_wasOriginallySharedDirStripped c)
    (componentFromModel c) (isolatedEnvironment c) (deprecated c) (origin c)
    (detachedCompiler c) (detachedTester c) (customResolvedPaths c).
Definition set_componentFromModel (v : option Component) (c : Component) : Component :=
  mkComponent (name c) (version c) (scope c) (lang c) (bindingPrefix c)
    (mainFile c) (compiler c) (tester c) (dependencies c) (devDependencies c)
    (compilerDependencies c) (testerDependencies c) (packageDependencies c)
    (devPackageDependencies c) (peerPackageDependencies c)
    (compilerPackageDependencies c) (testerPackageDependencies c) (_docs c)
    (_files c) (dists c) (specsResults c) (license c) (log c) (writtenPath c)
    (originallySharedDir c) (_wasOriginallySharedDirStripped c) v
    (isolatedEnvironment c) (deprecated c) (origin c) (detachedCompiler c)
    (detachedTester c) (customResolvedPaths c).
Definition set_license (v : option License.t) (c : Component) : Component :=
  mkComponent (name c) (version c) (scope c) (lang c) (bindingPrefix c)
    (mainFile c) (compiler c) (tester c) (dependencies c) (devDependencies c)
    (compilerDependencies c) (testerDependencies c) (packageDependencies c)
    (devPackageDependencies c) (peerPackageDependencies c)
    (compilerPackageDependencies c) (testerPackageDependencies c) (_docs c)
    (_files c) (dists c) (specsResults c) v (log c) (writtenPath c)
    (originallySharedDir c) (_wasOriginallySharedDirStripped c)
    (componentFromModel c) (isolatedEnvironment c) (deprecated c) (origin c)
    (detachedCompiler c) (detachedTester c) (customResolvedPaths c).

(** [this.id] *)
Definition get_id (c : Component) : BitId.t :=
  BitId.mk (scope c) (name c) (version c).

(** The argument of the constructor. *)
Record ComponentProps : Type := mkProps {
  p_name : option string;
  p_version : option string;
  p_scope : option string;
  p_lang : option string;
  p_bindingPrefix : option string;
  p_mainFile : option string;
  p_compiler : option CompilerExtension;
  p_tester : option TesterExtension;
  p_dependencies : option (list Dependencies.Dependency);
  p_devDependencies : option (list Dependencies.Dependency);
  p_compilerDependencies : option (list Dependencies.Dependency);
  p_testerDependencies : option (list Dependencies.Dependency);
  p_packageDependencies : option PackageMap;
  p_devPackageDependencies : option PackageMap;
  p_peerPackageDependencies : option PackageMap;
  p_compilerPackageDependencies : option PackageMap;
  p_testerPackageDependencies : option PackageMap;
  p_files : option FilesField;
  p_docs : option (list Doclet);
  p_dists : option Dists.arg;
  p_specsResults : option (list SpecsResults.t);
  p_license : option License.t;
  p_log : option Log;
  p_deprecated : option bool;
  p_origin : option ComponentOrigin;
  p_detachedCompiler : option bool;
  p_detachedTester : option bool;
  p_customResolvedPaths : option (list customResolvedPath)
}.

(** ** The world around a component *)

Record ComponentStatus : Type := mkStatus { modified : bool }.

(** The workspace (consumer). *)
Record Consumer : Type := mkConsumer {
  getPath : string;
  bitMap : BitMap;
  shouldDistsBeInsideTheComponent : bool;
  getComponentStatusById : BitId.t -> Result ComponentStatus
}.

Record IsolateOptions : Type := mkIsolateOptions {
  io_verbose : option bool;
  io_dist : bool;
  io_installPackages : bool;
  io_installPeerDependencies : bool;
  io_noPackageJson : bool
}.

(** A disposable environment: each operation answers with the outcome
    the environment would give. *)
Record IsolatedEnvironment : Type := mkEnvironment {
  env_getPath : string;
  env_create : Result unit;
  env_isolateComponent : BitId.t -> IsolateOptions -> Result Component;
  env_destroy : Result unit
}.

(** The persisted-model store (scope). *)
Record Scope : Type := mkScope {
  newIsolatedEnvironment : option string -> IsolatedEnvironment;
  sources_modifySpecsResults : Component -> list SpecsResults.t -> Result unit;
  sources_updateDist : Component -> Result unit
}.

(** What a parsed JSON envelope offers to [fromString]: the fields read as
    they are, and the [files] and [dists] values still as parsed. *)
Record ParsedDocument : Type := mkParsed {
  pd_object : ComponentObject;
  pd_files : option json;
  pd_dists : option json
}.

(** What [buildIfNeeded] resolves to: the placeholder for a component
    without compiler, or the files the compiler produced. *)
Inductive BuildOutput : Type :=
| BuildCode (code : string)
| BuildFiles (builtFiles : list BuiltFile).

(** The named arguments of [buildIfNeeded], [build] and [runSpecs]. *)
Record BuildIfNeededArgs : Type := mkBuildIfNeededArgs {
  bin_compiler : option CompilerExtension;
  bin_consumer : option Consumer;
  bin_componentMap : option ComponentMap;
  bin_scope : Scope;
  bin_verbose : option bool;
  bin_directory : option string;
  bin_keep : option bool
}.

Record BuildArgs : Type := mkBuildArgs {
  b_scope : Scope;
  b_save : option bool;
  b_consumer : option Consumer;
  b_noCache : option bool;
  b_verbose : option bool;
  b_keep : option bool
}.

Record RunSpecsArgs : Type := mkRunSpecsArgs {
  rs_scope : Scope;
  rs_rejectOnFailure : option bool;
  rs_consumer : option Consumer;
  rs_save : option bool;
  rs_verbose : option bool;
  rs_isolated : option bool;
  rs_directory : option string;
  rs_keep : option bool
}.

(** Truthiness of an optional object or function. *)
Definition present {A} (o : option A) : bool :=
  match o with Some _ => true | None => false end.

(** Truthiness of an optional flag. *)
Definition flag (b : option bool) : bool := default false b.

(** Calls that leave the component, in the order they are made. *)
Inductive Event : Type :=
| EvChdir (dir : string)
| EvStatus (id : string)
| EvCompilerInstall (compilerName : string)
| EvCompilerAction (compilerName : string)
| EvCompilerOldAction (compilerName : string)
| EvTesterInstall (testerName : string)
| EvTesterAction (testerName : string)
| EvTesterOldAction (testFilePath : string)
| EvEnvCreate
| EvEnvIsolate (id : string)
| EvEnvDestroy
| EvSymlink (from to : string)
| EvWriteDists
| EvDistFileWrite (path : string)
| EvUpdateDist
| EvModifySpecsResults.


(** The event that records the call of the contract a compiler offers:
    the modern action when there is one, the legacy one otherwise. *)
Definition contract_event (compiler : CompilerExtension) : Event :=
  if present (cmp_action compiler) then EvCompilerAction (cmp_name compiler)
  else EvCompilerOldAction (cmp_name compiler).


(** ** Functions of other modules that are taken as given

    Constants and opaque computations of modules that are not part of the
    sources: every result below holds for whatever they are. *)
Class Externals : Type := {
  DEFAULT_LANGUAGE : string;
  DEFAULT_BINDINGS_PREFIX : string;
  DEFAULT_DIST_DIRNAME : string;
  docsParser : string -> string -> list Doclet;
  SourceFile_load : json -> list SourceFile.t;
  SourceFile_loadFromParsedStringArray : option json -> option (list SourceFile.t);
  Dist_loadFromParsedStringArray : json -> option (list Dist.t);
  Dists_getDistDirForConsumer : Dists.t -> option Consumer -> option string -> string;
  Dists_writeDists : Component -> option Consumer -> Result unit;
  Dist_write : Dist.t -> Result unit;
  Dependencies_serialize : Dependencies.t -> list Dependencies.Dependency;
  License_serialize : License.t -> string;
  License_deserialize : string -> License.t;
  SpecsResults_createFromRaw : RawTestsResults -> SpecsResults.t;
  SpecsResults_serialize : SpecsResults.t -> json;
  SpecsResults_deserialize : list json -> list SpecsResults.t;
  CompilerExtension_loadFromModelObject : json -> Result CompilerExtension;
  TesterExtension_loadFromModelObject : json -> Result TesterExtension;
  JSON_parse : string -> Result ParsedDocument;
  paintSpecsResults : list SpecsResults.t -> list string;
  chalk_bold_white : string -> string;
  createSymlinkOrCopy : string -> string -> Result unit
}.

Module Utils.
(** Modelled from the spec: [pathNormalizeToLinux] of the utilities
    (missing from the sources), which turns every path separator into a
    forward slash. *)
Fixpoint pathNormalizeToLinux (p : string) : string :=
  match p with
  | EmptyString => EmptyString
  | String c r =>
      String (if Ascii.eqb c "\"%char then "/"%char else c) (pathNormalizeToLinux r)
  end.

(** Modelled from the spec: [sharedStartOfArray] of the utilities
    (missing from the sources), the longest prefix common to all the
    given strings. *)
Definition sharedStartOfArray (paths : list string) : string :=
  match paths with
  | [] => EmptyString
  | p :: rest => fold_left JsString.common_prefix rest p
  end.
End Utils.

(** ** The monad of the component's methods

    A method runs on a state made of [this] and of the trace of outside
    calls; it returns a value or throws, and keeps its mutations in both
    cases. *)

Record State : Type := mkState { this : Component; trace : list Event }.

Definition M (A : Type) : Type := State -> Result A * State.

#[global] Instance M_ret : MRet M := fun A a st => (Ok a, st).

#[global] Instance M_bind : MBind M := fun A B f m st =>
  match m st with
  | (Ok a, st') => f a st'
  | (Throw e, st') => (Throw e, st')
  end.

#[global] Instance M_fmap : FMap M := fun A B f m st =>
  match m st with
  | (Ok a, st') => (Ok (f a), st')
  | (Throw e, st') => (Throw e, st')
  end.

Definition throw {A} (e : Error) : M A := fun st => (Throw e, st).

(** A result computed outside, brought into the method. *)
Definition lift {A} (r : Result A) : M A := fun st => (r, st).

Definition get_this : M Component := fun st => (Ok (this st), st).

Definition modify (f : Component -> Component) : M unit :=
  fun st => (Ok tt, mkState (f (this st)) (trace st)).

Definition emit (e : Event) : M unit :=
  fun st => (Ok tt, mkState (this st) (trace st ++ [e])).

(** [try { m } catch (err) { handler(err) }] *)
Definition try_catch {A} (m : M A) (handler : Error -> M A) : M A :=
  fun st =>
    match m st with
    | (Ok a, st') => (Ok a, st')
    | (Throw e, st') => handler e st'
    end.

(** [when b m]: [if (b) m] *)
Definition when (b : bool) (m : M unit) : M unit :=
  if b then m else mret tt.

(** [l.forEach(f)], stopping at the first exception. *)
Fixpoint forEach {A} (l : list A) (f : A -> M unit) : M unit :=
  match l with
  | [] => mret tt
  | x :: rest => f x ≫= fun _ => forEach rest f
  end.

(** [l.map(f)] for an effectful [f], in order. *)
Fixpoint mapM {A B} (f : A -> M B) (l : list A) : M (list B) :=
  match l with
  | [] => mret []
  | x :: rest => y ← f x; ys ← mapM f rest; mret (y :: ys)
  end.

(** Runs a method on another component object: the outside calls join the
    trace, [this] is left alone, the other object comes back as mutated. *)
Definition run_on {A} (other : Component) (m : M A) : M (A * Component) :=
  fun st =>
    match m (mkState other (trace st)) with
    | (Ok a, st') => (Ok (a, this st'), mkState (this st) (trace st'))
    | (Throw e, st') => (Throw e, mkState (this st) (trace st'))
    end.

(** Runs a method from a component and an empty trace. *)
Definition exec {A} (m : M A) (c : Component) : Result A * State :=
  m (mkState c []).

(** ** The component's methods *)

Section Methods.

Context `{Externals}.

(** [get files()] *)
Definition files : M (option (list SourceFile.t)) :=
  c ← get_this;
  match _files c with
  | None => mret None
  | Some (FilesArray l) => mret (Some l)
  | Some (FilesRaw o) =>
      let loaded := SourceFile_load o in
      modify (set_files (Some (FilesArray loaded)));;
      mret (Some loaded)
  end.

(** [get docs()] *)
Definition docs : M (list Doclet) :=
  c ← get_this;
  match _docs c with
  | Some d => mret d
  | None =>
      fs ← files;
      let computed :=
        match fs with
        | Some l =>
            concat (map (fun file =>
              docsParser (SourceFile.contents file) (SourceFile.relative file)) l)
        | None => []
        end in
      modify (set_docs (Some computed));;
      mret computed
  end.

(** The fields [validateComponent] requires to be non-empty, and the
    read [this[field]] on them. *)
Definition nonEmptyFields : list string := ["name"; "mainFile"].

Definition field_value (c : Component) (field : string) : string :=
  if bool_decide (field = "name") then name c
  else if bool_decide (field = "mainFile") then mainFile c
  else "".

(** [validateComponent()] *)
Definition validateComponent (c : Component) : Result unit :=
  fold_left (fun acc field =>
    match acc with
    | Throw e => Throw e
    | Ok _ =>
        if negb (JsString.truthy (field_value c field)) then
          Throw (GeneralError ("failed loading a component " ++ BitId.toString (get_id c)
                               ++ ", the field " ++ JsString.dquote ++ field
                               ++ JsString.dquote ++ " can't be empty"))
        else Ok tt
    end) nonEmptyFields (Ok tt).

(** The assignments of the constructor, before the validation. The
    fields the modelled methods never read (the configuration object, the
    flattened identity lists, issues, driver) are left out; a missing name
    is an empty one for the validation. *)
Definition assign_props (p : ComponentProps) (mainFile : string) : Component :=
  {| name := default "" (p_name p);
     version := p_version p;
     scope := p_scope p;
     lang := JsString.or_else (p_lang p) DEFAULT_LANGUAGE;
     bindingPrefix := JsString.or_else (p_bindingPrefix p) DEFAULT_BINDINGS_PREFIX;
     mainFile := Path.normalize mainFile;
     compiler := p_compiler p;
     tester := p_tester p;
     dependencies := Dependencies.new (p_dependencies p);
     devDependencies := Dependencies.new (p_devDependencies p);
     compilerDependencies := Dependencies.new (p_compilerDependencies p);
     testerDependencies := Dependencies.new (p_testerDependencies p);
     packageDependencies := default ∅ (p_packageDependencies p);
     devPackageDependencies := default ∅ (p_devPackageDependencies p);
     peerPackageDependencies := default ∅ (p_peerPackageDependencies p);
     compilerPackageDependencies := default ∅ (p_compilerPackageDependencies p);
     testerPackageDependencies := default ∅ (p_testerPackageDependencies p);
     _files := p_files p;
     _docs := p_docs p;
     dists := Dists.new (p_dists p);
     specsResults := p_specsResults p;
     license := p_license p;
     log := p_log p;
     writtenPath := None;
     originallySharedDir := None;
     _wasOriginallySharedDirStripped := false;
     componentFromModel := None;
     isolatedEnvironment := None;
     deprecated := default false (p_deprecated p);
     origin := p_origin p;
     detachedCompiler := p_detachedCompiler p;
     detachedTester := p_detachedTester p;
     customResolvedPaths := default [] (p_customResolvedPaths p) |}.

(** [new Component(props)]. A missing [mainFile] makes [path.normalize]
    throw. *)
Definition new_Component (p : ComponentProps) : Result Component :=
  match p_mainFile p with
  | None => Throw (TypeError "Path must be a string")
  | Some mainFile =>
      let c := assign_props p mainFile in
      match validateComponent c with
      | Ok _ => Ok c
      | Throw e => Throw e
      end
  end.

(** [setDists(dists)] *)
Definition setDists (d : option Dists.arg) : M unit :=
  modify (set_dists (Dists.new d)).

(** The object literal of [toObject], given what the two getters
    returned. *)
Definition snapshot (c : Component) (fs : option (list SourceFile.t))
    (d : list Doclet) : ComponentObject :=
  {| o_name := Some (name c);
     o_box := None;
     o_version := version c;
     o_mainFile := Some (mainFile c);
     o_scope := scope c;
     o_lang := Some (lang c);
     o_bindingPrefix := Some (bindingPrefix c);
     o_compiler := cmp_toObject <$> compiler c;
     o_tester := tst_toObject <$> tester c;
     o_detachedCompiler := detachedCompiler c;
     o_detachedTester := detachedTester c;
     o_dependencies := Some (Dependencies_serialize (dependencies c));
     o_devDependencies := Some (Dependencies_serialize (devDependencies c));
     o_compilerDependencies := Some (Dependencies_serialize (compilerDependencies c));
     o_testerDependencies := Some (Dependencies_serialize (testerDependencies c));
     o_packageDependencies := Some (packageDependencies c);
     o_devPackageDependencies := Some (devPackageDependencies c);
     o_peerPackageDependencies := Some (peerPackageDependencies c);
     o_compilerPackageDependencies := Some (compilerPackageDependencies c);
     o_testerPackageDependencies := Some (testerPackageDependencies c);
     o_files := FilesArray <$> fs;
     o_docs := Some d;
     o_dists := Some (Dists.as_arg (dists c));
     o_specsResults := map SpecsResults_serialize <$> specsResults c;
     o_license := License_serialize <$> license c;
     o_log := log c;
     o_deprecated := Some (deprecated c) |}.

(** [toObject()]: reading [files] and [docs] goes through the getters. *)
Definition toObject : M ComponentObject :=
  fs ← files;
  d ← docs;
  c ← get_this;
  mret (snapshot c fs d).

(** [copyFilesIntoDists()] *)
Definition copyFilesIntoDists : M unit :=
  fs ← files;
  match fs with
  | None => throw (TypeError "Cannot read property 'map' of null")
  | Some l =>
      setDists (Some (Dists.Array (map (fun file =>
        Dist.mk (SourceFile.base file) (SourceFile.relative file)
                (SourceFile.contents file) false) l)))
  end.

(** The paths [setOriginallySharedDir] looks at: the component's own
    relative file paths, then the source paths of the four dependency
    classes. *)
Definition allPaths (fs : list SourceFile.t) (c : Component) : list string :=
  map (fun file => Utils.pathNormalizeToLinux (SourceFile.relative file)) fs
  ++ Dependencies.getSourcesPaths (dependencies c)
  ++ Dependencies.getSourcesPaths (devDependencies c)
  ++ Dependencies.getSourcesPaths (compilerDependencies c)
  ++ Dependencies.getSourcesPaths (testerDependencies c).

(** [setOriginallySharedDir()] *)
Definition setOriginallySharedDir : M unit :=
  c ← get_this;
  match originallySharedDir c with
  | Some _ => mret tt
  | None =>
      let pathSep := "/" in
      fs ← files;
      match fs with
      | None => throw (TypeError "Cannot read property 'map' of null")
      | Some l =>
          c ← get_this;
          let sharedStart := Utils.sharedStartOfArray (allPaths l c) in
          if negb (JsString.truthy sharedStart)
             || negb (JsString.includes pathSep sharedStart) then mret tt
          else
            let lastPathSeparator := JsString.lastIndexOf "/" sharedStart in
            modify (set_originallySharedDir
                      (Some (JsString.substring 0 lastPathSeparator sharedStart)))
      end
  end.

(** The helper of [stripOriginallySharedDir]. *)
Definition pathWithoutSharedDir (pathStr : string) (sharedDir : option string) : string :=
  match sharedDir with
  | None => pathStr
  | Some dir =>
      if negb (JsString.truthy dir) then pathStr
      else
        let partToRemove := Path.normalize dir ++ Path.sep in
        JsString.replace partToRemove "" pathStr
  end.

(** [stripOriginallySharedDir(bitMap)] *)
Definition stripOriginallySharedDir (bitMap : option BitMap) : M unit :=
  c ← get_this;
  if _wasOriginallySharedDirStripped c then mret tt
  else
    setOriginallySharedDir;;
    c ← get_this;
    let originallySharedDir := originallySharedDir c in
    fs ← files;
    match fs with
    | None => throw (TypeError "Cannot read property 'forEach' of null")
    | Some l =>
        modify (set_files (Some (FilesArray (map (fun file =>
          SourceFile.updatePaths (Some (SourceFile.base file))
            (Some (pathWithoutSharedDir (SourceFile.relative file) originallySharedDir))
            file) l))));;
        modify (fun c => set_dists
          (Dists.stripOriginallySharedDir originallySharedDir pathWithoutSharedDir (dists c)) c);;
        modify (fun c => set_mainFile (pathWithoutSharedDir (mainFile c) originallySharedDir) c);;
        modify (fun c => set_dependencies
          (Dependencies.stripOriginallySharedDir bitMap originallySharedDir (dependencies c)) c);;
        modify (fun c => set_devDependencies
          (Dependencies.stripOriginallySharedDir bitMap originallySharedDir (devDependencies c)) c);;
        modify (fun c => set_compilerDependencies
          (Dependencies.stripOriginallySharedDir bitMap originallySharedDir (compilerDependencies c)) c);;
        modify (fun c => set_testerDependencies
          (Dependencies.stripOriginallySharedDir bitMap originallySharedDir (testerDependencies c)) c);;
        modify (fun c => set_customResolvedPaths
          (map (fun customPath =>
             mkCustomPath
               (Utils.pathNormalizeToLinux
                  (pathWithoutSharedDir (Path.normalize (destinationPath customPath))
                     originallySharedDir))
               (importSource customPath))
             (customResolvedPaths c)) c);;
        modify (set_wasOriginallySharedDirStripped true)
    end.

(** [copyDependenciesFromModel(ids)] *)
Definition copyDependenciesFromModel (ids : list string) : M unit :=
  c ← get_this;
  match componentFromModel c with
  | None => throw (JsError "copyDependenciesFromModel: component is missing from the model")
  | Some componentFromModel =>
      forEach ids (fun id =>
        match Dependencies.getByIdStr id (dependencies componentFromModel) with
        | Some dependency =>
            modify (fun c => set_dependencies (Dependencies.add dependency (dependencies c)) c)
        | None =>
        match Dependencies.getByIdStr id (devDependencies componentFromModel) with
        | Some dependency =>
            modify (fun c => set_devDependencies (Dependencies.add dependency (devDependencies c)) c)
        | None =>
        match Dependencies.getByIdStr id (compilerDependencies componentFromModel) with
        | Some dependency =>
            modify (fun c => set_compilerDependencies
                               (Dependencies.add dependency (compilerDependencies c)) c)
        | None =>
        match Dependencies.getByIdStr id (testerDependencies componentFromModel) with
        | Some dependency =>
            modify (fun c => set_testerDependencies
                               (Dependencies.add dependency (testerDependencies c)) c)
        | None =>
            throw (JsError ("copyDependenciesFromModel unable to find dependency "
                            ++ id ++ " in the model"))
        end end end end)
  end.

(** The closure [runBuild] of [buildIfNeeded]: [files] are the clones
    taken on entry, [componentRoot] may be [undefined]. Whatever is thrown
    once the promise chain has started comes out as an
    [ExternalBuildError]. *)
Definition runBuild (compiler : CompilerExtension) (consumer : option Consumer)
    (componentMap : option ComponentMap) (clones : list SourceFile.t)
    (componentRoot : option string) : M (list BuiltFile) :=
  match componentRoot with
  | None => throw (TypeError "Path must be a string")
  | Some componentRoot =>
      c ← get_this;
      let rootDistFolder :=
        match componentMap with
        | Some cm => Dists_getDistDirForConsumer (dists c) consumer (cm_rootDir cm)
        | None => Path.join componentRoot DEFAULT_DIST_DIRNAME
        end in
      let componentDir :=
        match componentMap with
        | Some cm =>
            match consumer, cm_rootDir cm with
            | Some consumer, Some rootDir =>
                if JsString.truthy rootDir
                then Some (Path.join (getPath consumer) rootDir)
                else None
            | _, _ => None
            end
        | None => None
        end in
      try_catch
        (obj ← toObject;
         let context := mkBuildContext obj rootDistFolder componentDir in
         emit (EvChdir componentRoot);;
         match cmp_action compiler with
         | Some action =>
             let actionParams :=
               mkCompilerActionParams clones (cmp_rawConfig compiler)
                 (cmp_dynamicConfig compiler) (cmp_files compiler)
                 (cmp_api compiler) context in
             emit (EvCompilerAction (cmp_name compiler));;
             result ← lift (action actionParams);
             match result with
             | Some (mkCompilerActionResult (Some builtFiles)) => mret builtFiles
             | _ => throw (JsError "compiler return invalid response")
             end
         | None =>
             match cmp_oldAction compiler with
             | Some oldAction =>
                 emit (EvCompilerOldAction (cmp_name compiler));;
                 lift (oldAction clones rootDistFolder context)
             | None => throw (TypeError "compiler.oldAction is not a function")
             end
         end)
        (fun e =>
           c ← get_this;
           throw (ExternalBuildError e (BitId.toString (get_id c))))
  end.

(** [buildIfNeeded({ compiler, consumer, componentMap, scope, verbose,
    directory, keep })] *)
Definition buildIfNeeded (a : BuildIfNeededArgs) : M BuildOutput :=
  match bin_compiler a with
  | None => mret (BuildCode "")
  | Some compiler =>
      fs ← files;
      match fs with
      | None => throw (TypeError "Cannot read property 'map' of null")
      | Some l =>
          let clones := map SourceFile.clone l in
          let runBuild := runBuild compiler (bin_consumer a) (bin_componentMap a) clones in
          if negb (present (cmp_action compiler))
             && negb (present (cmp_oldAction compiler))
          then throw (InvalidCompilerInterface (cmp_name compiler))
          else
            match bin_consumer a with
            | Some consumer => BuildFiles <$> runBuild (Some (getPath consumer))
            | None =>
                c ← get_this;
                if present (isolatedEnvironment c) then
                  BuildFiles <$> runBuild (writtenPath c)
                else
                  let isolatedEnvironment :=
                    newIsolatedEnvironment (bin_scope a) (bin_directory a) in
                  try_catch
                    (emit EvEnvCreate;;
                     lift (env_create isolatedEnvironment);;
                     let isolateOpts :=
                       mkIsolateOptions (bin_verbose a) false true false false in
                     emit (EvEnvIsolate (BitId.toString (get_id c)));;
                     component ← lift (env_isolateComponent isolatedEnvironment
                                         (get_id c) isolateOpts);
                     result ← runBuild (writtenPath component);
                     when (negb (flag (bin_keep a)))
                          (emit EvEnvDestroy;; lift (env_destroy isolatedEnvironment));;
                     mret (BuildFiles result))
                    (fun err =>
                       emit EvEnvDestroy;;
                       lift (env_destroy isolatedEnvironment);;
                       throw err)
            end
      end
  end.

(** The closure [isNeededToReBuild] of [build]. *)
Definition isNeededToReBuild (a : BuildArgs) : M bool :=
  if flag (b_noCache a) then mret true
  else
    match b_consumer a with
    | None => mret false
    | Some consumer =>
        c ← get_this;
        emit (EvStatus (BitId.toString (get_id c)));;
        componentStatus ← lift (getComponentStatusById consumer (get_id c));
        mret (modified componentStatus)
    end.

(** The tail of [build], from the installation of the compiler on: what
    runs once the cached dists are not reused. *)
Definition rebuild (a : BuildArgs) (compiler : CompilerExtension)
    (consumerPath : string) (componentMap : option ComponentMap)
    (componentDir : option string) : M (option Dists.t) :=
  c ← get_this;
  when (negb (cmp_loaded compiler))
       (emit (EvCompilerInstall (cmp_name compiler));;
        lift (cmp_install compiler (b_verbose a)
                (mkInstallContext consumerPath componentDir (get_id c))));;
  builtFiles ← buildIfNeeded
    (mkBuildIfNeededArgs (Some compiler) (b_consumer a) componentMap (b_scope a)
       (b_verbose a) None (b_keep a));
  match builtFiles with
  | BuildCode _ => throw (TypeError "builtFiles.forEach is not a function")
  | BuildFiles l =>
      forEach l (fun file =>
        match bf_contents file with
        | None =>
            throw (GeneralError
              "builder interface has to return object with a code attribute that contains string")
        | Some _ => mret tt
        end);;
      setDists (Some (Dists.Array (map (fun file =>
        Dist.mk (bf_base file) (bf_relative file) (default "" (bf_contents file))
                (bf_test file)) l)));;
      c ← get_this;
      when (flag (b_save a))
           (emit EvUpdateDist;; lift (sources_updateDist (b_scope a) c));;
      c ← get_this;
      mret (Some (dists c))
  end.

(** [build({ scope, save, consumer, noCache, verbose, keep })] *)
Definition build (a : BuildArgs) : M (option Dists.t) :=
  c ← get_this;
  match compiler c with
  | None =>
      match b_consumer a with
      | None => mret None
      | Some consumer =>
          if shouldDistsBeInsideTheComponent consumer then mret None
          else
            copyFilesIntoDists;;
            c ← get_this;
            mret (Some (dists c))
      end
  | Some compiler =>
      let bitMap := bitMap <$> b_consumer a in
      let consumerPath :=
        match b_consumer a with Some consumer => getPath consumer | None => "" end in
      let componentMap :=
        match bitMap with
        | Some bm => getComponentIfExist bm (get_id c)
        | None => None
        end in
      let componentDir :=
        match componentMap with
        | Some cm =>
            match cm_rootDir cm with
            | Some rootDir =>
                if JsString.truthy consumerPath && JsString.truthy rootDir
                then Some (Path.join consumerPath rootDir) else None
            | None => None
            end
        | None => Some consumerPath
        end in
      needToRebuild ← isNeededToReBuild a;
      c ← get_this;
      if negb needToRebuild && negb (Dists.isEmpty (dists c)) then
        when (match componentMap with
              | Some cm => bool_decide (cm_origin cm = IMPORTED)
              | None => false
              end)
             (stripOriginallySharedDir bitMap);;
        c ← get_this;
        mret (Some (dists c))
      else rebuild a compiler consumerPath componentMap componentDir
  end.

(** A test file is a dist or a source file; both carry a path and a
    relative path. *)
Definition testFile_path (f : Dist.t + SourceFile.t) : string :=
  match f with inl d => Dist.path d | inr s => SourceFile.path s end.

Definition testFile_relative (f : Dist.t + SourceFile.t) : string :=
  match f with inl d => Dist.relative d | inr s => SourceFile.relative s end.

(** The result recorded for a test file whose run threw [err]. *)
Definition failedSpecResult (relative : string) (err : Error) : RawTestsResults :=
  let failures := [mkRawFailure (error_message err) (Some err)] in
  mkRaw (Some relative) false [] failures.

(** The closure [oneFileSpecResult] of the legacy tester contract. *)
Definition oneFileSpecResult (tester : TesterExtension)
    (testFile : Dist.t + SourceFile.t) : M RawTestsResults :=
  let testFilePath := testFile_path testFile in
  try_catch
    (match tst_oldAction tester with
     | None => throw (TypeError "tester.oldAction is not a function")
     | Some oldAction =>
         emit (EvTesterOldAction testFilePath);;
         results ← lift (oldAction testFilePath);
         mret (mkRaw (Some (testFile_relative testFile)) (raw_pass results)
                     (raw_tests results) (raw_failures results))
     end)
    (fun err => mret (failedSpecResult (testFile_relative testFile) err)).

(** Reads of the [component] parameter of the closure [run]: it is [this]
    itself, or the component of the isolated environment. *)
Definition on_component {A} (component : option Component) (m : M A) : M A :=
  match component with
  | None => m
  | Some other => fst <$> run_on other m
  end.

(** The constant [testFilesList] of the closure [run]: the test dists
    when the component has dists, its test files otherwise. *)
Definition testFilesList : M (list (Dist.t + SourceFile.t)) :=
  c ← get_this;
  if negb (Dists.isEmpty (dists c)) then
    match Dists.get (dists c) with
    | Dists.Array l => mret (map inl (List.filter Dist.test l))
    | _ => throw (TypeError "component.dists.get(...).filter is not a function")
    end
  else
    fs ← files;
    match fs with
    | Some l => mret (map inr (List.filter SourceFile.test l))
    | None => throw (TypeError "Cannot read property 'filter' of null")
    end.

(** The closure [run] of [runSpecs]; [component = None] stands for the
    call [run(this, cwd)], and [plugin] is the tester captured by the
    closure. *)
Definition runSpecs_run (a : RunSpecsArgs) (plugin : TesterExtension)
    (component : option Component) (cwd : option string)
    : M (option (list SpecsResults.t)) :=
  when (JsString.truthy (default "" cwd)) (emit (EvChdir (default "" cwd)));;
  testFilesList ← on_component component testFilesList;
  c ← get_this;
  let contextPaths :=
    match tst_context <$> tester c with
    | Some (Some paths) => Some paths
    | _ =>
        match rs_consumer a with
        | Some consumer => Some [("workspaceDir", projectRoot (bitMap consumer))]
        | None => None
        end
    end in
  rawResults ← try_catch
    (match tst_action plugin with
     | Some action =>
         obj ← on_component component toObject;
         let context := mkTesterContext obj contextPaths in
         let actionParams :=
           mkTesterActionParams testFilesList (tst_rawConfig plugin)
             (tst_dynamicConfig plugin) (tst_files plugin) (tst_api plugin) context in
         emit (EvTesterAction (tst_name plugin));;
         lift (action actionParams)
     | None => mapM (oneFileSpecResult plugin) testFilesList
     end)
    (fun err =>
       c ← get_this;
       throw (ExternalTestError err (BitId.toString (get_id c))));
  let results := map SpecsResults_createFromRaw rawResults in
  modify (set_specsResults (Some results));;
  c ← get_this;
  if flag (rs_rejectOnFailure a) && negb (forallb SpecsResults.pass results) then
    if flag (rs_verbose a) then
      let specsResultsPretty := String.concat JsString.newline (paintSpecsResults results) in
      let componentIdPretty := chalk_bold_white (BitId.toString (get_id c)) in
      throw (ComponentSpecsFailed
               (Some (componentIdPretty ++ specsResultsPretty ++ JsString.newline)))
    else throw (ComponentSpecsFailed None)
  else
    when (flag (rs_save a))
         (emit EvModifySpecsResults;;
          lift (sources_modifySpecsResults (rs_scope a) c results));;
    c ← get_this;
    mret (specsResults c).

(** The first rejection among promises awaited together. *)
Definition first_error (l : list (Result unit)) : Result unit :=
  match List.find (fun r => negb (is_ok r)) l with
  | Some r => r
  | None => Ok tt
  end.

(** [runSpecs({ scope, rejectOnFailure, consumer, save, verbose, isolated,
    directory, keep })] *)
Definition runSpecs (a : RunSpecsArgs) : M (option (list SpecsResults.t)) :=
  fs ← files;
  match fs with
  | None => throw (TypeError "Cannot read property 'filter' of null")
  | Some l =>
      let testFiles := List.filter SourceFile.test l in
      c ← get_this;
      match tester c, testFiles with
      | None, _ | _, [] => mret None
      | Some tester, _ :: _ =>
          when (negb (tst_loaded tester))
               (emit (EvTesterInstall (tst_name tester));;
                lift (tst_install tester (rs_verbose a)));;
          let testerFilePath := tst_filePath tester in
          let isolatedRun : M (option (list SpecsResults.t)) :=
            let isolatedEnvironment :=
              newIsolatedEnvironment (rs_scope a) (rs_directory a) in
            try_catch
              (emit EvEnvCreate;;
               lift (env_create isolatedEnvironment);;
               let isolateOpts := mkIsolateOptions (rs_verbose a) true true true false in
               let localTesterPath := Path.join (env_getPath isolatedEnvironment) "tester" in
               c ← get_this;
               emit (EvEnvIsolate (BitId.toString (get_id c)));;
               component ← lift (env_isolateComponent isolatedEnvironment
                                   (get_id c) isolateOpts);
               emit (EvSymlink testerFilePath localTesterPath);;
               lift (createSymlinkOrCopy testerFilePath localTesterPath);;
               let component :=
                 set_isolatedEnvironment (Some (env_getPath isolatedEnvironment)) component in
               built ← run_on component
                 (build (mkBuildArgs (rs_scope a) None None None (rs_verbose a) None));
               let component := snd built in
               (if negb (Dists.isEmpty (dists component)) then
                  match Dists.get (dists component) with
                  | Dists.Array files =>
                      forEach files (fun file => emit (EvDistFileWrite (Dist.path file)));;
                      lift (first_error (map Dist_write files))
                  | _ => throw (TypeError "component.dists.get(...).map is not a function")
                  end
                else mret tt);;
               results ← runSpecs_run a tester (Some component) None;
               when (negb (flag (rs_keep a)))
                    (emit EvEnvDestroy;; lift (env_destroy isolatedEnvironment));;
               mret results)
              (fun e =>
                 emit EvEnvDestroy;;
                 lift (env_destroy isolatedEnvironment);;
                 throw e) in
          match rs_consumer a with
          | Some consumer =>
              if negb (flag (rs_isolated a)) then
                build (mkBuildArgs (rs_scope a) None (Some consumer) None (rs_verbose a) None);;
                c ← get_this;
                emit EvWriteDists;;
                lift (Dists_writeDists c (Some consumer));;
                runSpecs_run a tester None (Some (getPath consumer))
              else isolatedRun
          | None => isolatedRun
          end
      end
  end.

(** [descriptor ? await load(descriptor) : null] *)
Definition load_descriptor {X} (descriptor : option json) (load : json -> Result X)
    : Result (option X) :=
  match descriptor with
  | Some d =>
      if json_truthy d then
        match load d with Ok x => Ok (Some x) | Throw e => Throw e end
      else Ok None
  | None => Ok None
  end.

(** [Component.fromObject(object)] *)
Definition fromObject (object : ComponentObject) : Result Component :=
  match load_descriptor (o_compiler object) CompilerExtension_loadFromModelObject with
  | Throw e => Throw e
  | Ok compiler =>
  match load_descriptor (o_tester object) TesterExtension_loadFromModelObject with
  | Throw e => Throw e
  | Ok tester =>
      new_Component
        {| p_name :=
             match o_box object with
             | Some box =>
                 if JsString.truthy box
                 then Some (box ++ "/" ++ default "undefined" (o_name object))
                 else o_name object
             | None => o_name object
             end;
           p_version := o_version object;
           p_scope := o_scope object;
           p_lang := o_lang object;
           p_bindingPrefix := o_bindingPrefix object;
           p_mainFile := o_mainFile object;
           p_compiler := compiler;
           p_tester := tester;
           p_dependencies := o_dependencies object;
           p_devDependencies := o_devDependencies object;
           p_compilerDependencies := o_compilerDependencies object;
           p_testerDependencies := o_testerDependencies object;
           p_packageDependencies := o_packageDependencies object;
           p_devPackageDependencies := o_devPackageDependencies object;
           p_peerPackageDependencies := o_peerPackageDependencies object;
           p_compilerPackageDependencies := o_compilerPackageDependencies object;
           p_testerPackageDependencies := o_testerPackageDependencies object;
           p_files := o_files object;
           p_docs := o_docs object;
           p_dists := o_dists object;
           p_specsResults := SpecsResults_deserialize <$> o_specsResults object;
           p_license :=
             match o_license object with
             | Some license =>
                 if JsString.truthy license then Some (License_deserialize license) else None
             | None => None
             end;
           p_log := None;
           p_deprecated := Some (default false (o_deprecated object));
           p_origin := None;
           p_detachedCompiler := o_detachedCompiler object;
           p_detachedTester := o_detachedTester object;
           p_customResolvedPaths := None |}
  end end.

(** The normalization [fromString] applies to the parsed [dists] value:
    a bare array is loaded, a wrapped object has its inner [dists] loaded,
    anything else goes through untouched. *)
Definition normalize_dists (dists : option json) : option Dists.arg :=
  match dists with
  | None => None
  | Some d =>
      if json_truthy d && json_isArray d then
        Dists.Array <$> Dist_loadFromParsedStringArray d
      else
        match json_get "dists" d with
        | Some inner =>
            if json_truthy d && json_truthy inner then
              Dists.Array <$> Dist_loadFromParsedStringArray inner
            else Some (Dists.Raw d)
        | None => Some (Dists.Raw d)
        end
  end.

(** The body of [fromString] once the envelope is parsed. *)
Definition fromString_parsed (parsed : ParsedDocument) : Result Component :=
  let files := FilesArray <$> SourceFile_loadFromParsedStringArray (pd_files parsed) in
  let dists := normalize_dists (pd_dists parsed) in
  fromObject (assign_files_dists files dists (pd_object parsed)).

(** [Component.fromString(str)] *)
Definition fromString (str : string) : Result Component :=
  match JSON_parse str with
  | Throw e => Throw e
  | Ok parsed => fromString_parsed parsed
  end.

End Methods.

(** ** Reading a component without running a method *)

Section Readers.

Context `{Externals}.

(** The value the [files] getter returns on [c]. *)
Definition files_value (c : Component) : option (list SourceFile.t) :=
  match _files c with
  | None => None
  | Some (FilesArray l) => Some l
  | Some (FilesRaw o) => Some (SourceFile_load o)
  end.

(** The doclets of a list of files, as the getter computes them. *)
Definition doclets_of (fs : option (list SourceFile.t)) : list Doclet :=
  match fs with
  | Some l =>
      concat (map (fun file =>
        docsParser (SourceFile.contents file) (SourceFile.relative file)) l)
  | None => []
  end.

(** The value the [docs] getter returns on [c]. *)
Definition docs_value_of (c : Component) : list Doclet :=
  match _docs c with
  | Some d => d
  | None => doclets_of (files_value c)
  end.

(** The test files [run] would take from [c]. *)
Definition testFilesList_of (c : Component) : Result (list (Dist.t + SourceFile.t)) :=
  if negb (Dists.isEmpty (dists c)) then
    match Dists.get (dists c) with
    | Dists.Array l => Ok (map inl (List.filter Dist.test l))
    | _ => Throw (TypeError "component.dists.get(...).filter is not a function")
    end
  else
    match files_value c with
    | Some l => Ok (map inr (List.filter SourceFile.test l))
    | None => Throw (TypeError "Cannot read property 'filter' of null")
    end.







End Readers.

(** [c'] is [c] up to the two fields the getters memoize. *)
Definition memo_of (c c' : Component) : Prop :=
  c' = set_docs (_docs c') (set_files (_files c') c).



(** The four dependency classes, in the order the component walks them. *)
Inductive DependencyClass : Type := Runtime | Dev | CompilerClass | TesterClass.

Definition class_of (k : DependencyClass) (c : Component) : Dependencies.t :=
  match k with
  | Runtime => dependencies c
  | Dev => devDependencies c
  | CompilerClass => compilerDependencies c
  | TesterClass => testerDependencies c
  end.

Definition set_class (k : DependencyClass) (d : Dependencies.t) (c : Component) : Component :=
  match k with
  | Runtime => set_dependencies d c
  | Dev => set_devDependencies d c
  | CompilerClass => set_compilerDependencies d c
  | TesterClass => set_testerDependencies d c
  end.

(** The first class of the model, in the fixed order, that holds a record
    for [id], with that record. *)
Definition find_in_model (model : Component) (id : string)
    : option (DependencyClass * Dependencies.Dependency) :=
  let look k := (fun dep => (k, dep)) <$> Dependencies.getByIdStr id (class_of k model) in
  match look Runtime with
  | Some r => Some r
  | None =>
      match look Dev with
      | Some r => Some r
      | None =>
          match look CompilerClass with
          | Some r => Some r
          | None => look TesterClass
          end
      end
  end.

(** Copy of one id as the specification words it: the first match goes
    into the corresponding class of the component. *)
Definition copy_one (model : Component) (c : Component) (id : string) : Component :=
  match find_in_model model id with
  | Some (k, dep) => set_class k (Dependencies.add dep (class_of k c)) c
  | None => c
  end.

(** ** Sample data

    A small workspace used to exercise the methods on concrete inputs. *)

Module Sample.

Definition parsed_dist (j : json) : Dist.t :=
  let text key := match json_get key j with Some (JStr s) => s | _ => "" end in
  let flag key := match json_get key j with Some (JBool b) => b | _ => false end in
  Dist.mk (text "base") (text "relativePath") (text "file") (flag "test").

(** Two texts of the same document, with the [dists] in the legacy and
    in the current shape, and a [JSON.parse] that knows these two texts
    only. *)
Definition quoted (s : string) : string := JsString.dquote ++ s ++ JsString.dquote.

Definition legacy_text : string :=
  "{" ++ quoted "name" ++ ":" ++ quoted "foo" ++ "," ++ quoted "mainFile" ++ ":"
  ++ quoted "index.js" ++ "," ++ quoted "dists" ++ ":[]}".

Definition current_text : string :=
  "{" ++ quoted "name" ++ ":" ++ quoted "foo" ++ "," ++ quoted "mainFile" ++ ":"
  ++ quoted "index.js" ++ "," ++ quoted "dists" ++ ":{" ++ quoted "dists" ++ ":[]}}".

Definition document : ComponentObject :=
  mkObject (Some "foo") None None (Some "index.js") None None None None None None None
           None None None None None None None None None None None None None None None None.

Definition parse (s : string) : Result ParsedDocument :=
  if bool_decide (s = legacy_text) then Ok (mkParsed document None (Some (JArr [])))
  else if bool_decide (s = current_text)
       then Ok (mkParsed document None (Some (JObj [("dists", JArr [])])))
       else Throw (SyntaxError "Unexpected token").

Definition externals : Externals := {|
  DEFAULT_LANGUAGE := "javascript";
  DEFAULT_BINDINGS_PREFIX := "@bit";
  DEFAULT_DIST_DIRNAME := "dist";
  docsParser := fun contents relative => [relative ++ ":" ++ contents];
  SourceFile_load := fun _ => [];
  SourceFile_loadFromParsedStringArray := fun _ => None;
  Dist_loadFromParsedStringArray := fun j =>
    match j with JArr items => Some (map parsed_dist items) | _ => None end;
  Dists_getDistDirForConsumer := fun _ _ _ => "dist";
  Dists_writeDists := fun _ _ => Ok tt;
  Dist_write := fun _ => Ok tt;
  Dependencies_serialize := Dependencies.dependencies;
  License_serialize := License.contents;
  License_deserialize := fun s => License.mk "" s;
  SpecsResults_createFromRaw := fun r =>
    SpecsResults.mk (specPath r) (raw_pass r) (raw_tests r) (raw_failures r);
  SpecsResults_serialize := fun _ => JNull;
  SpecsResults_deserialize := fun _ => [];
  CompilerExtension_loadFromModelObject := fun _ => Throw (External "compiler is not installed");
  TesterExtension_loadFromModelObject := fun _ => Throw (External "tester is not installed");
  JSON_parse := parse;
  paintSpecsResults := fun _ => [];
  chalk_bold_white := fun s => s;
  createSymlinkOrCopy := fun _ _ => Ok tt
|}.

Definition no_props : ComponentProps :=
  mkProps None None None None None None None None None None None None None None
          None None None None None None None None None None None None None None.

(** Props with a name and a main file only. *)
Definition props (name mainFile : string) : ComponentProps :=
  mkProps (Some name) None None None None (Some mainFile) None None None None None None
          None None None None None None None None None None None None None None None None.

Definition file (relative : string) (test : bool) : SourceFile.t :=
  SourceFile.mk "/ws/components/foo" relative "module.exports = 1" test.

(** A component as the constructor leaves it, given files and dists. *)
Definition component (files : list SourceFile.t) (dists : list Dist.t) : Component :=
  {| name := "foo"; version := Some "0.0.1"; scope := Some "my-scope";
     lang := "javascript"; bindingPrefix := "@bit"; mainFile := "index.js";
     compiler := None; tester := None;
     dependencies := Dependencies.new None;
     devDependencies := Dependencies.new None;
     compilerDependencies := Dependencies.new None;
     testerDependencies := Dependencies.new None;
     packageDependencies := ∅; devPackageDependencies := ∅;
     peerPackageDependencies := ∅; compilerPackageDependencies := ∅;
     testerPackageDependencies := ∅;
     _docs := None; _files := Some (FilesArray files);
     dists := Dists.new (Some (Dists.Array dists));
     specsResults := None; license := Some (License.mk "" "MIT"); log := None;
     writtenPath := None; originallySharedDir := None;
     _wasOriginallySharedDirStripped := false;
     componentFromModel := None; isolatedEnvironment := None;
     deprecated := false; origin := None;
     detachedCompiler := None; detachedTester := None;
     customResolvedPaths := [] |}.

(** A model twin holding one runtime dependency, [a], and one tester
    dependency, [b]; and a component loaded next to it. *)
(** A loaded compiler answering with no file, through the contracts
    asked for. *)
Definition compiler (modern legacy : bool) : CompilerExtension :=
  {| cmp_name := "babel"; cmp_loaded := true;
     cmp_install := fun _ _ => Ok tt;
     cmp_action :=
       if modern then Some (fun _ => Ok (Some (mkCompilerActionResult (Some [])))) else None;
     cmp_oldAction := if legacy then Some (fun _ _ _ => Ok []) else None;
     cmp_rawConfig := ""; cmp_dynamicConfig := ""; cmp_files := []; cmp_api := "";
     cmp_toObject := JStr "babel" |}.

(** A workspace at /ws that knows every component under the given
    origin and reports it as not modified. *)
Definition consumer (origin : ComponentOrigin) : Consumer :=
  {| getPath := "/ws";
     bitMap := mkBitMap (fun _ => Some (mkComponentMap origin (Some "components/foo") None)) "/ws";
     shouldDistsBeInsideTheComponent := true;
     getComponentStatusById := fun _ => Ok (mkStatus false) |}.

(** A store whose isolated environments cannot be created. *)
Definition scope : Scope :=
  {| newIsolatedEnvironment := fun _ =>
       mkEnvironment "/tmp/env" (Throw (External "no environment"))
         (fun _ _ => Throw (External "no environment")) (Ok tt);
     sources_modifySpecsResults := fun _ _ => Ok tt;
     sources_updateDist := fun _ => Ok tt |}.

(** A loaded legacy tester that crashes on a.spec.js and passes every
    other file. *)
Definition tester : TesterExtension :=
  {| tst_name := "mocha"; tst_loaded := true;
     tst_install := fun _ => Ok tt;
     tst_action := None;
     tst_oldAction := Some (fun path =>
       if bool_decide (path = "/ws/components/foo/a.spec.js")
       then Throw (External "boom")
       else Ok (mkRaw None true [mkRawTest "works" true] []));
     tst_filePath := "/ws/.bit/mocha.js"; tst_context := None;
     tst_rawConfig := ""; tst_dynamicConfig := ""; tst_files := []; tst_api := "";
     tst_toObject := JStr "mocha" |}.

Definition no_build_args (consumer : option Consumer) (noCache : option bool) : BuildArgs :=
  mkBuildArgs scope None consumer noCache None None.

Definition run_specs_args : RunSpecsArgs :=
  mkRunSpecsArgs scope None (Some (consumer AUTHORED)) None None None None None.

(** A component with one source file under src/ and the dist cached
    for it; and the same with a compiler. *)
Definition plain : Component :=
  component [file "src/index.js" false]
            [Dist.mk "/ws/components/foo/dist" "src/index.js" "compiled" false].

Definition built : Component := set_compiler (Some (compiler true false)) plain.

(** A component with two test files and one plain file, no dists. *)
Definition tested : Component :=
  set_tester (Some tester)
    (component [file "a.spec.js" true; file "b.spec.js" true; file "index.js" false] []).

Definition dep (name : string) : Dependencies.Dependency :=
  Dependencies.mkDep (BitId.mk None name None) [].

Definition model : Component :=
  set_testerDependencies (Dependencies.mk [dep "b"])
    (set_dependencies (Dependencies.mk [dep "a"]) (component [] [])).

Definition with_model : Component :=
  set_componentFromModel (Some model) (component [] []).

End Sample.

(** ** What the legacy tester contract records for one file *)

(** The raw result [oneFileSpecResult] resolves to for a test file. *)
Definition legacy_raw (plugin : TesterExtension) (testFile : Dist.t + SourceFile.t)
    : RawTestsResults :=
  match tst_oldAction plugin with
  | None =>
      failedSpecResult (testFile_relative testFile)
        (TypeError "tester.oldAction is not a function")
  | Some oldAction =>
      match oldAction (testFile_path testFile) with
      | Ok results =>
          mkRaw (Some (testFile_relative testFile)) (raw_pass results)
                (raw_tests results) (raw_failures results)
      | Throw err => failedSpecResult (testFile_relative testFile) err
      end
  end.

(** The calls of the legacy contract for a list of test files. *)
Definition legacy_calls (plugin : TesterExtension)
    (testFiles : list (Dist.t + SourceFile.t)) : list Event :=
  match tst_oldAction plugin with
  | None => []
  | Some _ => map (fun testFile => EvTesterOldAction (testFile_path testFile)) testFiles
  end.

(** The trace after the optional change of directory that opens [run]. *)
Definition after_chdir (cwd : option string) (tr : list Event) : list Event :=
  if JsString.truthy (default "" cwd) then (tr ++ [EvChdir (default "" cwd)])%list else tr.

(** What [run] does once the normalized results are in: they are stored,
    then the run is rejected when asked to and one result fails, or the
    results are saved when asked to, and returned. *)
Definition run_verdict `{Externals} (a : RunSpecsArgs) (c : Component)
    (tr : list Event) (results : list SpecsResults.t)
    : Result (option (list SpecsResults.t)) * State :=
  let c' := set_specsResults (Some results) c in
  if flag (rs_rejectOnFailure a) && negb (forallb SpecsResults.pass results) then
    (Throw (ComponentSpecsFailed
              (if flag (rs_verbose a)
               then Some (chalk_bold_white (BitId.toString (get_id c'))
                          ++ String.concat JsString.newline (paintSpecsResults results)
                          ++ JsString.newline)
               else None)),
     mkState c' tr)
  else if flag (rs_save a) then
    match sources_modifySpecsResults (rs_scope a) c' results with
    | Ok _ => (Ok (Some results), mkState c' (tr ++ [EvModifySpecsResults])%list)
    | Throw e => (Throw e, mkState c' (tr ++ [EvModifySpecsResults])%list)
    end
  else (Ok (Some results), mkState c' tr).




(** [files.map(file => new Dist({ base, path, contents }))] as
    [copyFilesIntoDists] stores it. *)
Definition dists_of_files (l : list SourceFile.t) : Dists.t :=
  Dists.mk (Dists.Array (map (fun file =>
    Dist.mk (SourceFile.base file) (SourceFile.relative file)
            (SourceFile.contents file) false) l)).


(** ** More methods of the component *)

(** [_getHomepage()] *)
Definition _getHomepage (c : Component) : option string :=
  match scope c with
  | Some s =>
      if JsString.truthy s
      then Some ("https://bitsrc.io/" ++ JsString.replace "." "/" s ++ "/" ++ name c)
      else None
  | None => None
  end.

(** [getAllDependencies()] *)
Definition getAllDependencies (c : Component) : list Dependencies.Dependency :=
  (Dependencies.dependencies (dependencies c)
   ++ Dependencies.dependencies (devDependencies c)
   ++ Dependencies.dependencies (compilerDependencies c)
   ++ Dependencies.dependencies (testerDependencies c))%list.


(** [hasDependencies()] *)
Definition hasDependencies (c : Component) : bool :=
  negb (Nat.eqb (List.length (getAllDependencies c)) 0).

(** [addSharedDir(pathStr)] *)
Definition addSharedDir (c : Component) (pathStr : string) : string :=
  let withSharedDir :=
    match originallySharedDir c with
    | Some dir => if JsString.truthy dir then Path.join dir pathStr else pathStr
    | None => pathStr
    end in
  Utils.pathNormalizeToLinux withSharedDir.

Section MoreMethods.

Context `{Externals}.

(** [cloneFilesWithSharedDir()] *)
Definition cloneFilesWithSharedDir : M (list SourceFile.t) :=
  fs ← files;
  match fs with
  | None => throw (TypeError "Cannot read property 'map' of null")
  | Some l =>
      c ← get_this;
      mret (map (fun file =>
        let newFile := SourceFile.clone file in
        let newRelative := addSharedDir c (SourceFile.relative file) in
        SourceFile.updatePaths (Some (SourceFile.base file)) (Some newRelative) newFile) l)
  end.

End MoreMethods.

(** The files as [stripOriginallySharedDir] rewrites them for the shared
    directory [dir]. *)
Definition stripped_files (dir : option string) (l : list SourceFile.t)
    : list SourceFile.t :=
  map (fun file =>
    SourceFile.updatePaths (Some (SourceFile.base file))
      (Some (pathWithoutSharedDir (SourceFile.relative file) dir)) file) l.

(** One class of [c'] starts with the same class of [c], for every
    class. *)
Definition extends_dependencies (c c' : Component) : Prop :=
  forall k, exists added,
    Dependencies.dependencies (class_of k c')
    = (Dependencies.dependencies (class_of k c) ++ added)%list.

(** ** The command registrar (src/cli/command-registrar.js)

    A command is run by the handler that [registerAction] installs: it
    picks the subcommand, if any, and hands over to [execAction], which
    runs the action and ends the process. Writes to the log are left
    out; what reaches the terminal, the loader and the exit are recorded
    in order. *)

Module Cli.

(** A value a command rejects with: an error object and its [code]
    property, [None] when it has none. *)
Record Failure : Type := mkFailure { code : option json; text : string }.

(** What an error handler returns: a text or an error object. *)
Inductive Message : Type :=
| Text (s : string)
| Object (err : Failure).

Definition message_truthy (m : Message) : bool :=
  match m with Text s => JsString.truthy s | Object _ => true end.

(** [msg.code] *)
Definition message_code (m : Message) : option json :=
  match m with Text _ => None | Object err => code err end.

(** Truthiness of a property that may be undefined. *)
Definition value_truthy (v : option json) : bool :=
  match v with Some j => json_truthy j | None => false end.

(** A promise settled. *)
Inductive Promise (A : Type) : Type :=
| Resolved (value : A)
| Rejected (err : Failure).
Arguments Resolved {A} value.
Arguments Rejected {A} err.

(** An argument commander passes to the handler: a word, a list of
    words, a missing optional argument, or the command object it passes
    last. *)
Inductive Arg : Type :=
| Word (s : string)
| Words (l : list string)
| Missing
| Commander.

Definition Options : Type := gmap string (option json).

(** A command, as the registrar reads it. An absent [alias] or
    [commands] is [None]; an [action] that rejects or throws and a
    [report] that throws are [Rejected]. *)
Inductive Command : Type := mkCommand {
  name : string;
  alias : option string;
  opts : list (option string * string * string);
  commands : option (list Command);
  private : bool;
  loader : bool;
  migration : bool;
  action : list Arg -> Options -> Promise json;
  report : json -> Promise string;
  handleError : Failure -> option Message
}.

(** What the process does, in order. *)
Inductive Output : Type :=
| LoaderOn
| LoaderOff
| Migrate
| Action (commandName : string) (args : list Arg) (options : Options)
| Stdout (s : string)
| Stderr (s : string)
| ConsoleError (m : Message)
| Exit (exitCode : json) (commandName : string).

(** How the handler ends: by asking for the exit, or with a value
    thrown and not caught. *)
Inductive Ending : Type :=
| Exiting
| Uncaught (m : Message)
| TypeErrorThrown (msg : string).

(** Functions of other modules (utils, the default error handler, the
    migration), taken as given. [first] returns [None] for [null]. *)
Class Externals : Type := {
  first : forall {A : Type}, list A -> option A;
  empty : option (list Command) -> bool;
  camelCase : option string -> string;
  isNumeric : json -> bool;
  defaultHandleError : Failure -> option Message;
  migrate : Promise unit;
  packSerialized : Failure -> string
}.

Section Registrar.

Context `{Externals}.

(** [logAndExit(msg, commandName)] *)
Definition logAndExit (msg commandName : string) : list Output :=
  [Stdout (msg ++ JsString.newline); Exit (JNum 0) commandName].

(** [logErrAndExit(msg, commandName)] *)
Definition logErrAndExit (msg : Message) (commandName : string) : list Output * Ending :=
  if value_truthy (message_code msg) then ([], Uncaught msg)
  else ([ConsoleError msg; Exit (JNum 1) commandName], Exiting).

(** [parseSubcommandFromArgs(args)] *)
Definition parseSubcommandFromArgs (args : list Arg) : option string :=
  match first args with
  | Some (Word s) => Some s
  | _ => None
  end.

(** [parseCommandName(commandName)] *)
Definition parseCommandName (commandName : string) : option string :=
  if negb (JsString.truthy commandName) then Some ""
  else first (JsString.split " " commandName).

(** [getOpts(c, opts)]: [c] reads a property of the commander object. *)
Definition getOpts (c : string -> option json)
    (opts : list (option string * string * string)) : Options :=
  fold_left (fun (options : Options) '(_, optName, _) =>
    let parsedName := camelCase (parseCommandName optName) in
    let options := <[parsedName := c parsedName]> options in
    if String.prefix "no-" optName then
      <[parsedName :=
          Some (JBool (negb (value_truthy (c (JsString.replace "no-" "" optName)))))]>
        options
    else options) opts ∅.

(** [serializeErrAndExit(err, commandName)] *)
Definition serializeErrAndExit (err : Failure) (commandName : string) : list Output :=
  let exitCode :=
    match code err with
    | Some k => if json_truthy k && isNumeric k then k else JNum 1
    | None => JNum 1
    end in
  [Stderr (packSerialized err); Exit exitCode commandName].

(** The handler of the [catch] of [execAction]. *)
Definition onFailure (command : Command) (err : Failure) : list Output * Ending :=
  let errorHandled :=
    match defaultHandleError err with
    | Some m => if message_truthy m then Some m else handleError command err
    | None => handleError command err
    end in
  if private command then (LoaderOff :: serializeErrAndExit err (name command), Exiting)
  else
    let msg :=
      match errorHandled with
      | Some m => if message_truthy m then m else Object err
      | None => Object err
      end in
    let '(out, ending) := logErrAndExit msg (name command) in
    (LoaderOff :: out, ending).

(** [execAction(command, concrete, args)] *)
Definition execAction (command : Command) (concrete : string -> option json)
    (args : list Arg) : list Output * Ending :=
  let opts := getOpts concrete (opts command) in
  let relevantArgs := firstn (length args - 1) args in
  let started := if loader command then [LoaderOn] else [] in
  let migrated :=
    if migration command then ([Migrate], migrate) else ([], Resolved tt) in
  match snd migrated with
  | Rejected err =>
      let '(out, ending) := onFailure command err in
      ((started ++ fst migrated ++ out)%list, ending)
  | Resolved _ =>
      let called := [Action (name command) relevantArgs opts] in
      match action command relevantArgs opts with
      | Rejected err =>
          let '(out, ending) := onFailure command err in
          ((started ++ fst migrated ++ called ++ out)%list, ending)
      | Resolved data =>
          match report command data with
          | Rejected err =>
              let '(out, ending) := onFailure command err in
              ((started ++ fst migrated ++ called ++ LoaderOff :: out)%list, ending)
          | Resolved msg =>
              ((started ++ fst migrated ++ called
                ++ LoaderOff :: logAndExit msg (name command))%list, Exiting)
          end
      end
  end.

(** The comparison [subcommandName === (parseCommandName(cmd.name) ||
    cmd.alias)]: [null] on the left never equals a missing alias. *)
Definition names_subcommand (subcommandName : option string) (cmd : Command) : bool :=
  let expected :=
    match parseCommandName (name cmd) with
    | Some parsed => if JsString.truthy parsed then Some parsed else alias cmd
    | None => alias cmd
    end in
  match subcommandName, expected with
  | Some given, Some wanted => bool_decide (given = wanted)
  | _, _ => false
  end.

(** The handler [registerAction(command, concrete)] installs, applied to
    the arguments commander gives it. *)
Definition registerAction (command : Command) (concrete : string -> option json)
    (args : list Arg) : list Output * Ending :=
  if negb (empty (commands command)) then
    match commands command with
    | None => ([], TypeErrorThrown "Cannot read property 'find' of undefined")
    | Some subcommands =>
        let subcommandName := parseSubcommandFromArgs args in
        let subcommand := List.find (names_subcommand subcommandName) subcommands in
        let args := tail args in
        match subcommand with
        | Some found => execAction found concrete args
        | None => execAction command concrete args
        end
    end
  else execAction command concrete args.

(** [createOptStr(alias, name)] *)
Definition createOptStr (optAlias : option string) (optName : string) : string :=
  if JsString.truthy (default "" optAlias)
  then "-" ++ default "" optAlias ++ ", --" ++ optName
  else "--" ++ optName.

End Registrar.

(** The command runs to its report: the migration, if any, the action
    and the report all resolve. *)
Definition completes `{Externals} (command : Command) (concrete : string -> option json)
    (args : list Arg) : bool :=
  match (if migration command then migrate else Resolved tt) with
  | Rejected _ => false
  | Resolved _ =>
      match action command (firstn (length args - 1) args)
              (getOpts concrete (opts command)) with
      | Rejected _ => false
      | Resolved data =>
          match report command data with
          | Rejected _ => false
          | Resolved _ => true
          end
      end
  end.

(** An output that writes to the terminal or ends the process. *)
Definition is_write (o : Output) : bool :=
  match o with
  | Stdout _ | Stderr _ | ConsoleError _ | Exit _ _ => true
  | _ => false
  end.

(** The exit codes asked for, in order. *)
Definition exit_codes (out : list Output) : list json :=
  omap (fun o => match o with Exit k _ => Some k | _ => None end) out.

(** The argument lists the actions were called with, in order. *)
Definition action_args (out : list Output) : list (string * list Arg) :=
  omap (fun o => match o with Action n a _ => Some (n, a) | _ => None end) out.

End Cli.

(** ** More sample data *)

Module Fixtures.

(** Testers: one without any contract, one with the modern contract that
    passes every file it is given, one that cannot be installed. *)
Definition bare_tester : TesterExtension :=
  {| tst_name := "mocha"; tst_loaded := true;
     tst_install := fun _ => Ok tt;
     tst_action := None; tst_oldAction := None;
     tst_filePath := "/ws/.bit/mocha.js"; tst_context := None;
     tst_rawConfig := ""; tst_dynamicConfig := ""; tst_files := []; tst_api := "";
     tst_toObject := JStr "mocha" |}.

Definition modern_action (params : TesterActionParams) : Result (list RawTestsResults) :=
  Ok (map (fun testFile => mkRaw (Some (testFile_relative testFile)) true [] [])
          (tap_testFiles params)).

Definition modern_tester : TesterExtension :=
  {| tst_name := "jest"; tst_loaded := true;
     tst_install := fun _ => Ok tt;
     tst_action := Some modern_action; tst_oldAction := None;
     tst_filePath := "/ws/.bit/jest.js"; tst_context := None;
     tst_rawConfig := ""; tst_dynamicConfig := ""; tst_files := []; tst_api := "";
     tst_toObject := JStr "jest" |}.

Definition unloaded_tester : TesterExtension :=
  {| tst_name := "mocha"; tst_loaded := false;
     tst_install := fun _ => Throw (External "cannot install");
     tst_action := None; tst_oldAction := None;
     tst_filePath := "/ws/.bit/mocha.js"; tst_context := None;
     tst_rawConfig := ""; tst_dynamicConfig := ""; tst_files := []; tst_api := "";
     tst_toObject := JStr "mocha" |}.

(** The arguments of a test run in the sample workspace, with
    reject-on-failure; and of a run without workspace. *)
Definition rejecting_args : RunSpecsArgs :=
  mkRunSpecsArgs Sample.scope (Some true) (Some (Sample.consumer AUTHORED)) (Some true)
                 None None None None.

Definition isolated_args : RunSpecsArgs :=
  mkRunSpecsArgs Sample.scope None None None None None None None.

(** The two test files of [Sample.tested]. *)
Definition test_files : list (Dist.t + SourceFile.t) :=
  [inr (Sample.file "a.spec.js" true); inr (Sample.file "b.spec.js" true)].


Definition unloaded_compiler : CompilerExtension :=
  {| cmp_name := "babel"; cmp_loaded := false;
     cmp_install := fun _ _ => Throw (External "cannot install");
     cmp_action := Some (fun _ => Ok (Some (mkCompilerActionResult (Some []))));
     cmp_oldAction := None;
     cmp_rawConfig := ""; cmp_dynamicConfig := ""; cmp_files := []; cmp_api := "";
     cmp_toObject := JStr "babel" |}.



(** Workspaces at /ws: one that keeps the dists outside the components,
    one whose status query fails. *)
Definition outside_consumer : Consumer :=
  {| getPath := "/ws";
     bitMap := mkBitMap (fun _ => None) "/ws";
     shouldDistsBeInsideTheComponent := false;
     getComponentStatusById := fun _ => Ok (mkStatus false) |}.

Definition failing_consumer : Consumer :=
  {| getPath := "/ws";
     bitMap := mkBitMap (fun _ => None) "/ws";
     shouldDistsBeInsideTheComponent := true;
     getComponentStatusById := fun _ => Throw (External "no status") |}.

(** The sample document with a compiler descriptor; an object without
    any property; one without a name and with a box; and a parsed
    envelope whose [dists] is [null]. *)
Definition with_compiler_descriptor : ComponentObject :=
  mkObject (Some "foo") None None (Some "index.js") None None None (Some (JStr "babel"))
           None None None None None None None None None None None None None None None
           None None None None.

Definition blank : ComponentObject :=
  mkObject None None None None None None None None None None None None None None None
           None None None None None None None None None None None None.


Definition null_dists : ParsedDocument :=
  mkParsed Sample.document None (Some JNull).

(** The sample component after a strip of the directory src, given the
    files it had before. *)
Definition stripped (l : list SourceFile.t) : Component :=
  set_originallySharedDir (Some "src")
    (Sample.component (stripped_files (Some "src") l) []).

(** The sample component published under the given scope. *)
Definition scoped (s : string) : Component :=
  let c := Sample.component [] [] in
  {| name := name c; version := version c; scope := Some s;
     lang := lang c; bindingPrefix := bindingPrefix c; mainFile := mainFile c;
     compiler := compiler c; tester := tester c;
     dependencies := dependencies c;
     devDependencies := devDependencies c;
     compilerDependencies := compilerDependencies c;
     testerDependencies := testerDependencies c;
     packageDependencies := packageDependencies c;
     devPackageDependencies := devPackageDependencies c;
     peerPackageDependencies := peerPackageDependencies c;
     compilerPackageDependencies := compilerPackageDependencies c;
     testerPackageDependencies := testerPackageDependencies c;
     _docs := _docs c; _files := _files c;
     dists := dists c;
     specsResults := specsResults c; license := license c; log := log c;
     writtenPath := writtenPath c; originallySharedDir := originallySharedDir c;
     _wasOriginallySharedDirStripped := _wasOriginallySharedDirStripped c;
     componentFromModel := componentFromModel c;
     isolatedEnvironment := isolatedEnvironment c;
     deprecated := deprecated c; origin := origin c;
     detachedCompiler := detachedCompiler c; detachedTester := detachedTester c;
     customResolvedPaths := customResolvedPaths c |}.

(** The command registrar: utilities that take the head of a list, and
    a command [remote] with the subcommands [add] and [rm]. *)
Definition cli_externals : Cli.Externals :=
  {| Cli.first := fun A l => List.head l;
     Cli.empty := fun l => match l with Some (_ :: _) => false | _ => true end;
     Cli.camelCase := fun s => default "" s;
     Cli.isNumeric := fun j => match j with JNum _ => true | _ => false end;
     Cli.defaultHandleError := fun _ => None;
     Cli.migrate := Cli.Resolved tt;
     Cli.packSerialized := Cli.text |}.

Definition leaf (commandName : string) : Cli.Command :=
  Cli.mkCommand commandName None [] None false false false
    (fun _ _ => Cli.Resolved JNull) (fun _ => Cli.Resolved "done") (fun _ => None).

Definition remote : Cli.Command :=
  Cli.mkCommand "remote" None [] (Some [leaf "add <url>"; leaf "rm <name>"])
    false false false
    (fun _ _ => Cli.Resolved JNull) (fun _ => Cli.Resolved "remotes") (fun _ => None).

End Fixtures.

(** * Properties *)

(** ** Strings and paths *)

Lemma truthy_app_l (a b : string) :
  JsString.truthy a = true -> JsString.truthy (a ++ b) = true.
Proof. destruct a; simpl; [discriminate | reflexivity]. Qed.

Lemma truthy_app_r (a b : string) :
  JsString.truthy b = true -> JsString.truthy (a ++ b) = true.
Proof. destruct a; simpl; [trivial | reflexivity]. Qed.

Lemma truthy_true_nonempty (s : string) : s <> "" -> JsString.truthy s = true.
Proof. destruct s; simpl; [congruence | reflexivity]. Qed.

(** [path.normalize] never answers with the empty string. *)
Lemma normalize_truthy (p : string) : JsString.truthy (Path.normalize p) = true.
Proof.
  unfold Path.normalize.
  destruct (JsString.truthy p); [| reflexivity].
  cbv zeta.
  destruct (JsString.truthy (String.concat _ _)) eqn:Hbody.
  - apply truthy_app_r, truthy_app_l, Hbody.
  - destruct (Path.isAbsolute p); [reflexivity |].
    destruct (Path.trailingSeparator p); reflexivity.
Qed.

(** ** Construction *)

Section Construction.

Context `{Externals}.

(** The validation only ever complains about the name. *)
Lemma validateComponent_name (c : Component) :
  JsString.truthy (mainFile c) = true ->
  validateComponent c =
    if JsString.truthy (name c) then Ok tt
    else Throw (GeneralError ("failed loading a component " ++ BitId.toString (get_id c)
                              ++ ", the field " ++ JsString.dquote ++ "name"
                              ++ JsString.dquote ++ " can't be empty")).
Proof.
  intros Hmain. unfold validateComponent, nonEmptyFields, field_value. simpl.
  destruct (JsString.truthy (name c)); simpl; [| reflexivity].
  rewrite Hmain. reflexivity.
Qed.

(** An empty or missing name is rejected with a [GeneralError], whatever
    the main file. *)
Lemma new_Component_empty_name (p : ComponentProps) (m : string) :
  p_mainFile p = Some m ->
  default "" (p_name p) = "" ->
  exists msg, new_Component p = Throw (GeneralError msg).
Proof.
  intros Hm Hn. unfold new_Component. rewrite Hm. cbv zeta.
  rewrite validateComponent_name by (simpl; apply normalize_truthy).
  simpl. rewrite Hn. simpl. eauto.
Qed.

(** A non-empty name and any main file, the empty one included, pass the
    validation. *)
Lemma new_Component_accepts (p : ComponentProps) (n m : string) :
  p_name p = Some n -> n <> "" -> p_mainFile p = Some m ->
  exists c, new_Component p = Ok c /\ name c = n /\ mainFile c = Path.normalize m.
Proof.
  intros Hn Hne Hm. unfold new_Component. rewrite Hm. cbv zeta.
  rewrite validateComponent_name by (simpl; apply normalize_truthy).
  simpl. rewrite Hn. simpl. rewrite (truthy_true_nonempty n Hne).
  eexists. split; [reflexivity |]. simpl. rewrite Hn. auto.
Qed.

(** C3, the code against the claim: a component whose given [mainFile] is
    the empty string and whose name is not empty is constructed, not
    rejected; the constructor normalizes the main file first, which turns
    the empty path into ["."], so the check of [mainFile] in
    [validateComponent] never fires. *)
Theorem new_Component_empty_mainFile (p : ComponentProps) (n : string) :
  p_name p = Some n -> n <> "" -> p_mainFile p = Some "" ->
  exists c, new_Component p = Ok c /\ mainFile c = ".".
Proof.
  intros Hn Hne Hm.
  destruct (new_Component_accepts p n "" Hn Hne Hm) as (c & Hc & _ & Hmain).
  exists c. split; [exact Hc | exact Hmain].
Qed.

End Construction.

(** ** The memoized documentation *)

Section Docs.

Context `{Externals}.

Lemma files_spec (st : State) :
  exists st', files st = (Ok (files_value (this st)), st')
    /\ trace st' = trace st
    /\ files_value (this st') = files_value (this st)
    /\ (forall v, set_files v (this st') = set_files v (this st)).
Proof.
  destruct st as [c tr]. unfold files, files_value. simpl.
  unfold mbind, M_bind, get_this. simpl.
  destruct (_files c) as [[l | o] |] eqn:Hf.
  - eexists. split; [reflexivity |]. simpl. rewrite Hf. auto.
  - eexists. split; [reflexivity |]. simpl. auto.
  - eexists. split; [reflexivity |]. simpl. rewrite Hf. auto.
Qed.

(** What one access to [docs] returns. *)
Lemma docs_value (st : State) :
  fst (docs st) =
    Ok (match _docs (this st) with
        | Some d => d
        | None => doclets_of (files_value (this st))
        end).
Proof.
  destruct st as [c tr]. unfold docs. unfold mbind at 1. unfold M_bind, get_this. simpl.
  destruct (_docs c) as [d |] eqn:Hd; [reflexivity |].
  unfold mbind, M_bind.
  destruct (files_spec (mkState c tr)) as (st' & Hf & _).
  rewrite Hf. reflexivity.
Qed.

(** After one access the [_docs] field holds the value returned. *)
Lemma docs_cached (st : State) :
  _docs (this (snd (docs st))) =
    Some (match _docs (this st) with
          | Some d => d
          | None => doclets_of (files_value (this st))
          end).
Proof.
  destruct st as [c tr]. unfold docs. unfold mbind at 1. unfold M_bind, get_this. simpl.
  destruct (_docs c) as [d |] eqn:Hd; [simpl; exact Hd |].
  unfold mbind, M_bind.
  destruct (files_spec (mkState c tr)) as (st' & Hf & _).
  rewrite Hf. reflexivity.
Qed.

(** C10: [docs] is computed from the files on the first access and cached
    without invalidation. For every component, the first access of a
    component whose docs are not yet set returns the doclets of its files;
    after an access, replacing the files by anything leaves the value of
    later accesses unchanged; and a component without files (a missing
    list or an empty one) computes the empty list. *)
Theorem docs_memoized_without_invalidation :
  forall (c : Component) (newFiles : option FilesField) (tr : list Event),
    fst (exec docs (set_docs None c)) = Ok (doclets_of (files_value c))
    /\ (let st1 := snd (exec docs c) in
        fst (docs (mkState (set_files newFiles (this st1)) tr)) = fst (exec docs c))
    /\ fst (exec docs (set_docs None (set_files None c))) = Ok []
    /\ fst (exec docs (set_docs None (set_files (Some (FilesArray [])) c))) = Ok [].
Proof.
  intros c newFiles tr. unfold exec.
  split; [| split; [| split]].
  - rewrite docs_value. reflexivity.
  - cbv zeta. rewrite !docs_value.
    assert (Hc := docs_cached (mkState c [])).
    simpl in *. rewrite Hc. reflexivity.
  - rewrite docs_value. reflexivity.
  - rewrite docs_value. reflexivity.
Qed.

End Docs.

(** ** Prefixes *)

Section Prefixes.

Import JsString.

Lemma app_cons (x : ascii) (a b : string) : String x a ++ b = String x (a ++ b).
Proof. reflexivity. Qed.

Lemma app_empty_l (b : string) : "" ++ b = b.
Proof. reflexivity. Qed.

Lemma app_empty_r (s : string) : s ++ "" = s.
Proof. induction s as [| x s IH]; [reflexivity | rewrite app_cons, IH; reflexivity]. Qed.



Lemma app_assoc_string (a b c : string) : (a ++ b) ++ c = a ++ (b ++ c).
Proof.
  induction a as [| x a IH]; [reflexivity |].
  rewrite !app_cons, IH. reflexivity.
Qed.









(** ** Occurrences of a character *)

Lemma includes_cons (c x : ascii) (s : string) :
  includes (String c "") (String x s) = Ascii.eqb c x || includes (String c "") s.
Proof.
  unfold includes. simpl.
  destruct (ascii_dec c x) as [-> | Hne].
  - rewrite Ascii.eqb_refl. destruct s; reflexivity.
  - apply Ascii.eqb_neq in Hne. rewrite Hne. simpl.
    destruct (index 0 (String c "") s); reflexivity.
Qed.





Lemma substring_app_prefix (a b : string) (m : nat) :
  String.substring 0 (String.length a + m) (a ++ b) = a ++ String.substring 0 m b.
Proof.
  induction a as [| x a IH]; [reflexivity |].
  rewrite !app_cons. simpl. rewrite IH. reflexivity.
Qed.



End Prefixes.

(** ** The shared directory *)

Ltac unfold_monad :=
  unfold mbind, mret, fmap, M_bind, M_ret, M_fmap, throw, lift, get_this,
         modify, emit, try_catch, when in *.

Section SharedDir.

Context `{Externals}.








End SharedDir.

(** ** Dependencies copied from the model *)

Section CopyDependencies.

(** A loop whose steps all succeed is a fold. *)
Lemma forEach_fold {A} (f : A -> M unit) (g : Component -> A -> Component) (l : list A) :
  (forall x c tr, In x l -> f x (mkState c tr) = (Ok tt, mkState (g c x) tr)) ->
  forall c tr, forEach l f (mkState c tr) = (Ok tt, mkState (fold_left g l c) tr).
Proof.
  induction l as [| x l IH]; intros Hstep c tr; simpl; [reflexivity |].
  unfold mbind, M_bind. rewrite Hstep by (left; reflexivity).
  apply IH. intros y c' tr' Hin. apply Hstep. right. exact Hin.
Qed.

(** A loop stops at the first step that throws and keeps what the steps
    before it did. *)
Lemma forEach_stops {A} (f : A -> M unit) (g : Component -> A -> Component)
    (pre post : list A) (x : A) (e : Error) :
  (forall y c tr, In y pre -> f y (mkState c tr) = (Ok tt, mkState (g c y) tr)) ->
  (forall c tr, f x (mkState c tr) = (Throw e, mkState c tr)) ->
  forall c tr,
    forEach (pre ++ x :: post)%list f (mkState c tr)
    = (Throw e, mkState (fold_left g pre c) tr).
Proof.
  induction pre as [| y pre IH]; intros Hstep Hx c tr; simpl.
  - unfold mbind, M_bind. rewrite Hx. reflexivity.
  - unfold mbind, M_bind. rewrite Hstep by (left; reflexivity).
    apply IH; [| exact Hx]. intros z c' tr' Hin. apply Hstep. right. exact Hin.
Qed.

(** C6, as the code has it: the ids are handled one after the other,
    each one looked up in the model's runtime, dev, compiler and tester
    classes in this order and its first match added to the same class of
    the component. When every id is found the call succeeds with all of
    them copied. When an id is found in no class the call fails at the
    first such id: the ids before it stay copied, that id and the ids
    after it change nothing. *)
Theorem copyDependenciesFromModel_first_missing :
  forall (c model : Component) (ids : list string) (tr : list Event),
    componentFromModel c = Some model ->
    ((forall id, In id ids -> find_in_model model id <> None) ->
     copyDependenciesFromModel ids (mkState c tr)
     = (Ok tt, mkState (fold_left (copy_one model) ids c) tr))
    /\ (forall (pre : list string) (id : string) (post : list string),
          ids = (pre ++ id :: post)%list ->
          (forall x, In x pre -> find_in_model model x <> None) ->
          find_in_model model id = None ->
          copyDependenciesFromModel ids (mkState c tr)
          = (Throw (JsError ("copyDependenciesFromModel unable to find dependency "
                             ++ id ++ " in the model")),
             mkState (fold_left (copy_one model) pre c) tr)).
Proof.
  intros c model ids tr Hmodel.
  assert (Hfound : forall x c0 tr0, find_in_model model x <> None ->
    (match Dependencies.getByIdStr x (dependencies model) with
     | Some dependency =>
         modify (fun c => set_dependencies (Dependencies.add dependency (dependencies c)) c)
     | None =>
     match Dependencies.getByIdStr x (devDependencies model) with
     | Some dependency =>
         modify (fun c => set_devDependencies (Dependencies.add dependency (devDependencies c)) c)
     | None =>
     match Dependencies.getByIdStr x (compilerDependencies model) with
     | Some dependency =>
         modify (fun c => set_compilerDependencies
                            (Dependencies.add dependency (compilerDependencies c)) c)
     | None =>
     match Dependencies.getByIdStr x (testerDependencies model) with
     | Some dependency =>
         modify (fun c => set_testerDependencies
                            (Dependencies.add dependency (testerDependencies c)) c)
     | None =>
         throw (JsError ("copyDependenciesFromModel unable to find dependency "
                         ++ x ++ " in the model"))
     end end end end) (mkState c0 tr0)
    = (Ok tt, mkState (copy_one model c0 x) tr0)).
  { intros x c0 tr0. unfold copy_one, find_in_model. simpl.
    destruct (Dependencies.getByIdStr x (dependencies model)); simpl; [reflexivity |].
    destruct (Dependencies.getByIdStr x (devDependencies model)); simpl; [reflexivity |].
    destruct (Dependencies.getByIdStr x (compilerDependencies model)); simpl; [reflexivity |].
    destruct (Dependencies.getByIdStr x (testerDependencies model)); simpl; [reflexivity |].
    congruence. }
  split.
  - intros Hall. unfold copyDependenciesFromModel.
    unfold mbind at 1. unfold M_bind, get_this. simpl. rewrite Hmodel.
    apply forEach_fold. intros x c0 tr0 Hin. apply Hfound, Hall, Hin.
  - intros pre id post -> Hpre Hid. unfold copyDependenciesFromModel.
    unfold mbind at 1. unfold M_bind, get_this. simpl. rewrite Hmodel.
    apply forEach_stops.
    + intros x c0 tr0 Hin. apply Hfound, Hpre, Hin.
    + intros c0 tr0. unfold find_in_model in Hid. simpl in Hid.
      destruct (Dependencies.getByIdStr id (dependencies model)); [discriminate |].
      destruct (Dependencies.getByIdStr id (devDependencies model)); [discriminate |].
      destruct (Dependencies.getByIdStr id (compilerDependencies model)); [discriminate |].
      destruct (Dependencies.getByIdStr id (testerDependencies model)); [discriminate |].
      reflexivity.
Qed.

End CopyDependencies.

(** ** Getters and serialization, as state transformers *)

Section Getters.

Context `{Externals}.

Lemma memo_of_refl (c : Component) : memo_of c c.
Proof. unfold memo_of. destruct c; reflexivity. Qed.

Lemma memo_of_trans (a b c : Component) : memo_of a b -> memo_of b c -> memo_of a c.
Proof.
  unfold memo_of. intros Hab Hbc. rewrite Hbc at 1. rewrite Hab. reflexivity.
Qed.

Lemma files_memo (st : State) :
  exists st', files st = (Ok (files_value (this st)), st')
    /\ trace st' = trace st
    /\ memo_of (this st) (this st')
    /\ files_value (this st') = files_value (this st)
    /\ _docs (this st') = _docs (this st).
Proof.
  destruct st as [c tr]. unfold files, files_value. unfold_monad. simpl.
  destruct (_files c) as [[l | o] |] eqn:Hf.
  - eexists. split; [reflexivity |]. simpl. rewrite Hf.
    repeat split; auto. apply memo_of_refl.
  - eexists. split; [reflexivity |]. simpl. repeat split; auto.
  - eexists. split; [reflexivity |]. simpl. rewrite Hf.
    repeat split; auto. apply memo_of_refl.
Qed.

Lemma docs_memo (st : State) :
  exists st', docs st = (Ok (docs_value_of (this st)), st')
    /\ trace st' = trace st
    /\ memo_of (this st) (this st')
    /\ files_value (this st') = files_value (this st)
    /\ docs_value_of (this st') = docs_value_of (this st).
Proof.
  destruct st as [c tr]. unfold docs, docs_value_of.
  unfold mbind at 1. unfold M_bind, get_this. simpl.
  destruct (_docs c) as [d |] eqn:Hd.
  - eexists. split; [reflexivity |]. simpl. rewrite Hd.
    repeat split; auto. apply memo_of_refl.
  - unfold mbind, M_bind.
    destruct (files_memo (mkState c tr)) as (st' & Hf & Htr & Hmemo & Hfv & Hdocs).
    rewrite Hf. destruct st' as [c' tr']. simpl in *.
    eexists. split; [reflexivity |]. simpl.
    repeat split; auto.
    unfold memo_of in *. simpl. rewrite Hmemo at 1. reflexivity.
Qed.

Lemma snapshot_memo (c c' : Component) (fs : option (list SourceFile.t)) (d : list Doclet) :
  memo_of c c' -> snapshot c' fs d = snapshot c fs d.
Proof. unfold memo_of. intros ->. reflexivity. Qed.

(** [toObject] always succeeds, calls nothing outside and only fills the
    memoized fields. *)
Lemma toObject_spec (st : State) :
  exists st',
    toObject st
    = (Ok (snapshot (this st) (files_value (this st)) (docs_value_of (this st))), st')
    /\ trace st' = trace st
    /\ memo_of (this st) (this st').
Proof.
  unfold toObject. unfold mbind, M_bind.
  destruct (files_memo st) as (st1 & Hf & Htr1 & Hm1 & Hfv1 & Hd1). rewrite Hf.
  destruct (docs_memo st1) as (st2 & Hd & Htr2 & Hm2 & Hfv2 & Hdv2). rewrite Hd.
  unfold get_this, mret, M_ret.
  assert (Hm : memo_of (this st) (this st2)) by (eapply memo_of_trans; eauto).
  exists st2. split; [| split; [congruence | exact Hm]].
  rewrite (snapshot_memo _ _ _ _ Hm).
  unfold docs_value_of. rewrite Hd1, Hfv1. reflexivity.
Qed.

Lemma memo_of_id (c c' : Component) : memo_of c c' -> get_id c' = get_id c.
Proof. unfold memo_of. intros ->. reflexivity. Qed.

End Getters.

(** ** The compiler interface *)

Section CompilerInterface.

Context `{Externals}.

(** [runBuild] on a known root with a usable compiler: the working
    directory is changed, the contract is called once, and the outcome is
    a list of files or an [ExternalBuildError]. *)
Lemma runBuild_spec (compiler : CompilerExtension) (consumer : option Consumer)
    (componentMap : option ComponentMap) (clones : list SourceFile.t)
    (root : string) (st : State) :
  present (cmp_action compiler) || present (cmp_oldAction compiler) = true ->
  exists r st',
    runBuild compiler consumer componentMap clones (Some root) st = (r, st')
    /\ trace st' = (trace st ++ [EvChdir root; contract_event compiler])%list
    /\ memo_of (this st) (this st')
    /\ ((exists builtFiles, r = Ok builtFiles)
        \/ (exists e, r = Throw (ExternalBuildError e (BitId.toString (get_id (this st)))))).
Proof.
  intros Hany. unfold runBuild, contract_event.
  unfold mbind at 1. unfold M_bind at 1. unfold get_this at 1. cbv zeta.
  unfold try_catch. unfold mbind at 1. unfold M_bind at 1.
  destruct (toObject_spec st) as (st1 & Hobj & Htr & Hmemo). rewrite Hobj.
  destruct st1 as [c1 tr1]. simpl in Htr, Hmemo. subst tr1.
  rewrite <- (memo_of_id _ _ Hmemo).
  destruct (cmp_action compiler) as [action |] eqn:Ha; simpl.
  - unfold_monad. simpl.
    match goal with |- context [action ?p] => destruct (action p) as [[[[fl |]] |] | e] end;
      simpl; do 2 eexists; (split; [reflexivity |]); simpl;
      rewrite <- app_assoc; simpl; (split; [reflexivity |]); (split; [exact Hmemo |]); eauto.
  - destruct (cmp_oldAction compiler) as [oldAction |] eqn:Ho; [| discriminate].
    unfold_monad. simpl.
    match goal with |- context [oldAction ?a ?b ?c] => destruct (oldAction a b c) as [fl | e] end;
      simpl; do 2 eexists; (split; [reflexivity |]); simpl;
      rewrite <- app_assoc; simpl; (split; [reflexivity |]); (split; [exact Hmemo |]); eauto.
Qed.

(** Without any contract the build is rejected before anything is
    called. *)
Lemma buildIfNeeded_without_contract (a : BuildIfNeededArgs) (compiler : CompilerExtension)
    (l : list SourceFile.t) (st : State) :
  bin_compiler a = Some compiler ->
  files_value (this st) = Some l ->
  present (cmp_action compiler) || present (cmp_oldAction compiler) = false ->
  exists st',
    buildIfNeeded a st = (Throw (InvalidCompilerInterface (cmp_name compiler)), st')
    /\ trace st' = trace st.
Proof.
  intros Hc Hfiles Hnone.
  destruct (files_memo st) as (st1 & Hf & Htr1 & Hm1 & _ & _).
  apply orb_false_iff in Hnone as [Ha Ho].
  unfold buildIfNeeded. rewrite Hc. unfold mbind, M_bind.
  rewrite Hf, Hfiles. cbv zeta. rewrite Ha, Ho. simpl.
  exists st1. split; [reflexivity | exact Htr1].
Qed.

(** With a contract and a workspace the compiler is called once. *)
Lemma buildIfNeeded_in_workspace (a : BuildIfNeededArgs) (compiler : CompilerExtension)
    (consumer : Consumer) (l : list SourceFile.t) (st : State) :
  bin_compiler a = Some compiler ->
  files_value (this st) = Some l ->
  bin_consumer a = Some consumer ->
  present (cmp_action compiler) || present (cmp_oldAction compiler) = true ->
  exists r st',
    buildIfNeeded a st = (r, st')
    /\ trace st'
       = (trace st ++ [EvChdir (getPath consumer); contract_event compiler])%list
    /\ forall n, r <> Throw (InvalidCompilerInterface n).
Proof.
  intros Hc Hfiles Hcons Hany.
  destruct (files_memo st) as (st1 & Hf & Htr1 & Hm1 & _ & _).
  unfold buildIfNeeded. rewrite Hc. unfold mbind at 1. unfold M_bind at 1.
  rewrite Hf, Hfiles. cbv zeta. rewrite Hcons.
  replace (negb (present (cmp_action compiler)) && negb (present (cmp_oldAction compiler)))
    with false
    by (destruct (present (cmp_action compiler)), (present (cmp_oldAction compiler));
        simpl in *; congruence).
  unfold fmap, M_fmap.
  destruct (runBuild_spec compiler (Some consumer) (bin_componentMap a)
              (map SourceFile.clone l) (getPath consumer) st1 Hany)
    as (r & st2 & Hrun & Htr2 & _ & Hr).
  rewrite Hrun.
  destruct Hr as [[fl ->] | [e ->]].
  - do 2 eexists. split; [reflexivity |]. split; [congruence | discriminate].
  - do 2 eexists. split; [reflexivity |]. split; [congruence | discriminate].
Qed.

(** C8, as the code has it: [buildIfNeeded] rejects with
    [InvalidCompilerInterface] when the compiler offers neither [action]
    nor [oldAction], before anything is called. When at least one of the
    two is offered the check passes, also when both are: in a workspace
    the compiler is then called once, through the modern action if it is
    there and through the legacy one otherwise, and the outcome is never
    [InvalidCompilerInterface]. *)
Theorem buildIfNeeded_interface_check :
  forall (a : BuildIfNeededArgs) (compiler : CompilerExtension)
         (l : list SourceFile.t) (st : State),
    bin_compiler a = Some compiler ->
    files_value (this st) = Some l ->
    (present (cmp_action compiler) || present (cmp_oldAction compiler) = false ->
     exists st',
       buildIfNeeded a st = (Throw (InvalidCompilerInterface (cmp_name compiler)), st')
       /\ trace st' = trace st)
    /\ (forall consumer,
          bin_consumer a = Some consumer ->
          present (cmp_action compiler) || present (cmp_oldAction compiler) = true ->
          exists r st',
            buildIfNeeded a st = (r, st')
            /\ trace st'
               = (trace st ++ [EvChdir (getPath consumer); contract_event compiler])%list
            /\ forall n, r <> Throw (InvalidCompilerInterface n)).
Proof.
  intros a compiler l st Hc Hfiles. split.
  - intros Hnone. exact (buildIfNeeded_without_contract a compiler l st Hc Hfiles Hnone).
  - intros consumer Hcons Hany.
    exact (buildIfNeeded_in_workspace a compiler consumer l st Hc Hfiles Hcons Hany).
Qed.

End CompilerInterface.

(** ** Reusing the cached dists *)

Section RebuildSkip.

Context `{Externals}.







End RebuildSkip.

(** ** Serialization *)

Section Serialization.

Context `{Externals}.

Lemma assoc_last_app (key : string) (v : json) (extra : list (string * json)) :
  assoc_last key (extra ++ [(key, v)])%list = Some v.
Proof.
  induction extra as [| [k w] extra IH]; simpl.
  - rewrite bool_decide_eq_true_2 by reflexivity. reflexivity.
  - rewrite IH. reflexivity.
Qed.

(** A component that [fromObject] returns is the constructor's
    assignment of what the object holds. *)
Lemma new_Component_Ok (p : ComponentProps) (c : Component) :
  new_Component p = Ok c ->
  exists m, p_mainFile p = Some m /\ c = assign_props p m.
Proof.
  unfold new_Component. destruct (p_mainFile p) as [m |]; [| discriminate].
  cbv zeta. destruct (validateComponent _); [| discriminate].
  intros [= <-]. eauto.
Qed.

Lemma fromObject_dists (o : ComponentObject) (c : Component) :
  fromObject o = Ok c -> dists c = Dists.new (o_dists o).
Proof.
  unfold fromObject.
  destruct (load_descriptor (o_compiler o) _); [| discriminate].
  destruct (load_descriptor (o_tester o) _); [| discriminate].
  intros Hnew. apply new_Component_Ok in Hnew as (m & _ & ->). reflexivity.
Qed.


(** Once the envelope is parsed, a bare array and an object whose
    property [dists] holds the same array give the same outcome. *)
Lemma fromString_parsed_shapes (object : ComponentObject) (files : option json)
    (l : list json) (extra : list (string * json)) :
  fromString_parsed (mkParsed object files (Some (JObj (extra ++ [("dists", JArr l)]))))
  = fromString_parsed (mkParsed object files (Some (JArr l))).
Proof.
  unfold fromString_parsed, normalize_dists. simpl.
  rewrite assoc_last_app. reflexivity.
Qed.

(** C9: the two shapes of [dists]. When one text parses to a document
    whose [dists] is the bare array [l] and another to the same document
    whose [dists] is an object with the property [dists] holding [l]
    (whatever other properties the object has), [fromString] gives the
    same outcome on both; when a component comes out, its dist list is
    what [Dist.loadFromParsedStringArray] makes of [l], in both cases. *)
Theorem fromString_dists_shapes :
  forall (legacy current : string) (object : ComponentObject) (files : option json)
         (l : list json) (extra : list (string * json)),
    JSON_parse legacy = Ok (mkParsed object files (Some (JArr l))) ->
    JSON_parse current
    = Ok (mkParsed object files (Some (JObj (extra ++ [("dists", JArr l)])))) ->
    fromString legacy = fromString current
    /\ match fromString legacy, fromString current with
       | Ok c1, Ok c2 =>
           Dists.get (dists c1) = Dists.get (dists c2)
           /\ dists c1 = Dists.new (Dists.Array <$> Dist_loadFromParsedStringArray (JArr l))
       | Ok _, Throw _ | Throw _, Ok _ => False
       | Throw _, Throw _ => True
       end.
Proof.
  intros legacy current object files l extra Hlegacy Hcurrent.
  assert (Heq : fromString legacy = fromString current).
  { unfold fromString. rewrite Hlegacy, Hcurrent.
    symmetry. apply fromString_parsed_shapes. }
  split; [exact Heq |].
  rewrite <- Heq.
  destruct (fromString legacy) as [c |] eqn:Hc; [| exact I].
  split; [reflexivity |].
  unfold fromString in Hc. rewrite Hlegacy in Hc. unfold fromString_parsed in Hc.
  apply fromObject_dists in Hc. rewrite Hc. reflexivity.
Qed.



End Serialization.

(** ** Crashes of single test files *)

Section TestCrash.

Context `{Externals}.

Lemma testFilesList_spec (st : State) :
  exists st',
    testFilesList st = (testFilesList_of (this st), st')
    /\ trace st' = trace st
    /\ memo_of (this st) (this st').
Proof.
  unfold testFilesList, testFilesList_of.
  unfold mbind at 1. unfold M_bind at 1. unfold get_this at 1. cbn [fst snd].
  destruct (negb (Dists.isEmpty (dists (this st)))).
  - destruct (Dists.get (dists (this st))); unfold_monad;
      (eexists; split; [reflexivity | split; [reflexivity | apply memo_of_refl]]).
  - unfold mbind, M_bind.
    destruct (files_memo st) as (st1 & Hf & Htr & Hm & _). rewrite Hf.
    destruct (files_value (this st)); unfold_monad;
      (eexists; split; [reflexivity | split; [exact Htr | exact Hm]]).
Qed.

Lemma on_component_testFilesList (component : option Component) (st : State) :
  exists st',
    on_component component testFilesList st
    = (testFilesList_of (default (this st) component), st')
    /\ trace st' = trace st
    /\ this st' = match component with Some _ => this st | None => this st' end
    /\ (component = None -> memo_of (this st) (this st')).
Proof.
  destruct component as [other |]; simpl.
  - unfold fmap, M_fmap, run_on.
    destruct (testFilesList_spec (mkState other (trace st))) as (st1 & Hrun & Htr & _).
    rewrite Hrun. cbn [this trace] in *.
    destruct (testFilesList_of other); simpl;
      (eexists; split; [reflexivity | split; [exact Htr | split; [reflexivity | discriminate]]]).
  - destruct (testFilesList_spec st) as (st1 & Hrun & Htr & Hm).
    exists st1. auto.
Qed.




End TestCrash.

(** ** More on the test orchestration *)

Section TestRuns.

Context `{Externals}.

Lemma memo_of_tester (c c' : Component) : memo_of c c' -> tester c' = tester c.
Proof. unfold memo_of. intros ->. reflexivity. Qed.

Lemma memo_of_compiler (c c' : Component) : memo_of c c' -> compiler c' = compiler c.
Proof. unfold memo_of. intros ->. reflexivity. Qed.


Lemma memo_of_specsResults (c c' : Component) :
  memo_of c c' -> specsResults c' = specsResults c.
Proof. unfold memo_of. intros ->. reflexivity. Qed.


(** The tail of a run over files that all go through the legacy
    contract: one raw result per file, in order, and no failure. *)
Lemma mapM_oneFileSpecResult (plugin : TesterExtension)
    (testFiles : list (Dist.t + SourceFile.t)) (c : Component) (tr : list Event) :
  mapM (oneFileSpecResult plugin) testFiles (mkState c tr)
  = (Ok (map (legacy_raw plugin) testFiles),
     mkState c (tr ++ legacy_calls plugin testFiles)%list).
Proof.
  revert tr. induction testFiles as [| f rest IH]; intros tr.
  - simpl. unfold legacy_calls. destruct (tst_oldAction plugin); simpl;
      rewrite app_nil_r; reflexivity.
  - cbn [mapM]. unfold mbind at 1. unfold M_bind at 1.
    assert (Hone : oneFileSpecResult plugin f (mkState c tr)
      = (Ok (legacy_raw plugin f),
         mkState c (tr ++ legacy_calls plugin [f])%list)).
    { unfold oneFileSpecResult, legacy_raw, legacy_calls.
      destruct (tst_oldAction plugin) as [oldAction |].
      - unfold_monad. simpl. destruct (oldAction (testFile_path f)); reflexivity.
      - unfold_monad. simpl. rewrite app_nil_r. reflexivity. }
    rewrite Hone. unfold mbind at 1. unfold M_bind at 1. rewrite IH.
    unfold mret, M_ret. cbn [map]. f_equal. f_equal.
    unfold legacy_calls. destruct (tst_oldAction plugin); simpl.
    + rewrite <- app_assoc. reflexivity.
    + rewrite !app_nil_r. reflexivity.
Qed.

Lemma run_opening (cwd : option string) (c : Component) (tr : list Event) :
  when (JsString.truthy (default "" cwd)) (emit (EvChdir (default "" cwd))) (mkState c tr)
  = (Ok tt, mkState c (after_chdir cwd tr)).
Proof.
  unfold after_chdir, when, emit, mret, M_ret.
  destruct (JsString.truthy (default "" cwd)); reflexivity.
Qed.

Lemma run_test_files (component : option Component) (c : Component) (tr : list Event) :
  exists c1,
    on_component component testFilesList (mkState c tr)
    = (testFilesList_of (default c component), mkState c1 tr)
    /\ memo_of c c1.
Proof.
  destruct (on_component_testFilesList component (mkState c tr))
    as ([c1 tr1] & Hrun & Htr & Hthis & Hmemo).
  cbn [this trace] in *. subst tr1. exists c1. split; [exact Hrun |].
  destruct component; [subst c1; apply memo_of_refl | auto].
Qed.

(** The end of [run], from the storing of the results on. *)
Lemma run_ending (a : RunSpecsArgs) (c : Component) (tr : list Event)
    (results : list SpecsResults.t) :
  (modify (set_specsResults (Some results)) ≫= fun _ =>
   c ← get_this;
   if flag (rs_rejectOnFailure a) && negb (forallb SpecsResults.pass results) then
     if flag (rs_verbose a) then
       let specsResultsPretty := String.concat JsString.newline (paintSpecsResults results) in
       let componentIdPretty := chalk_bold_white (BitId.toString (get_id c)) in
       throw (ComponentSpecsFailed
                (Some (componentIdPretty ++ specsResultsPretty ++ JsString.newline)))
     else throw (ComponentSpecsFailed None)
   else
     when (flag (rs_save a))
          (emit EvModifySpecsResults;;
           lift (sources_modifySpecsResults (rs_scope a) c results));;
     c ← get_this;
     mret (specsResults c)) (mkState c tr)
  = run_verdict a c tr results.
Proof.
  unfold run_verdict. unfold_monad. cbn [this trace].
  destruct (flag (rs_rejectOnFailure a) && negb (forallb SpecsResults.pass results)).
  - destruct (flag (rs_verbose a)); reflexivity.
  - destruct (flag (rs_save a)); [| reflexivity].
    cbn [this trace]. destruct (sources_modifySpecsResults _ _ _) as [[] | e]; reflexivity.
Qed.

(** A run that cannot list its test files stops there. *)
Lemma run_without_files (a : RunSpecsArgs) (plugin : TesterExtension)
    (component : option Component) (cwd : option string) (c : Component)
    (tr : list Event) (e : Error) :
  testFilesList_of (default c component) = Throw e ->
  exists c1,
    memo_of c c1
    /\ runSpecs_run a plugin component cwd (mkState c tr)
       = (Throw e, mkState c1 (after_chdir cwd tr)).
Proof.
  intros Hlist. unfold runSpecs_run.
  unfold mbind at 1. unfold M_bind at 1. rewrite run_opening.
  unfold mbind at 1. unfold M_bind at 1.
  destruct (run_test_files component c (after_chdir cwd tr)) as (c1 & Hfiles & Hm).
  rewrite Hfiles, Hlist. exists c1. split; [exact Hm | reflexivity].
Qed.

(** A run through the legacy contract. *)
Lemma run_legacy (a : RunSpecsArgs) (plugin : TesterExtension)
    (component : option Component) (cwd : option string) (c : Component)
    (tr : list Event) (testFiles : list (Dist.t + SourceFile.t)) :
  tst_action plugin = None ->
  testFilesList_of (default c component) = Ok testFiles ->
  exists c1,
    memo_of c c1
    /\ runSpecs_run a plugin component cwd (mkState c tr)
       = run_verdict a c1 (after_chdir cwd tr ++ legacy_calls plugin testFiles)%list
           (map SpecsResults_createFromRaw (map (legacy_raw plugin) testFiles)).
Proof.
  intros Haction Hlist. unfold runSpecs_run.
  unfold mbind at 1. unfold M_bind at 1. rewrite run_opening.
  unfold mbind at 1. unfold M_bind at 1.
  destruct (run_test_files component c (after_chdir cwd tr)) as (c1 & Hfiles & Hm).
  rewrite Hfiles, Hlist.
  unfold mbind at 1. unfold M_bind at 1. unfold get_this at 1. cbv zeta.
  unfold mbind at 1. unfold M_bind at 1.
  unfold try_catch at 1. rewrite Haction.
  rewrite mapM_oneFileSpecResult.
  exists c1. split; [exact Hm |]. apply run_ending.
Qed.

(** A run through the modern contract. *)
Lemma run_modern (a : RunSpecsArgs) (plugin : TesterExtension)
    (component : option Component) (cwd : option string) (c : Component)
    (tr : list Event) (testFiles : list (Dist.t + SourceFile.t))
    (action : TesterActionParams -> Result (list RawTestsResults)) :
  tst_action plugin = Some action ->
  testFilesList_of (default c component) = Ok testFiles ->
  exists c1 params,
    memo_of c c1
    /\ tap_testFiles params = testFiles
    /\ runSpecs_run a plugin component cwd (mkState c tr)
       = match action params with
         | Ok rawResults =>
             run_verdict a c1 (after_chdir cwd tr ++ [EvTesterAction (tst_name plugin)])%list
               (map SpecsResults_createFromRaw rawResults)
         | Throw e =>
             (Throw (ExternalTestError e (BitId.toString (get_id c))),
              mkState c1 (after_chdir cwd tr ++ [EvTesterAction (tst_name plugin)])%list)
         end.
Proof.
  intros Haction Hlist. unfold runSpecs_run.
  unfold mbind at 1. unfold M_bind at 1. rewrite run_opening.
  unfold mbind at 1. unfold M_bind at 1.
  destruct (run_test_files component c (after_chdir cwd tr)) as (c1 & Hfiles & Hm).
  rewrite Hfiles, Hlist.
  unfold mbind at 1. unfold M_bind at 1. unfold get_this at 1. cbv zeta.
  unfold mbind at 1. unfold M_bind at 1.
  unfold try_catch at 1. rewrite Haction.
  unfold mbind at 1. unfold M_bind at 1.
  assert (Hobj : exists o c2,
    on_component component toObject (mkState c1 (after_chdir cwd tr))
    = (Ok o, mkState c2 (after_chdir cwd tr)) /\ memo_of c1 c2).
  { destruct component as [other |]; cbn [on_component].
    - unfold fmap, M_fmap, run_on. cbn [this trace].
      destruct (toObject_spec (mkState other (after_chdir cwd tr)))
        as ([c2 tr2] & Hobj & Htr & _).
      rewrite Hobj. cbn [this trace fst] in *. subst tr2.
      do 2 eexists. split; [reflexivity | apply memo_of_refl].
    - destruct (toObject_spec (mkState c1 (after_chdir cwd tr)))
        as ([c2 tr2] & Hobj & Htr & Hm2).
      cbn [this trace] in *. subst tr2. do 2 eexists. split; [exact Hobj | exact Hm2]. }
  destruct Hobj as (o & c2 & Hobj & Hm2). rewrite Hobj.
  assert (Hm12 : memo_of c c2) by (eapply memo_of_trans; eauto).
  unfold mbind at 1. unfold M_bind at 1. unfold emit at 1.
  unfold lift at 1. cbn [this trace].
  match goal with |- context [action ?p] => exists c2, p end.
  split; [exact Hm12 |]. split; [reflexivity |].
  match goal with |- context [action ?p] => destruct (action p) as [raws | e] end.
  - exact (run_ending a c2 _ (map SpecsResults_createFromRaw raws)).
  - unfold get_this, mbind, M_bind, throw. cbn [this].
    rewrite (memo_of_id _ _ Hm12). reflexivity.
Qed.

(** X2: the legacy contract never fails the run. With a tester that has
    no modern action, and neither reject-on-failure nor save asked for,
    [run] resolves to one result per test file, in the order of the files:
    the normalized result of the tester for that file, or the synthetic
    failing result when the tester threw on it. Every file is handed to
    the tester, whatever happened on the files before it, and the list is
    stored in [specsResults]. *)
Theorem runSpecs_run_legacy_results :
  forall (a : RunSpecsArgs) (plugin : TesterExtension) (component : option Component)
         (cwd : option string) (c : Component) (tr : list Event)
         (testFiles : list (Dist.t + SourceFile.t))
         (oldAction : string -> Result RawTestsResults),
    tst_action plugin = None ->
    tst_oldAction plugin = Some oldAction ->
    testFilesList_of (default c component) = Ok testFiles ->
    flag (rs_rejectOnFailure a) = false ->
    flag (rs_save a) = false ->
    let results :=
      map (fun testFile =>
             SpecsResults_createFromRaw
               match oldAction (testFile_path testFile) with
               | Ok r => mkRaw (Some (testFile_relative testFile)) (raw_pass r)
                               (raw_tests r) (raw_failures r)
               | Throw err => failedSpecResult (testFile_relative testFile) err
               end) testFiles in
    let outcome := runSpecs_run a plugin component cwd (mkState c tr) in
    fst outcome = Ok (Some results)
    /\ specsResults (this (snd outcome)) = Some results
    /\ length results = length testFiles
    /\ trace (snd outcome)
       = (after_chdir cwd tr
          ++ map (fun testFile => EvTesterOldAction (testFile_path testFile)) testFiles)%list.
Proof.
  intros a plugin component cwd c tr testFiles oldAction
         Haction Hold Hlist Hreject Hsave results outcome.
  destruct (run_legacy a plugin component cwd c tr testFiles Haction Hlist)
    as (c1 & _ & Hrun).
  subst outcome. rewrite Hrun. unfold run_verdict. rewrite Hreject, Hsave.
  cbn [andb fst snd this trace specsResults set_specsResults].
  assert (Hres : map SpecsResults_createFromRaw (map (legacy_raw plugin) testFiles) = results).
  { subst results. rewrite map_map. apply map_ext. intros f.
    unfold legacy_raw. rewrite Hold. reflexivity. }
  rewrite Hres. unfold legacy_calls. rewrite Hold.
  repeat split. subst results. apply length_map.
Qed.

(** X3: a tester without any contract is not rejected. With neither
    [action] nor [oldAction], [run] calls nothing, and resolves to one
    failing synthetic result per test file, whose failure is the
    [TypeError] of the missing function; no error is raised. *)
Theorem runSpecs_run_without_contract :
  forall (a : RunSpecsArgs) (plugin : TesterExtension) (component : option Component)
         (cwd : option string) (c : Component) (tr : list Event)
         (testFiles : list (Dist.t + SourceFile.t)),
    tst_action plugin = None ->
    tst_oldAction plugin = None ->
    testFilesList_of (default c component) = Ok testFiles ->
    flag (rs_rejectOnFailure a) = false ->
    flag (rs_save a) = false ->
    let outcome := runSpecs_run a plugin component cwd (mkState c tr) in
    fst outcome
    = Ok (Some (map (fun testFile =>
                  SpecsResults_createFromRaw
                    (failedSpecResult (testFile_relative testFile)
                       (TypeError "tester.oldAction is not a function"))) testFiles))
    /\ trace (snd outcome) = after_chdir cwd tr.
Proof.
  intros a plugin component cwd c tr testFiles Haction Hold Hlist Hreject Hsave outcome.
  destruct (run_legacy a plugin component cwd c tr testFiles Haction Hlist)
    as (c1 & _ & Hrun).
  subst outcome. rewrite Hrun. unfold run_verdict. rewrite Hreject, Hsave.
  cbn [andb fst snd this trace].
  unfold legacy_calls. rewrite Hold, app_nil_r. split; [| reflexivity].
  rewrite map_map. do 2 f_equal. apply map_ext. intros f.
  unfold legacy_raw. rewrite Hold. reflexivity.
Qed.

(** X4: the modern contract is one batch call. With a tester that has a
    modern action, and neither reject-on-failure nor save asked for, [run]
    calls the action exactly once, with the whole list of test files; it
    resolves to the normalized results of that call and stores them, and
    when the action throws it rejects with an [ExternalTestError] that
    carries the thrown error and the id, leaving [specsResults] as it
    was. *)
Theorem runSpecs_run_modern_call :
  forall (a : RunSpecsArgs) (plugin : TesterExtension) (component : option Component)
         (cwd : option string) (c : Component) (tr : list Event)
         (testFiles : list (Dist.t + SourceFile.t))
         (action : TesterActionParams -> Result (list RawTestsResults)),
    tst_action plugin = Some action ->
    testFilesList_of (default c component) = Ok testFiles ->
    flag (rs_rejectOnFailure a) = false ->
    flag (rs_save a) = false ->
    let outcome := runSpecs_run a plugin component cwd (mkState c tr) in
    exists params,
      tap_testFiles params = testFiles
      /\ trace (snd outcome)
         = (after_chdir cwd tr ++ [EvTesterAction (tst_name plugin)])%list
      /\ match action params with
         | Ok rawResults =>
             fst outcome = Ok (Some (map SpecsResults_createFromRaw rawResults))
             /\ specsResults (this (snd outcome))
                = Some (map SpecsResults_createFromRaw rawResults)
         | Throw e =>
             fst outcome = Throw (ExternalTestError e (BitId.toString (get_id c)))
             /\ specsResults (this (snd outcome)) = specsResults c
         end.
Proof.
  intros a plugin component cwd c tr testFiles action Haction Hlist Hreject Hsave outcome.
  destruct (run_modern a plugin component cwd c tr testFiles action Haction Hlist)
    as (c1 & params & Hm & Hfiles & Hrun).
  exists params. split; [exact Hfiles |].
  subst outcome. rewrite Hrun.
  destruct (action params) as [raws | e].
  - unfold run_verdict. rewrite Hreject, Hsave. cbn. auto.
  - cbn [fst snd this trace]. rewrite (memo_of_specsResults _ _ Hm). auto.
Qed.

Lemma no_save_after_chdir (cwd : option string) :
  ~ In EvModifySpecsResults (after_chdir cwd []).
Proof.
  unfold after_chdir. destruct (JsString.truthy (default "" cwd)); simpl.
  - intros [Hc | []]. discriminate.
  - intros [].
Qed.

Lemma no_save_legacy_calls (plugin : TesterExtension)
    (testFiles : list (Dist.t + SourceFile.t)) :
  ~ In EvModifySpecsResults (legacy_calls plugin testFiles).
Proof.
  unfold legacy_calls. destruct (tst_oldAction plugin); [| intros []].
  intros Hin. apply in_map_iff in Hin as (f & Hf & _). discriminate.
Qed.

(** With reject-on-failure, the verdict never returns or saves a list
    that holds a failing result. *)
Lemma run_verdict_reject (a : RunSpecsArgs) (c : Component) (tr : list Event)
    (results : list SpecsResults.t) :
  flag (rs_rejectOnFailure a) = true ->
  ~ In EvModifySpecsResults tr ->
  let outcome := run_verdict a c tr results in
  specsResults (this (snd outcome)) = Some results
  /\ (forall r, fst outcome = Ok r -> r = Some results /\ forallb SpecsResults.pass results = true)
  /\ (forallb SpecsResults.pass results = false ->
      (exists report, fst outcome = Throw (ComponentSpecsFailed report)
                      /\ present report = flag (rs_verbose a))
      /\ ~ In EvModifySpecsResults (trace (snd outcome))).
Proof.
  intros Hreject Htr outcome. subst outcome. unfold run_verdict. rewrite Hreject.
  destruct (forallb SpecsResults.pass results) eqn:Hall; cbn [andb negb].
  - destruct (flag (rs_save a)).
    + destruct (sources_modifySpecsResults _ _ _) as [[] | e]; cbn;
        (split; [reflexivity |]); (split; [| discriminate]).
      * intros r [= <-]. auto.
      * discriminate.
    + cbn. split; [reflexivity |]. split; [| discriminate]. intros r [= <-]. auto.
  - cbn. split; [reflexivity |]. split; [discriminate |]. intros _.
    split; [| exact Htr].
    destruct (flag (rs_verbose a)); eexists; split; reflexivity.
Qed.

(** X5: reject-on-failure. Started on a component without stored results
    and with an empty trace, with reject-on-failure asked for, [run] never
    resolves to a list that holds a failing result; and once such a list
    has been stored in [specsResults], the run is rejected with
    [ComponentSpecsFailed], the report being there exactly when verbose
    output was asked for, and the results are not saved to the store,
    even if saving was asked for. *)
Theorem runSpecs_run_reject_on_failure :
  forall (a : RunSpecsArgs) (plugin : TesterExtension) (component : option Component)
         (cwd : option string) (c : Component),
    flag (rs_rejectOnFailure a) = true ->
    let outcome :=
      runSpecs_run a plugin component cwd (mkState (set_specsResults None c) []) in
    (forall r, fst outcome = Ok r ->
       exists l, r = Some l /\ forallb SpecsResults.pass l = true)
    /\ (forall l, specsResults (this (snd outcome)) = Some l ->
         forallb SpecsResults.pass l = false ->
         (exists report, fst outcome = Throw (ComponentSpecsFailed report)
                         /\ present report = flag (rs_verbose a))
         /\ ~ In EvModifySpecsResults (trace (snd outcome))).
Proof.
  intros a plugin component cwd c Hreject outcome.
  set (c0 := set_specsResults None c) in *.
  assert (Hcases :
    (exists e c1, memo_of c0 c1 /\ exists tr1, outcome = (Throw e, mkState c1 tr1))
    \/ (exists c1 tr1 results,
          ~ In EvModifySpecsResults tr1 /\ outcome = run_verdict a c1 tr1 results)).
  { subst outcome.
    destruct (testFilesList_of (default c0 component)) as [testFiles | e] eqn:Hlist.
    - destruct (tst_action plugin) as [action |] eqn:Haction.
      + destruct (run_modern a plugin component cwd c0 [] testFiles action Haction Hlist)
          as (c1 & params & Hm & _ & Hrun).
        rewrite Hrun. destruct (action params) as [raws | e].
        * right. do 3 eexists. split; [| reflexivity].
          intros Hin. apply in_app_or in Hin as [Hin | [Hin | []]].
          -- exact (no_save_after_chdir cwd Hin).
          -- discriminate.
        * left. eauto 6.
      + destruct (run_legacy a plugin component cwd c0 [] testFiles Haction Hlist)
          as (c1 & Hm & Hrun).
        rewrite Hrun. right. do 3 eexists. split; [| reflexivity].
        intros Hin. apply in_app_or in Hin as [Hin | Hin].
        * exact (no_save_after_chdir cwd Hin).
        * exact (no_save_legacy_calls plugin testFiles Hin).
    - destruct (run_without_files a plugin component cwd c0 [] e Hlist)
        as (c1 & Hm & Hrun).
      rewrite Hrun. left. eauto 6. }
  destruct Hcases as [(e & c1 & Hm & tr1 & ->) | (c1 & tr1 & results & Htr & ->)].
  - cbn [fst snd this]. split; [discriminate |].
    intros l Hl. rewrite (memo_of_specsResults _ _ Hm) in Hl. discriminate.
  - destruct (run_verdict_reject a c1 tr1 results Hreject Htr) as (Hstored & Hok & Hfail).
    split.
    + intros r Hr. destruct (Hok r Hr) as [-> Hall]. eauto.
    + intros l Hl Hall. rewrite Hstored in Hl. injection Hl as <-. auto.
Qed.

(** A failure that comes out of a block guarded by the teardown of the
    isolated environment has destroyed the environment. *)
Lemma teardown_on_failure {A} (m : M A) (env : IsolatedEnvironment) (st : State) :
  let outcome :=
    try_catch m (fun e => emit EvEnvDestroy;; lift (env_destroy env);; throw e) st in
  is_ok (fst outcome) = false -> In EvEnvDestroy (trace (snd outcome)).
Proof.
  unfold try_catch. destruct (m st) as [[x | e] st1]; cbn.
  - discriminate.
  - intros _. unfold_monad. cbn.
    destruct (env_destroy env) as [[] | e']; cbn; apply in_or_app; right; left; reflexivity.
Qed.

(** X6: a failing isolated test run destroys its environment. For a
    component with a loaded tester and at least one test file, run
    without a workspace or with [isolated] set, every failure of
    [runSpecs], whether it comes from the environment, the build, the
    writing of the dists or the tests, comes out after the isolated
    environment was destroyed, whatever [keep] says. *)
Theorem runSpecs_isolated_failure_destroys :
  forall (a : RunSpecsArgs) (c : Component) (tr : list Event)
         (l : list SourceFile.t) (plugin : TesterExtension),
    files_value c = Some l ->
    List.filter SourceFile.test l <> [] ->
    tester c = Some plugin ->
    tst_loaded plugin = true ->
    (rs_consumer a = None \/ flag (rs_isolated a) = true) ->
    forall e st',
      runSpecs a (mkState c tr) = (Throw e, st') ->
      In EvEnvDestroy (trace st').
Proof.
  intros a c tr l plugin Hfiles Htests Htester Hloaded Hmode e st'.
  destruct (files_memo (mkState c tr)) as ([c1 tr1] & Hf & _ & Hm & _).
  cbn [this trace] in *.
  unfold runSpecs. unfold mbind at 1. unfold M_bind at 1. rewrite Hf, Hfiles.
  unfold mbind at 1. unfold M_bind at 1. unfold get_this at 1. cbn [this].
  rewrite (memo_of_tester _ _ Hm), Htester.
  destruct (List.filter SourceFile.test l) as [| t0 rest]; [contradiction |].
  unfold mbind at 1. unfold M_bind at 1. rewrite Hloaded. cbn [negb when].
  unfold mret at 1. unfold M_ret at 1. cbv zeta.
  intros Hrun.
  match type of Hrun with
  | context [try_catch ?body ?handler] =>
      pose proof (teardown_on_failure body
                    (newIsolatedEnvironment (rs_scope a) (rs_directory a))
                    (mkState c1 tr1)) as Htear
  end.
  cbv zeta in Htear.
  destruct Hmode as [Hcons | Hiso].
  - rewrite Hcons in Hrun. rewrite Hrun in Htear. apply Htear. reflexivity.
  - destruct (rs_consumer a) as [consumer |].
    + rewrite Hiso in Hrun. cbn [negb] in Hrun. rewrite Hrun in Htear.
      apply Htear. reflexivity.
    + rewrite Hrun in Htear. apply Htear. reflexivity.
Qed.

(** X7: a tester that is not loaded is installed before anything else.
    For a component with test files whose tester is not loaded, a
    failing installation makes [runSpecs] fail with the same error; no
    environment is created, nothing is built and no test runs. *)
Theorem runSpecs_install_failure :
  forall (a : RunSpecsArgs) (c : Component) (tr : list Event)
         (l : list SourceFile.t) (plugin : TesterExtension) (e : Error),
    files_value c = Some l ->
    List.filter SourceFile.test l <> [] ->
    tester c = Some plugin ->
    tst_loaded plugin = false ->
    tst_install plugin (rs_verbose a) = Throw e ->
    exists c',
      runSpecs a (mkState c tr)
      = (Throw e, mkState c' (tr ++ [EvTesterInstall (tst_name plugin)])%list)
      /\ memo_of c c'.
Proof.
  intros a c tr l plugin e Hfiles Htests Htester Hloaded Hinstall.
  destruct (files_memo (mkState c tr)) as ([c1 tr1] & Hf & Htr & Hm & _).
  cbn [this trace] in *. subst tr1.
  unfold runSpecs. unfold mbind at 1. unfold M_bind at 1. rewrite Hf, Hfiles.
  unfold mbind at 1. unfold M_bind at 1. unfold get_this at 1. cbn [this].
  rewrite (memo_of_tester _ _ Hm), Htester.
  destruct (List.filter SourceFile.test l) as [| t0 rest]; [contradiction |].
  unfold mbind at 1. unfold M_bind at 1. rewrite Hloaded. cbn [negb when].
  unfold_monad. cbn. rewrite Hinstall.
  exists c1. split; [reflexivity | exact Hm].
Qed.

End TestRuns.

Section Keeps.

Context `{Externals}.















End Keeps.

Section BuildOutcomes.

Context `{Externals}.

(** [runBuild] on any root: without a root nothing is called. *)
Lemma runBuild_trace (compiler : CompilerExtension) (consumer : option Consumer)
    (componentMap : option ComponentMap) (clones : list SourceFile.t)
    (root : option string) (st : State) :
  present (cmp_action compiler) || present (cmp_oldAction compiler) = true ->
  exists r st',
    runBuild compiler consumer componentMap clones root st = (r, st')
    /\ memo_of (this st) (this st')
    /\ trace st'
       = (trace st ++ match root with
                      | Some dir => [EvChdir dir; contract_event compiler]
                      | None => []
                      end)%list.
Proof.
  intros Hany. destruct root as [dir |].
  - destruct (runBuild_spec compiler consumer componentMap clones dir st Hany)
      as (r & st' & Hrun & Htr & Hm & _).
    exists r, st'. auto.
  - exists (Throw (TypeError "Path must be a string")), st.
    rewrite app_nil_r. split; [reflexivity |]. split; [apply memo_of_refl | reflexivity].
Qed.

Ltac in_destroy := cbn; rewrite ?in_app_iff; cbn; rewrite ?in_app_iff; cbn; tauto.

Ltac now_false := let Hx := fresh in intros Hx; cbn in Hx; discriminate Hx.

(** X9: the isolated environment of a build is always torn down on
    failure. Without a workspace and without an environment of its own,
    [buildIfNeeded] with a usable compiler first creates an isolated
    environment; when the outcome is a failure the environment has been
    destroyed, whatever [keep] says; when the build succeeds it has been
    destroyed exactly when [keep] is not set. *)
Theorem buildIfNeeded_isolated_teardown :
  forall (a : BuildIfNeededArgs) (compiler : CompilerExtension)
         (l : list SourceFile.t) (c : Component) (tr : list Event),
    bin_compiler a = Some compiler ->
    bin_consumer a = None ->
    isolatedEnvironment c = None ->
    files_value c = Some l ->
    present (cmp_action compiler) || present (cmp_oldAction compiler) = true ->
    exists outcome c' rest,
      buildIfNeeded a (mkState c tr) = (outcome, mkState c' (tr ++ EvEnvCreate :: rest)%list)
      /\ (is_ok outcome = false -> In EvEnvDestroy rest)
      /\ (is_ok outcome = true -> (In EvEnvDestroy rest <-> flag (bin_keep a) = false)).
Proof.
  intros a compiler l c tr Hc Hcons Henv Hfiles Hany.
  destruct (files_memo (mkState c tr)) as (st1 & Hf & Htr1 & Hm1 & _ & _).
  destruct st1 as [c1 tr1]. cbn [this trace] in *. subst tr1.
  assert (Henv1 : isolatedEnvironment c1 = None) by (rewrite Hm1; exact Henv).
  unfold buildIfNeeded. rewrite Hc. unfold mbind at 1. unfold M_bind at 1.
  rewrite Hf, Hfiles. cbv zeta. rewrite Hcons.
  replace (negb (present (cmp_action compiler)) && negb (present (cmp_oldAction compiler)))
    with false
    by (destruct (present (cmp_action compiler)), (present (cmp_oldAction compiler));
        simpl in *; congruence).
  unfold mbind at 1. unfold M_bind at 1. unfold get_this at 1.
  cbn [this fst snd]. rewrite Henv1. cbn [present].
  set (env := newIsolatedEnvironment (bin_scope a) (bin_directory a)).
  unfold try_catch.
  unfold mbind at 1. unfold M_bind at 1. unfold emit at 1.
  unfold mbind at 1. unfold M_bind at 1. unfold lift at 1.
  destruct (env_create env) as [[] | e0] eqn:Hcreate.
  - unfold mbind at 1. unfold M_bind at 1. unfold emit at 1.
    unfold mbind at 1. unfold M_bind at 1. unfold lift at 1.
    destruct (env_isolateComponent env _ _) as [component | e1].
    + unfold mbind at 1. unfold M_bind at 1. cbn [this trace fst snd].
      match goal with
      | |- context [runBuild ?cm ?cs ?m ?cl ?root ?s] =>
          destruct (runBuild_trace cm cs m cl root s Hany) as (r & st2 & Hrun & _ & Htr2)
      end.
      rewrite Hrun. destruct st2 as [c2 tr2]. cbn [trace] in Htr2. subst tr2.
      destruct r as [built | e2].
      * unfold when. destruct (flag (bin_keep a)) eqn:Hkeep; cbn [negb].
        -- unfold_monad. cbn. do 3 eexists. split.
           { rewrite <- !app_assoc. cbn. reflexivity. }
           split; [now_false |]. intros _. split; [| now_false].
           intros [Hin | Hin]; [discriminate |].
           destruct (writtenPath component); cbn in Hin.
           ++ destruct Hin as [Hin | [Hin | []]]; [discriminate |].
              unfold contract_event in Hin.
              destruct (present (cmp_action compiler)); discriminate.
           ++ destruct Hin.
        -- unfold_monad. cbn.
           destruct (env_destroy env) as [[] | e3]; cbn.
           ++ do 3 eexists. split.
              { rewrite <- !app_assoc. cbn. reflexivity. }
              split; [now_false |]. intros _. split; [reflexivity |]. intros _.
              in_destroy.
           ++ destruct (env_destroy env) as [[] | e4]; cbn;
                (do 3 eexists; split; [rewrite <- !app_assoc; cbn; reflexivity |]);
                (split; [| now_false]); intros _;
                in_destroy.
      * unfold_monad. cbn.
        destruct (env_destroy env) as [[] | e3]; cbn;
          (do 3 eexists; split; [rewrite <- !app_assoc; cbn; reflexivity |]);
          (split; [| now_false]); intros _;
          in_destroy.
    + unfold_monad. cbn.
      destruct (env_destroy env) as [[] | e3]; cbn;
        (do 3 eexists; split; [rewrite <- !app_assoc; cbn; reflexivity |]);
        (split; [| now_false]); cbn; tauto.
  - unfold_monad. cbn.
    destruct (env_destroy env) as [[] | e3]; cbn;
      (do 3 eexists; split; [rewrite <- !app_assoc; cbn; reflexivity |]);
      (split; [| now_false]); cbn; tauto.
Qed.





(** X12: building a component that has no compiler. Without a workspace,
    or in a workspace that keeps the dists inside the component, [build]
    returns [null] and touches nothing. In a workspace that keeps them
    outside, the source files become the dists: one dist per file, in
    order, with the file's base, path and contents and never marked as a
    test, and these dists are returned; nothing outside is called. *)
Theorem build_without_compiler :
  forall (a : BuildArgs) (c : Component) (tr : list Event),
    compiler c = None ->
    ((b_consumer a = None
      \/ exists consumer, b_consumer a = Some consumer
                          /\ shouldDistsBeInsideTheComponent consumer = true) ->
     build a (mkState c tr) = (Ok None, mkState c tr))
    /\ (forall consumer l,
          b_consumer a = Some consumer ->
          shouldDistsBeInsideTheComponent consumer = false ->
          files_value c = Some l ->
          exists c',
            build a (mkState c tr) = (Ok (Some (dists_of_files l)), mkState c' tr)
            /\ dists c' = dists_of_files l
            /\ memo_of (set_dists (dists_of_files l) c) c').
Proof.
  intros a c tr Hcompiler. split.
  - intros Hcase. unfold build.
    unfold mbind at 1. unfold M_bind at 1. unfold get_this at 1.
    cbn [this fst snd]. rewrite Hcompiler.
    destruct Hcase as [-> | (consumer & -> & ->)]; reflexivity.
  - intros consumer l Hcons Houtside Hfiles. unfold build.
    unfold mbind at 1. unfold M_bind at 1. unfold get_this at 1.
    cbn [this fst snd]. rewrite Hcompiler, Hcons, Houtside.
    unfold copyFilesIntoDists.
    destruct (files_memo (mkState c tr)) as ([c1 tr1] & Hf & Htr & Hm & _).
    cbn [this trace] in *. subst tr1.
    unfold mbind, M_bind. rewrite Hf, Hfiles.
    unfold setDists, modify, get_this. cbn.
    eexists. split; [reflexivity |]. split; [reflexivity |].
    unfold memo_of in *. rewrite Hm at 1. reflexivity.
Qed.

(** X13: a failing status query stops the build. For a component with a
    compiler, in a workspace and without the no-cache flag, [build] asks
    the workspace for the status of the component; when that query
    fails, [build] fails with the same error, the component is untouched
    and neither the compiler nor the store has been called. *)
Theorem build_status_failure :
  forall (a : BuildArgs) (c : Component) (compiler0 : CompilerExtension)
         (consumer : Consumer) (tr : list Event) (e : Error),
    compiler c = Some compiler0 ->
    flag (b_noCache a) = false ->
    b_consumer a = Some consumer ->
    getComponentStatusById consumer (get_id c) = Throw e ->
    build a (mkState c tr)
    = (Throw e, mkState c (tr ++ [EvStatus (BitId.toString (get_id c))])%list).
Proof.
  intros a c compiler0 consumer tr e Hcompiler Hcache Hcons Hstatus.
  unfold build.
  unfold mbind at 1. unfold M_bind at 1. unfold get_this at 1.
  cbn [this fst snd]. rewrite Hcompiler. cbv zeta.
  unfold mbind at 1. unfold M_bind at 1.
  unfold isNeededToReBuild. rewrite Hcache, Hcons.
  unfold_monad. cbn. rewrite Hstatus. reflexivity.
Qed.

(** X14: a compiler that is not loaded is installed before anything is
    compiled. When the cached dists are not to be reused and the
    compiler is not loaded, [build] installs it first, for the workspace
    directory and the id of the component; when the installation fails,
    [build] fails with the same error and the compiler has not run. *)
Theorem build_install_failure :
  forall (a : BuildArgs) (c : Component) (compiler0 : CompilerExtension)
         (tr : list Event) (e : Error),
    compiler c = Some compiler0 ->
    flag (b_noCache a) = true ->
    cmp_loaded compiler0 = false ->
    (forall context,
        ic_workspaceDir context
        = match b_consumer a with Some consumer => getPath consumer | None => "" end ->
        ic_dependentId context = get_id c ->
        cmp_install compiler0 (b_verbose a) context = Throw e) ->
    build a (mkState c tr)
    = (Throw e, mkState c (tr ++ [EvCompilerInstall (cmp_name compiler0)])%list).
Proof.
  intros a c compiler0 tr e Hcompiler Hcache Hloaded Hinstall.
  unfold build.
  unfold mbind at 1. unfold M_bind at 1. unfold get_this at 1.
  cbn [this fst snd]. rewrite Hcompiler. cbv zeta.
  unfold mbind at 1. unfold M_bind at 1.
  unfold isNeededToReBuild. rewrite Hcache.
  unfold mret at 1. unfold M_ret at 1.
  unfold mbind at 1. unfold M_bind at 1. unfold get_this at 1.
  cbn [negb andb]. unfold rebuild.
  unfold mbind at 1. unfold M_bind at 1. unfold get_this at 1.
  unfold mbind at 1. unfold M_bind at 1.
  rewrite Hloaded. cbn [negb when].
  unfold_monad. cbn. rewrite Hinstall; reflexivity.
Qed.

End BuildOutcomes.

Section SerializationEdges.

Context `{Externals}.

(** X15: the order in which [fromObject] fails. The compiler descriptor
    is loaded first, then the tester descriptor, then the constructor
    runs: a failing compiler loader decides the outcome whatever else the
    object holds; with both descriptors loading, a missing [mainFile] is
    a [TypeError], also when the name is empty; and with a main file, an
    empty name without box is the [GeneralError] of the validation. *)
Theorem fromObject_failure_order :
  forall (object : ComponentObject),
    (forall e,
        load_descriptor (o_compiler object) CompilerExtension_loadFromModelObject = Throw e ->
        fromObject object = Throw e)
    /\ (forall e,
          is_ok (load_descriptor (o_compiler object) CompilerExtension_loadFromModelObject)
          = true ->
          load_descriptor (o_tester object) TesterExtension_loadFromModelObject = Throw e ->
          fromObject object = Throw e)
    /\ (is_ok (load_descriptor (o_compiler object) CompilerExtension_loadFromModelObject)
        = true ->
        is_ok (load_descriptor (o_tester object) TesterExtension_loadFromModelObject)
        = true ->
        (o_mainFile object = None ->
         fromObject object = Throw (TypeError "Path must be a string"))
        /\ (forall m, o_mainFile object = Some m ->
              JsString.or_else (o_box object) "" = "" ->
              default "" (o_name object) = "" ->
              exists msg, fromObject object = Throw (GeneralError msg))).
Proof.
  intros object. unfold fromObject. split; [| split].
  - intros e ->. reflexivity.
  - intros e Hc Ht.
    destruct (load_descriptor (o_compiler object) _); [| discriminate].
    rewrite Ht. reflexivity.
  - intros Hc Ht.
    destruct (load_descriptor (o_compiler object) _) as [x |]; [| discriminate].
    destruct (load_descriptor (o_tester object) _) as [t |]; [| discriminate].
    split.
    + intros Hm. unfold new_Component. cbn [p_mainFile]. rewrite Hm. reflexivity.
    + intros m Hm Hbox Hname.
      eapply new_Component_empty_name; cbn [p_mainFile p_name]; [exact Hm |].
      destruct (o_box object) as [box |]; [| exact Hname].
      cbn in Hbox. destruct (JsString.truthy box) eqn:Hb; [| exact Hname].
      destruct box; discriminate.
Qed.


(** X17: absent and falsy dists. When the parsed document has no
    [dists], or a falsy one ([null], [false], [0], the empty string),
    neither branch of the normalization is taken and the component that
    [fromString] builds has an empty dist set; the dist loader is not
    consulted. *)
Theorem fromString_parsed_falsy_dists :
  forall (parsed : ParsedDocument) (c : Component),
    match pd_dists parsed with
    | Some d => json_truthy d = false
    | None => True
    end ->
    fromString_parsed parsed = Ok c ->
    dists c = Dists.mk (Dists.Array []) /\ Dists.isEmpty (dists c) = true.
Proof.
  intros parsed c Hfalsy Hrun. unfold fromString_parsed in Hrun.
  apply fromObject_dists in Hrun. rewrite Hrun.
  cbn [o_dists assign_files_dists]. unfold normalize_dists.
  destruct (pd_dists parsed) as [d |]; [| auto].
  rewrite Hfalsy. cbn [andb].
  destruct d as [| b | n | s | items | fields]; cbn in Hfalsy |- *;
    try discriminate; try rewrite Hfalsy; auto.
Qed.

Lemma toObject_run (c : Component) (tr : list Event) :
  exists c',
    toObject (mkState c tr)
    = (Ok (snapshot c (files_value c) (docs_value_of c)), mkState c' tr)
    /\ memo_of c c'
    /\ _files c' = FilesArray <$> files_value c
    /\ _docs c' = Some (docs_value_of c).
Proof.
  unfold toObject, docs, files, files_value, docs_value_of, doclets_of, files_value.
  unfold_monad.
  destruct (_files c) as [[l | o] |] eqn:Hf; destruct (_docs c) as [d |] eqn:Hd;
    repeat (progress (cbn; rewrite ?Hf, ?Hd));
    eexists; (split; [reflexivity |]); cbn; rewrite ?Hf, ?Hd;
    (split; [| split; reflexivity]);
    unfold memo_of; destruct c; cbn in *; subst; reflexivity.
Qed.

(** X18: [toObject] can be repeated. It always succeeds and calls
    nothing outside; a second call returns the same object as the first
    and leaves the component exactly as the first call left it. *)
Theorem toObject_twice :
  forall (c : Component) (tr : list Event),
    exists object c',
      toObject (mkState c tr) = (Ok object, mkState c' tr)
      /\ toObject (mkState c' tr) = (Ok object, mkState c' tr).
Proof.
  intros c tr.
  destruct (toObject_run c tr) as (c1 & Hrun1 & Hm1 & Hf1 & Hd1).
  destruct (toObject_run c1 tr) as (c2 & Hrun2 & Hm2 & Hf2 & Hd2).
  assert (Hfv : files_value c1 = files_value c).
  { unfold files_value at 1. rewrite Hf1. destruct (files_value c); reflexivity. }
  assert (Hdv : docs_value_of c1 = docs_value_of c).
  { unfold docs_value_of at 1. rewrite Hd1. reflexivity. }
  exists (snapshot c (files_value c) (docs_value_of c)), c1.
  split; [exact Hrun1 |].
  rewrite Hrun2, Hfv, Hdv, (snapshot_memo _ _ _ _ Hm1).
  do 2 f_equal.
  unfold memo_of in Hm2. rewrite Hm2, Hf2, Hd2, Hfv, Hdv, <- Hf1, <- Hd1.
  destruct c1; reflexivity.
Qed.

End SerializationEdges.

Section Strings.

Lemma length_app_string (a b : string) :
  String.length (a ++ b) = String.length a + String.length b.
Proof.
  induction a as [| x a IH]; [rewrite app_empty_l; reflexivity |].
  rewrite app_cons. simpl. rewrite IH. reflexivity.
Qed.

Lemma substring_whole (s : string) : String.substring 0 (String.length s) s = s.
Proof. induction s as [| x s IH]; simpl; [reflexivity | rewrite IH; reflexivity]. Qed.

Lemma substring_drop (a b : string) :
  String.substring (String.length a) (String.length (a ++ b) - String.length a) (a ++ b) = b.
Proof.
  induction a as [| x a IH].
  - rewrite app_empty_l. simpl. rewrite Nat.sub_0_r. apply substring_whole.
  - rewrite app_cons. simpl. exact IH.
Qed.

Lemma prefix_app (a b : string) : String.prefix a (a ++ b) = true.
Proof.
  induction a as [| x a IH]; [destruct (b); reflexivity |].
  rewrite app_cons. simpl. destruct (ascii_dec x x); [exact IH | contradiction].
Qed.

Lemma index_at_head (pat post : string) : String.index 0 pat (pat ++ post) = Some 0.
Proof.
  destruct pat as [| x pat].
  - rewrite app_empty_l. destruct post; reflexivity.
  - pose proof (prefix_app (String x pat) post) as Hp.
    rewrite app_cons in *. cbn [String.index]. rewrite Hp. reflexivity.
Qed.

Lemma index_char_after (c : ascii) (pre post : string) :
  JsString.includes (String c "") pre = false ->
  String.index 0 (String c "") (pre ++ String c post) = Some (String.length pre).
Proof.
  induction pre as [| x pre IH]; intros Hno.
  - rewrite app_empty_l. simpl. destruct (ascii_dec c c); [| contradiction].
    destruct post; reflexivity.
  - rewrite includes_cons in Hno. apply orb_false_iff in Hno as [Hx Hpre].
    rewrite app_cons. cbn [String.index String.prefix String.length].
    destruct (ascii_dec c x) as [-> | _]; [rewrite Ascii.eqb_refl in Hx; discriminate |].
    rewrite (IH Hpre). reflexivity.
Qed.

(** [replace] at a known first occurrence. *)
Lemma replace_at (pat rep pre post : string) :
  String.index 0 pat (pre ++ pat ++ post) = Some (String.length pre) ->
  JsString.replace pat rep (pre ++ pat ++ post) = pre ++ rep ++ post.
Proof.
  intros Hidx. unfold JsString.replace. rewrite Hidx.
  replace (String.length pre) with (String.length pre + 0) at 1 by lia.
  rewrite substring_app_prefix.
  assert (H0 : forall s, String.substring 0 0 s = "") by (intros []; reflexivity).
  rewrite H0, app_empty_r.
  rewrite <- (length_app_string pre pat), <- (app_assoc_string pre pat post), substring_drop.
  reflexivity.
Qed.

End Strings.

Section SharedDirPaths.

Context `{Externals}.

Lemma pathWithoutSharedDir_removes (dir rest : string) :
  dir <> "" ->
  pathWithoutSharedDir (Path.normalize dir ++ Path.sep ++ rest) (Some dir) = rest.
Proof.
  intros Hne. unfold pathWithoutSharedDir.
  rewrite (truthy_true_nonempty dir Hne). cbn [negb]. cbv zeta.
  rewrite <- app_assoc_string.
  pose proof (replace_at (Path.normalize dir ++ Path.sep) "" "" rest) as Hr.
  rewrite !app_empty_l in Hr. apply Hr. apply index_at_head.
Qed.

(** X19: what the helper of the strip removes. Without a shared
    directory, or with an empty one, a path is returned as it is; a path
    that starts with the normalized directory followed by the separator
    loses exactly that head; a path in which the directory followed by
    the separator does not occur is returned as it is. *)
Theorem pathWithoutSharedDir_head :
  (forall p, pathWithoutSharedDir p None = p /\ pathWithoutSharedDir p (Some "") = p)
  /\ (forall dir rest,
        dir <> "" ->
        pathWithoutSharedDir (Path.normalize dir ++ Path.sep ++ rest) (Some dir) = rest)
  /\ (forall dir p,
        JsString.includes (Path.normalize dir ++ Path.sep) p = false ->
        pathWithoutSharedDir p (Some dir) = p).
Proof.
  split; [| split].
  - intros p. split; reflexivity.
  - intros dir rest Hne. apply pathWithoutSharedDir_removes. exact Hne.
  - intros dir p Hno. unfold pathWithoutSharedDir.
    destruct (JsString.truthy dir); [| reflexivity]. cbn [negb]. cbv zeta.
    unfold JsString.replace. unfold JsString.includes in Hno.
    destruct (String.index 0 _ p); [discriminate | reflexivity].
Qed.

Lemma pathWithoutSharedDir_strips (dir rest : string) :
  dir <> "" -> Path.normalize dir = dir ->
  pathWithoutSharedDir (dir ++ "/" ++ rest) (Some dir) = rest.
Proof.
  intros Hne Hnorm.
  pose proof (pathWithoutSharedDir_removes dir rest Hne) as Hhead.
  rewrite Hnorm in Hhead. exact Hhead.
Qed.

Lemma addSharedDir_joins (c : Component) (dir rest : string) :
  originallySharedDir c = Some dir ->
  dir <> "" -> rest <> "" ->
  Path.normalize (dir ++ "/" ++ rest) = dir ++ "/" ++ rest ->
  Utils.pathNormalizeToLinux (dir ++ "/" ++ rest) = dir ++ "/" ++ rest ->
  addSharedDir c rest = dir ++ "/" ++ rest.
Proof.
  intros Hdir Hne Hrest Hnorm Hlinux. unfold addSharedDir. rewrite Hdir.
  rewrite (truthy_true_nonempty dir Hne). cbv zeta. unfold Path.join.
  rewrite (truthy_true_nonempty dir Hne), (truthy_true_nonempty rest Hrest).
  unfold Path.sep. rewrite Hnorm. exact Hlinux.
Qed.

(** X20: adding the shared directory back undoes the strip. On a
    component whose shared directory is [dir], when the files at hand are
    the stripped form of the files [l], and every file of [l] had a
    normalized relative path made of [dir], a separator and a non-empty
    rest, [cloneFilesWithSharedDir] returns the files [l] themselves:
    same base, same contents, and the relative path each one had before
    the strip. The files of the component stay stripped. *)
Theorem cloneFilesWithSharedDir_restores :
  forall (c : Component) (tr : list Event) (dir : string) (l : list SourceFile.t),
    originallySharedDir c = Some dir ->
    dir <> "" ->
    Path.normalize dir = dir ->
    files_value c = Some (stripped_files (Some dir) l) ->
    (forall file, In file l ->
       exists rest,
         rest <> ""
         /\ SourceFile.relative file = dir ++ "/" ++ rest
         /\ Path.normalize (SourceFile.relative file) = SourceFile.relative file
         /\ Utils.pathNormalizeToLinux (SourceFile.relative file)
            = SourceFile.relative file) ->
    exists c',
      cloneFilesWithSharedDir (mkState c tr) = (Ok l, mkState c' tr)
      /\ files_value c' = Some (stripped_files (Some dir) l).
Proof.
  intros c tr dir l Hdir Hne Hnorm Hfiles Hall.
  destruct (files_memo (mkState c tr)) as ([c1 tr1] & Hf & Htr & Hm & Hfv & _).
  cbn [this trace] in *. subst tr1.
  unfold cloneFilesWithSharedDir. unfold mbind at 1. unfold M_bind at 1.
  rewrite Hf, Hfiles. unfold_monad. cbn [this].
  exists c1. split; [| congruence].
  do 2 f_equal. unfold stripped_files. rewrite map_map.
  rewrite <- (map_id l) at 2. apply map_ext_in. intros file Hin.
  destruct (Hall file Hin) as (rest & Hrest & Hrel & Hn & Hl).
  assert (Hdir1 : originallySharedDir c1 = Some dir) by (rewrite Hm; exact Hdir).
  destruct file as [b r ct t]. cbn [SourceFile.relative] in *. subst r.
  unfold SourceFile.updatePaths, SourceFile.clone.
  cbn [SourceFile.base SourceFile.relative SourceFile.contents SourceFile.test
       JsString.or_else].
  rewrite (pathWithoutSharedDir_strips dir rest Hne Hnorm).
  rewrite (truthy_true_nonempty rest Hrest).
  rewrite (addSharedDir_joins c1 dir rest Hdir1 Hne Hrest Hn Hl).
  assert (Ht : JsString.truthy (dir ++ "/" ++ rest) = true).
  { destruct dir; [contradiction | reflexivity]. }
  rewrite Ht.
  assert (Hb : forall x : string, (if JsString.truthy x then x else x) = x)
    by (intros []; reflexivity).
  rewrite !Hb. reflexivity.
Qed.





End SharedDirPaths.

Section DependencyLists.

Context `{Externals}.

Lemma extends_refl (c : Component) : extends_dependencies c c.
Proof. intros k. exists []. rewrite app_nil_r. reflexivity. Qed.

Lemma extends_trans (a b c : Component) :
  extends_dependencies a b -> extends_dependencies b c -> extends_dependencies a c.
Proof.
  intros Hab Hbc k. destruct (Hab k) as [x Hx]. destruct (Hbc k) as [y Hy].
  exists (x ++ y)%list. rewrite Hy, Hx, app_assoc. reflexivity.
Qed.

Lemma extends_add (k : DependencyClass) (dep : Dependencies.Dependency) (c : Component) :
  extends_dependencies c (set_class k (Dependencies.add dep (class_of k c)) c).
Proof.
  intros k'. destruct k, k'; cbn;
    first [exists [dep]; reflexivity | exists []; rewrite app_nil_r; reflexivity].
Qed.

(** One step of the copy: the first class of the model that knows the id
    gives the record, which goes to the same class of the component. *)
Lemma copy_step (model : Component) (id : string) (c : Component) (tr : list Event) :
  (match Dependencies.getByIdStr id (dependencies model) with
   | Some dependency =>
       modify (fun c => set_dependencies (Dependencies.add dependency (dependencies c)) c)
   | None =>
   match Dependencies.getByIdStr id (devDependencies model) with
   | Some dependency =>
       modify (fun c => set_devDependencies (Dependencies.add dependency (devDependencies c)) c)
   | None =>
   match Dependencies.getByIdStr id (compilerDependencies model) with
   | Some dependency =>
       modify (fun c => set_compilerDependencies
                          (Dependencies.add dependency (compilerDependencies c)) c)
   | None =>
   match Dependencies.getByIdStr id (testerDependencies model) with
   | Some dependency =>
       modify (fun c => set_testerDependencies
                          (Dependencies.add dependency (testerDependencies c)) c)
   | None =>
       throw (JsError ("copyDependenciesFromModel unable to find dependency "
                       ++ id ++ " in the model"))
   end end end end) (mkState c tr)
  = match find_in_model model id with
    | Some (k, dep) =>
        (Ok tt, mkState (set_class k (Dependencies.add dep (class_of k c)) c) tr)
    | None =>
        (Throw (JsError ("copyDependenciesFromModel unable to find dependency "
                         ++ id ++ " in the model")), mkState c tr)
    end.
Proof.
  unfold find_in_model. cbn.
  destruct (Dependencies.getByIdStr id (dependencies model)); cbn; [reflexivity |].
  destruct (Dependencies.getByIdStr id (devDependencies model)); cbn; [reflexivity |].
  destruct (Dependencies.getByIdStr id (compilerDependencies model)); cbn; [reflexivity |].
  destruct (Dependencies.getByIdStr id (testerDependencies model)); cbn; reflexivity.
Qed.

Lemma forEach_copy (model : Component) (ids : list string) (c : Component) (tr : list Event) :
  exists r c',
    forEach ids (fun id =>
      match Dependencies.getByIdStr id (dependencies model) with
      | Some dependency =>
          modify (fun c => set_dependencies (Dependencies.add dependency (dependencies c)) c)
      | None =>
      match Dependencies.getByIdStr id (devDependencies model) with
      | Some dependency =>
          modify (fun c => set_devDependencies (Dependencies.add dependency (devDependencies c)) c)
      | None =>
      match Dependencies.getByIdStr id (compilerDependencies model) with
      | Some dependency =>
          modify (fun c => set_compilerDependencies
                             (Dependencies.add dependency (compilerDependencies c)) c)
      | None =>
      match Dependencies.getByIdStr id (testerDependencies model) with
      | Some dependency =>
          modify (fun c => set_testerDependencies
                             (Dependencies.add dependency (testerDependencies c)) c)
      | None =>
          throw (JsError ("copyDependenciesFromModel unable to find dependency "
                          ++ id ++ " in the model"))
      end end end end) (mkState c tr) = (r, mkState c' tr)
    /\ extends_dependencies c c'
    /\ (is_ok r = true ->
        length (getAllDependencies c') = length (getAllDependencies c) + length ids).
Proof.
  revert c. induction ids as [| id ids IH]; intros c.
  - exists (Ok tt), c. split; [reflexivity |]. split; [apply extends_refl |].
    intros _. cbn. lia.
  - cbn [forEach]. unfold mbind, M_bind. rewrite copy_step.
    destruct (find_in_model model id) as [[k dep] |].
    + destruct (IH (set_class k (Dependencies.add dep (class_of k c)) c))
        as (r & c' & Hrun & Hext & Hlen).
      exists r, c'. split; [exact Hrun |]. split.
      * eapply extends_trans; [apply extends_add | exact Hext].
      * intros Hok. rewrite (Hlen Hok). cbn [length].
        assert (Hone : length (getAllDependencies
                                 (set_class k (Dependencies.add dep (class_of k c)) c))
                       = S (length (getAllDependencies c))).
        { unfold getAllDependencies. destruct k; cbn; rewrite !length_app; cbn; lia. }
        lia.
    + exists (Throw (JsError ("copyDependenciesFromModel unable to find dependency "
                              ++ id ++ " in the model"))), c.
      split; [reflexivity |]. split; [apply extends_refl | discriminate].
Qed.

(** X22: the copy from the model only ever appends. Whatever the ids
    and whether the call succeeds or fails, each of the four dependency
    classes of the component afterwards starts with what it held before:
    nothing is removed, replaced or reordered; and nothing outside is
    called. *)
Theorem copyDependenciesFromModel_appends :
  forall (ids : list string) (c : Component) (tr : list Event),
    exists r c',
      copyDependenciesFromModel ids (mkState c tr) = (r, mkState c' tr)
      /\ extends_dependencies c c'.
Proof.
  intros ids c tr. unfold copyDependenciesFromModel.
  unfold mbind at 1. unfold M_bind, get_this. cbn [this].
  destruct (componentFromModel c) as [model |].
  - destruct (forEach_copy model ids c tr) as (r & c' & Hrun & Hext & _).
    exists r, c'. auto.
  - do 2 eexists. split; [reflexivity | apply extends_refl].
Qed.

(** X23: a successful copy adds one record per id. When the call
    succeeds, the component has as many more dependencies, over the four
    classes, as ids were given: an id given twice, or one the component
    already depends on, is added again; with at least one id the
    component has dependencies afterwards. *)
Theorem copyDependenciesFromModel_count :
  forall (ids : list string) (c : Component) (tr : list Event) (st' : State),
    copyDependenciesFromModel ids (mkState c tr) = (Ok tt, st') ->
    length (getAllDependencies (this st'))
    = length (getAllDependencies c) + length ids
    /\ (ids <> [] -> hasDependencies (this st') = true).
Proof.
  intros ids c tr st' Hrun. unfold copyDependenciesFromModel in Hrun.
  unfold mbind at 1 in Hrun. unfold M_bind, get_this in Hrun. cbn [this] in Hrun.
  destruct (componentFromModel c) as [model |]; [| discriminate].
  destruct (forEach_copy model ids c tr) as (r & c' & Hrun' & _ & Hlen).
  rewrite Hrun' in Hrun. injection Hrun as -> <-.
  specialize (Hlen eq_refl). cbn [this]. split; [exact Hlen |].
  intros Hids. unfold hasDependencies. rewrite Hlen.
  destruct ids; [contradiction |]. cbn [length].
  rewrite Nat.add_succ_r. reflexivity.
Qed.


End DependencyLists.

Section Homepage.

(** X25: the homepage. A component without scope, or with an empty one,
    has no homepage. With a scope made of an owner without dot, a dot and
    a collection, the homepage is the site followed by owner, collection
    and name, separated by slashes: only the first dot of the scope is
    turned into a slash, the dots of the collection are kept; a scope
    without dot is used as it is. *)
Theorem getHomepage_first_dot :
  forall (c : Component),
    ((scope c = None \/ scope c = Some "") -> _getHomepage c = None)
    /\ (forall owner collection,
          scope c = Some (owner ++ "." ++ collection) ->
          JsString.includes "." owner = false ->
          _getHomepage c
          = Some ("https://bitsrc.io/" ++ owner ++ "/" ++ collection ++ "/" ++ name c))
    /\ (forall s,
          scope c = Some s -> s <> "" -> JsString.includes "." s = false ->
          _getHomepage c = Some ("https://bitsrc.io/" ++ s ++ "/" ++ name c)).
Proof.
  intros c. unfold _getHomepage. split; [| split].
  - intros [-> | ->]; reflexivity.
  - intros owner collection -> Hno.
    assert (Ht : JsString.truthy (owner ++ "." ++ collection) = true).
    { destruct owner; reflexivity. }
    rewrite Ht.
    rewrite (replace_at "." "/" owner collection).
    + rewrite !app_assoc_string. reflexivity.
    + change ("." ++ collection) with (String "."%char collection).
      apply index_char_after. exact Hno.
  - intros s -> Hne Hno. rewrite (truthy_true_nonempty s Hne).
    unfold JsString.replace. unfold JsString.includes in Hno.
    destruct (String.index 0 "." s); [discriminate | reflexivity].
Qed.

End Homepage.

Section CommandRegistrar.

Import Cli.

Context `{Cli.Externals}.

Ltac cli_cases :=
  repeat match goal with
         | |- context [match ?x with _ => _ end] =>
             match type of x with
             | bool => destruct x eqn:?
             | Promise _ => destruct x eqn:?
             | option _ => destruct x eqn:?
             | Message => destruct x eqn:?
             | prod _ _ => destruct x eqn:?
             end
         | |- context [if ?x then _ else _] => destruct x eqn:?
         end.

Lemma onFailure_exit (command : Command) (err : Failure) :
  match snd (onFailure command err) with
  | Exiting =>
      exists k, exit_codes (fst (onFailure command err)) = [k] /\ json_truthy k = true
  | Uncaught m =>
      exit_codes (fst (onFailure command err)) = []
      /\ private command = false /\ value_truthy (message_code m) = true
  | TypeErrorThrown _ => False
  end
  /\ exists post, fst (onFailure command err) = LoaderOff :: post
  /\ action_args (fst (onFailure command err)) = [].
Proof.
  unfold onFailure, logErrAndExit, serializeErrAndExit.
  destruct (private command) eqn:Hp; cbn.
  - split; [| eauto].
    destruct (code err) as [k |] eqn:Hk; [| eexists; split; reflexivity].
    destruct (json_truthy k && isNumeric k) eqn:Hn; [| eexists; split; reflexivity].
    apply andb_true_iff in Hn as [Hn _]. eauto.
  - destruct (defaultHandleError err) as [m |];
      [destruct (message_truthy m) eqn:Hm |];
      try (destruct (handleError command err) as [m' |];
           [destruct (message_truthy m') eqn:Hm' |]);
      cbn; rewrite ?Hm;
      match goal with
      | |- context [value_truthy ?v] => destruct (value_truthy v) eqn:Hv
      end; cbn; (split; [| eauto]); eauto.
Qed.

(** X26: how a command ends. [execAction] asks for the exit at most
    once. The exit code is 0 exactly when the migration, if any, the
    action and the report all went through; every failure that ends in an
    exit has a truthy code: 1, or the numeric code of the error for a
    private command. The only run that does not exit is a failure of a
    command that is not private whose message carries a code: the message
    is thrown again and nothing is written. *)
Theorem execAction_exit_code :
  forall (command : Command) (concrete : string -> option json) (args : list Arg),
    let outcome := execAction command concrete args in
    match snd outcome with
    | Exiting =>
        exists k, exit_codes (fst outcome) = [k]
                  /\ (if completes command concrete args then k = JNum 0
                      else json_truthy k = true)
    | Uncaught m =>
        exit_codes (fst outcome) = []
        /\ completes command concrete args = false
        /\ private command = false
        /\ value_truthy (message_code m) = true
    | TypeErrorThrown _ => False
    end.
Proof.
  intros command concrete args outcome. subst outcome.
  unfold execAction, completes. cbv zeta.
  assert (Hstart : forall rest,
    exit_codes ((if loader command then [LoaderOn] else []) ++ rest) = exit_codes rest).
  { intros rest. destruct (loader command); reflexivity. }
  destruct (migration command); cbn [fst snd].
  - destruct migrate as [[] | err].
    + destruct (action command _ _) as [data | err].
      * destruct (report command data) as [msg | err].
        -- cbn [fst snd]. rewrite Hstart. cbn. eauto.
        -- pose proof (onFailure_exit command err) as [Hexit _].
           destruct (onFailure command err) as [out ending]. cbn [fst snd] in *.
           rewrite Hstart. cbn. destruct ending; auto. destruct Hexit as (? & ? & ?). auto.
      * pose proof (onFailure_exit command err) as [Hexit _].
        destruct (onFailure command err) as [out ending]. cbn [fst snd] in *.
        rewrite Hstart. cbn. destruct ending; auto. destruct Hexit as (? & ? & ?). auto.
    + pose proof (onFailure_exit command err) as [Hexit _].
      destruct (onFailure command err) as [out ending]. cbn [fst snd] in *.
      rewrite Hstart. cbn. destruct ending; auto. destruct Hexit as (? & ? & ?). auto.
  - destruct (action command _ _) as [data | err].
    + destruct (report command data) as [msg | err].
      * cbn [fst snd]. rewrite Hstart. cbn. eauto.
      * pose proof (onFailure_exit command err) as [Hexit _].
        destruct (onFailure command err) as [out ending]. cbn [fst snd] in *.
        rewrite Hstart. cbn. destruct ending; auto. destruct Hexit as (? & ? & ?). auto.
    + pose proof (onFailure_exit command err) as [Hexit _].
      destruct (onFailure command err) as [out ending]. cbn [fst snd] in *.
      rewrite Hstart. cbn. destruct ending; auto. destruct Hexit as (? & ? & ?). auto.
Qed.

Lemma action_args_app (a b : list Output) :
  action_args (a ++ b) = (action_args a ++ action_args b)%list.
Proof. unfold action_args. apply omap_app. Qed.

Lemma execAction_action_args (command : Command) (concrete : string -> option json)
    (args : list Arg) :
  forall n a, In (n, a) (action_args (fst (execAction command concrete args))) ->
              n = name command /\ a = removelast args.
Proof.
  intros n a. unfold execAction. cbv zeta.
  assert (Hlast : firstn (length args - 1) args = removelast args).
  { rewrite removelast_firstn_len. f_equal. lia. }
  rewrite Hlast.
  assert (Hstart : forall rest,
    action_args ((if loader command then [LoaderOn] else []) ++ rest) = action_args rest).
  { intros rest. destruct (loader command); reflexivity. }
  assert (Hfail : forall err pre,
    In (n, a) (action_args (pre ++ fst (onFailure command err))) ->
    In (n, a) (action_args pre)).
  { intros err pre. rewrite action_args_app.
    destruct (onFailure_exit command err) as (_ & post & _ & ->). rewrite app_nil_r. auto. }
  destruct (migration command); cbn [fst snd].
  - destruct migrate as [[] | err].
    + destruct (action command _ _) as [data | err].
      * destruct (report command data) as [msg | err].
        -- cbn [fst]. rewrite Hstart. cbn. intros [[= <- <-] | []]. auto.
        -- destruct (onFailure command err) as [out ending] eqn:Hf. cbn [fst].
           rewrite Hstart.
           change ([Migrate] ++ [Action (name command) (removelast args)
                                   (getOpts concrete (opts command))] ++ LoaderOff :: out)%list
             with ([Migrate; Action (name command) (removelast args)
                               (getOpts concrete (opts command)); LoaderOff] ++ out)%list.
           intros Hin. specialize (Hfail err). rewrite Hf in Hfail.
           apply Hfail in Hin. cbn in Hin. destruct Hin as [[= <- <-] | []]. auto.
      * destruct (onFailure command err) as [out ending] eqn:Hf. cbn [fst].
        rewrite Hstart.
        change ([Migrate] ++ [Action (name command) (removelast args)
                                (getOpts concrete (opts command))] ++ out)%list
          with ([Migrate; Action (name command) (removelast args)
                            (getOpts concrete (opts command))] ++ out)%list.
        intros Hin. specialize (Hfail err). rewrite Hf in Hfail.
        apply Hfail in Hin. cbn in Hin. destruct Hin as [[= <- <-] | []]. auto.
    + destruct (onFailure command err) as [out ending] eqn:Hf. cbn [fst].
      rewrite Hstart. intros Hin. specialize (Hfail err). rewrite Hf in Hfail.
      apply Hfail in Hin. cbn in Hin. destruct Hin.
  - destruct (action command _ _) as [data | err].
    + destruct (report command data) as [msg | err].
      * cbn [fst]. rewrite Hstart. cbn. intros [[= <- <-] | []]. auto.
      * destruct (onFailure command err) as [out ending] eqn:Hf. cbn [fst].
        rewrite Hstart.
        change ([] ++ [Action (name command) (removelast args)
                         (getOpts concrete (opts command))] ++ LoaderOff :: out)%list
          with ([Action (name command) (removelast args)
                   (getOpts concrete (opts command)); LoaderOff] ++ out)%list.
        intros Hin. specialize (Hfail err). rewrite Hf in Hfail.
        apply Hfail in Hin. cbn in Hin. destruct Hin as [[= <- <-] | []]. auto.
    + destruct (onFailure command err) as [out ending] eqn:Hf. cbn [fst].
      rewrite Hstart.
      change ([] ++ [Action (name command) (removelast args)
                       (getOpts concrete (opts command))] ++ out)%list
        with ([Action (name command) (removelast args)
                 (getOpts concrete (opts command))] ++ out)%list.
      intros Hin. specialize (Hfail err). rewrite Hf in Hfail.
      apply Hfail in Hin. cbn in Hin. destruct Hin as [[= <- <-] | []]. auto.
Qed.

(** X27: the arguments an action sees. Whatever action the handler of
    [registerAction] ends up calling, it never receives the last
    argument, which is the command object commander appends; and when
    the command declares subcommands the first argument is dropped as
    well, whether or not it named one of them: the command's own action,
    run as the fallback, misses its first argument too. *)
Theorem registerAction_arguments :
  forall (command : Command) (concrete : string -> option json) (args : list Arg)
         (n : string) (a : list Arg),
    In (n, a) (action_args (fst (registerAction command concrete args))) ->
    a = removelast (if empty (commands command) then args else tail args).
Proof.
  intros command concrete args n a. unfold registerAction.
  destruct (empty (commands command)); cbn [negb].
  - intros Hin. apply execAction_action_args in Hin as [_ ->]. reflexivity.
  - destruct (commands command) as [subcommands |]; [| intros []].
    cbv zeta. destruct (List.find _ subcommands) as [found |];
      intros Hin; apply execAction_action_args in Hin as [_ ->]; reflexivity.
Qed.

(** X28: the subcommand that runs. When the command declares
    subcommands, the action called, if any, is the one of the first
    declared subcommand that the first argument names, and the one of the
    command itself when it names none; a subcommand whose name parses to
    a non-empty word is named by that word only, never by its alias. *)
Theorem registerAction_subcommand :
  forall (command : Command) (concrete : string -> option json) (args : list Arg)
         (subcommands : list Command) (n : string) (a : list Arg),
    empty (commands command) = false ->
    commands command = Some subcommands ->
    In (n, a) (action_args (fst (registerAction command concrete args))) ->
    match List.find (names_subcommand (parseSubcommandFromArgs args)) subcommands with
    | Some found =>
        n = name found /\ In found subcommands
        /\ (forall word given,
              parseCommandName (name found) = Some word -> word <> "" ->
              parseSubcommandFromArgs args = Some given -> given = word)
    | None => n = name command
    end.
Proof.
  intros command concrete args subcommands n a Hempty Hsubs.
  unfold registerAction. rewrite Hempty, Hsubs. cbn [negb]. cbv zeta.
  destruct (List.find _ subcommands) as [found |] eqn:Hfind.
  - intros Hin. apply execAction_action_args in Hin as [-> _].
    apply find_some in Hfind as [Hin Hnames].
    split; [reflexivity |]. split; [exact Hin |].
    intros word given Hword Hne Hgiven.
    unfold names_subcommand in Hnames. rewrite Hword, Hgiven in Hnames.
    rewrite (truthy_true_nonempty word Hne) in Hnames.
    apply bool_decide_eq_true in Hnames. exact Hnames.
  - intros Hin. apply execAction_action_args in Hin as [-> _]. reflexivity.
Qed.

(** X29: the loader is switched off before anything is written. In
    every run of [execAction], whether the command asked for the loader
    or not and whether it succeeds or fails, the output holds a switch
    off of the loader, and nothing is written to the terminal and no exit
    is asked for before it. *)
Theorem execAction_loader_off_first :
  forall (command : Command) (concrete : string -> option json) (args : list Arg),
    exists pre post,
      fst (execAction command concrete args) = (pre ++ LoaderOff :: post)%list
      /\ forallb (fun o => negb (is_write o)) pre = true.
Proof.
  intros command concrete args. unfold execAction. cbv zeta.
  assert (Hfail : forall err before,
    forallb (fun o => negb (is_write o)) before = true ->
    exists pre post,
      (before ++ fst (onFailure command err))%list = (pre ++ LoaderOff :: post)%list
      /\ forallb (fun o => negb (is_write o)) pre = true).
  { intros err before Hb.
    destruct (onFailure_exit command err) as (_ & post & -> & _).
    exists before, post. auto. }
  assert (Hstart : forallb (fun o => negb (is_write o))
                     (if loader command then [LoaderOn] else []) = true).
  { destruct (loader command); reflexivity. }
  destruct (migration command); cbn [fst snd].
  - destruct migrate as [[] | err].
    + destruct (action command _ _) as [data | err].
      * destruct (report command data) as [msg | err].
        -- cbn [fst]. eexists (_ ++ [Migrate; Action _ _ _])%list, _. split.
           ++ rewrite <- app_assoc. cbn. reflexivity.
           ++ rewrite forallb_app, Hstart. reflexivity.
        -- destruct (onFailure command err) as [out ending]. cbn [fst].
           eexists (_ ++ [Migrate; Action _ _ _])%list, _. split.
           ++ rewrite <- app_assoc. cbn. reflexivity.
           ++ rewrite forallb_app, Hstart. reflexivity.
      * specialize (Hfail err). destruct (onFailure command err) as [out ending].
        cbn [fst] in *.
        destruct (Hfail ((if loader command then [LoaderOn] else [])
                         ++ [Migrate; Action (name command)
                                 (firstn (length args - 1) args)
                                 (getOpts concrete (opts command))])%list)
          as (pre & post & Heq & Hpre).
        { rewrite forallb_app, Hstart. reflexivity. }
        exists pre, post. split; [| exact Hpre].
        rewrite <- Heq, <- !app_assoc. reflexivity.
    + specialize (Hfail err). destruct (onFailure command err) as [out ending].
      cbn [fst] in *.
      destruct (Hfail ((if loader command then [LoaderOn] else []) ++ [Migrate])%list)
        as (pre & post & Heq & Hpre).
      { rewrite forallb_app, Hstart. reflexivity. }
      exists pre, post. split; [| exact Hpre].
      rewrite <- Heq, <- !app_assoc. reflexivity.
  - destruct (action command _ _) as [data | err].
    + destruct (report command data) as [msg | err].
      * cbn [fst]. eexists (_ ++ [Action _ _ _])%list, _. split.
        -- rewrite <- app_assoc. cbn. reflexivity.
        -- rewrite forallb_app, Hstart. reflexivity.
      * destruct (onFailure command err) as [out ending]. cbn [fst].
        eexists (_ ++ [Action _ _ _])%list, _. split.
        -- rewrite <- app_assoc. cbn. reflexivity.
        -- rewrite forallb_app, Hstart. reflexivity.
    + specialize (Hfail err). destruct (onFailure command err) as [out ending].
      cbn [fst] in *.
      destruct (Hfail ((if loader command then [LoaderOn] else []) ++ [Action (name command)
                               (firstn (length args - 1) args)
                               (getOpts concrete (opts command))])%list)
        as (pre & post & Heq & Hpre).
      { rewrite forallb_app, Hstart. reflexivity. }
      exists pre, post. split; [| exact Hpre].
      rewrite <- Heq, <- !app_assoc. reflexivity.
Qed.

End CommandRegistrar.

(** * The properties on the sample workspace *)

#[local] Existing Instance Sample.externals.

(** The constructor on a non-empty name and the empty main file. *)
Lemma new_Component_empty_mainFile_witness :
  p_name (Sample.props "foo" "") = Some "foo"
  /\ "foo" <> ""
  /\ p_mainFile (Sample.props "foo" "") = Some ""
  /\ exists c, new_Component (Sample.props "foo" "") = Ok c /\ mainFile c = ".".
Proof.
  split; [reflexivity |]. split; [discriminate |]. split; [reflexivity |].
  apply (new_Component_empty_mainFile (Sample.props "foo" "") "foo");
    [reflexivity | discriminate | reflexivity].
Defined.






(** The two sample texts deserialize to the same component. *)
Lemma fromString_dists_shapes_witness :
  JSON_parse Sample.legacy_text = Ok (mkParsed Sample.document None (Some (JArr [])))
  /\ JSON_parse Sample.current_text
     = Ok (mkParsed Sample.document None (Some (JObj [("dists", JArr [])])))
  /\ fromString Sample.legacy_text = fromString Sample.current_text
  /\ is_ok (fromString Sample.legacy_text) = true.
Proof.
  split; [reflexivity |]. split; [reflexivity |].
  split; [| reflexivity].
  exact (proj1 (fromString_dists_shapes Sample.legacy_text Sample.current_text
                  Sample.document None [] [] eq_refl eq_refl)).
Defined.

(** C6, the claim against the code: [a] is in the model, [zz] is not;
    the call fails and [a] has been copied all the same. *)
Lemma copyDependenciesFromModel_partial_copy :
  let outcome := exec (copyDependenciesFromModel ["a"; "zz"]) Sample.with_model in
  find_in_model Sample.model "zz" = None
  /\ is_ok (fst outcome) = false
  /\ dependencies (this (snd outcome)) = Dependencies.mk [Sample.dep "a"]
  /\ dependencies (this (snd outcome)) <> dependencies Sample.with_model.
Proof.
  intros outcome. do 3 (split; [reflexivity |]). vm_compute. discriminate.
Qed.

(** The copy on the sample model: [b] then [a] are both found. *)
Lemma copyDependenciesFromModel_first_missing_witness :
  componentFromModel Sample.with_model = Some Sample.model
  /\ copyDependenciesFromModel ["b"; "a"] (mkState Sample.with_model [])
     = (Ok tt, mkState (fold_left (copy_one Sample.model) ["b"; "a"] Sample.with_model) [])
  /\ copyDependenciesFromModel ["a"; "zz"; "b"] (mkState Sample.with_model [])
     = (Throw (JsError "copyDependenciesFromModel unable to find dependency zz in the model"),
        mkState (fold_left (copy_one Sample.model) ["a"] Sample.with_model) []).
Proof.
  split; [reflexivity |].
  pose proof (copyDependenciesFromModel_first_missing
                Sample.with_model Sample.model ["b"; "a"] [] eq_refl) as [Hall _].
  pose proof (copyDependenciesFromModel_first_missing
                Sample.with_model Sample.model ["a"; "zz"; "b"] [] eq_refl) as [_ Hstop].
  split.
  - apply Hall. intros id [<- | [<- | []]]; discriminate.
  - apply (Hstop ["a"] "zz" ["b"] eq_refl); [| reflexivity].
    intros x [<- | []]. discriminate.
Defined.

(** C8, the claim against the code: a compiler that offers both
    contracts is not rejected; the build goes through. *)
Lemma buildIfNeeded_accepts_both_contracts :
  let compiler := Sample.compiler true true in
  let a := mkBuildIfNeededArgs (Some compiler) (Some (Sample.consumer AUTHORED)) None
             Sample.scope None None None in
  present (cmp_action compiler) && present (cmp_oldAction compiler) = true
  /\ fst (exec (buildIfNeeded a) Sample.plain) = Ok (BuildFiles [])
  /\ fst (exec (buildIfNeeded a) Sample.plain)
     <> Throw (InvalidCompilerInterface (cmp_name compiler)).
Proof.
  intros compiler a. split; [reflexivity |].
  split; [vm_compute; reflexivity | vm_compute; discriminate].
Qed.

(** The check on a compiler without any contract, and on one with the
    legacy contract only. *)
Lemma buildIfNeeded_interface_check_witness :
  let a modern legacy :=
    mkBuildIfNeededArgs (Some (Sample.compiler modern legacy))
      (Some (Sample.consumer AUTHORED)) None Sample.scope None None None in
  files_value Sample.plain = Some [Sample.file "src/index.js" false]
  /\ (exists st',
        buildIfNeeded (a false false) (mkState Sample.plain [])
        = (Throw (InvalidCompilerInterface "babel"), st')
        /\ trace st' = [])
  /\ (exists r st',
        buildIfNeeded (a false true) (mkState Sample.plain []) = (r, st')
        /\ trace st' = [EvChdir "/ws"; EvCompilerOldAction "babel"]
        /\ forall n, r <> Throw (InvalidCompilerInterface n)).
Proof.
  intros a. split; [reflexivity |]. split.
  - exact (proj1 (buildIfNeeded_interface_check (a false false) (Sample.compiler false false)
                    _ (mkState Sample.plain []) eq_refl eq_refl) eq_refl).
  - exact (proj2 (buildIfNeeded_interface_check (a false true) (Sample.compiler false true)
                    _ (mkState Sample.plain []) eq_refl eq_refl)
                 (Sample.consumer AUTHORED) eq_refl eq_refl).
Defined.


(** The whole of [runSpecs] on the same component: both files are
    handed to the tester and two results come back. *)
Example runSpecs_sample :
  let outcome := exec (runSpecs Sample.run_specs_args) Sample.tested in
  match fst outcome with
  | Ok (Some results) => map SpecsResults.pass results = [false; true]
  | _ => False
  end
  /\ trace (snd outcome)
     = [EvWriteDists; EvChdir "/ws";
        EvTesterOldAction "/ws/components/foo/a.spec.js";
        EvTesterOldAction "/ws/components/foo/b.spec.js"].
Proof. vm_compute. split; reflexivity. Qed.

(** ** The further properties on the sample workspace *)


(** The legacy tester of the sample over its two test files. *)
Lemma runSpecs_run_legacy_results_witness :
  tst_action Sample.tester = None
  /\ testFilesList_of Sample.tested = Ok Fixtures.test_files
  /\ exists results,
       fst (runSpecs_run Sample.run_specs_args Sample.tester None (Some "/ws")
              (mkState Sample.tested [])) = Ok (Some results)
       /\ length results = 2.
Proof.
  split; [reflexivity |]. split; [reflexivity |].
  destruct (runSpecs_run_legacy_results Sample.run_specs_args Sample.tester None
              (Some "/ws") Sample.tested [] Fixtures.test_files
              (fun path =>
                 if bool_decide (path = "/ws/components/foo/a.spec.js")
                 then Throw (External "boom")
                 else Ok (mkRaw None true [mkRawTest "works" true] []))
              eq_refl eq_refl eq_refl eq_refl eq_refl)
    as (Hrun & _ & Hlen & _).
  eexists. split; [exact Hrun | exact Hlen].
Defined.

(** A tester without contract over the same files. *)
Lemma runSpecs_run_without_contract_witness :
  tst_action Fixtures.bare_tester = None
  /\ tst_oldAction Fixtures.bare_tester = None
  /\ trace (snd (runSpecs_run Sample.run_specs_args Fixtures.bare_tester None (Some "/ws")
                   (mkState Sample.tested []))) = [EvChdir "/ws"].
Proof.
  split; [reflexivity |]. split; [reflexivity |].
  exact (proj2 (runSpecs_run_without_contract Sample.run_specs_args Fixtures.bare_tester
                  None (Some "/ws") Sample.tested [] Fixtures.test_files
                  eq_refl eq_refl eq_refl eq_refl eq_refl)).
Defined.

(** A modern tester over the same files. *)
Lemma runSpecs_run_modern_call_witness :
  tst_action Fixtures.modern_tester = Some Fixtures.modern_action
  /\ exists params,
       tap_testFiles params = Fixtures.test_files
       /\ trace (snd (runSpecs_run Sample.run_specs_args Fixtures.modern_tester None
                        (Some "/ws") (mkState Sample.tested [])))
          = [EvChdir "/ws"; EvTesterAction "jest"].
Proof.
  split; [reflexivity |].
  destruct (runSpecs_run_modern_call Sample.run_specs_args Fixtures.modern_tester None
              (Some "/ws") Sample.tested [] Fixtures.test_files Fixtures.modern_action
              eq_refl eq_refl eq_refl eq_refl)
    as (params & Hfiles & Htrace & _).
  exists params. auto.
Defined.

(** The crashing tester with reject-on-failure and save: the run is
    rejected and nothing is saved. *)
Lemma runSpecs_run_reject_on_failure_witness :
  flag (rs_rejectOnFailure Fixtures.rejecting_args) = true
  /\ ~ In EvModifySpecsResults
         (trace (snd (runSpecs_run Fixtures.rejecting_args Sample.tester None (Some "/ws")
                        (mkState (set_specsResults None Sample.tested) [])))).
Proof.
  split; [reflexivity |].
  destruct (runSpecs_run_reject_on_failure Fixtures.rejecting_args Sample.tester None
              (Some "/ws") Sample.tested eq_refl) as [_ Hfail].
  exact (proj2 (Hfail _ eq_refl eq_refl)).
Defined.

(** A test run without workspace on a store whose environments cannot
    be created. *)
Lemma runSpecs_isolated_failure_destroys_witness :
  files_value Sample.tested
  = Some [Sample.file "a.spec.js" true; Sample.file "b.spec.js" true;
          Sample.file "index.js" false]
  /\ tester Sample.tested = Some Sample.tester
  /\ rs_consumer Fixtures.isolated_args = None
  /\ In EvEnvDestroy
       (trace (snd (runSpecs Fixtures.isolated_args (mkState Sample.tested [])))).
Proof.
  split; [reflexivity |]. split; [reflexivity |]. split; [reflexivity |].
  apply (runSpecs_isolated_failure_destroys Fixtures.isolated_args Sample.tested []
           _ Sample.tester eq_refl) with (e := External "no environment").
  - discriminate.
  - reflexivity.
  - reflexivity.
  - left. reflexivity.
  - vm_compute. reflexivity.
Defined.

(** A tester that cannot be installed. *)
Lemma runSpecs_install_failure_witness :
  let c := set_tester (Some Fixtures.unloaded_tester) Sample.tested in
  tst_loaded Fixtures.unloaded_tester = false
  /\ exists c',
       runSpecs Sample.run_specs_args (mkState c [])
       = (Throw (External "cannot install"), mkState c' [EvTesterInstall "mocha"]).
Proof.
  intros c. split; [reflexivity |].
  destruct (runSpecs_install_failure Sample.run_specs_args c [] _ Fixtures.unloaded_tester
              (External "cannot install") eq_refl) as (c' & Hrun & _).
  - discriminate.
  - reflexivity.
  - reflexivity.
  - reflexivity.
  - exists c'. exact Hrun.
Defined.

(** A build without workspace on a store whose environments cannot be
    created. *)
Lemma buildIfNeeded_isolated_teardown_witness :
  let a := mkBuildIfNeededArgs (Some (Sample.compiler true false)) None None
             Sample.scope None None None in
  isolatedEnvironment Sample.plain = None
  /\ files_value Sample.plain = Some [Sample.file "src/index.js" false]
  /\ exists outcome c' rest,
       buildIfNeeded a (mkState Sample.plain [])
       = (outcome, mkState c' (EvEnvCreate :: rest)).
Proof.
  intros a. split; [reflexivity |]. split; [reflexivity |].
  destruct (buildIfNeeded_isolated_teardown a (Sample.compiler true false) _
              Sample.plain [] eq_refl eq_refl eq_refl eq_refl eq_refl)
    as (outcome & c' & rest & Hrun & _).
  exists outcome, c', rest. exact Hrun.
Defined.



(** The sample component, which has no compiler, in a workspace that
    keeps the dists outside the components. *)
Lemma build_without_compiler_witness :
  let a := Sample.no_build_args (Some Fixtures.outside_consumer) None in
  compiler Sample.plain = None
  /\ build (Sample.no_build_args None None) (mkState Sample.plain [])
     = (Ok None, mkState Sample.plain [])
  /\ exists c',
       build a (mkState Sample.plain [])
       = (Ok (Some (dists_of_files [Sample.file "src/index.js" false])), mkState c' []).
Proof.
  intros a. split; [reflexivity |]. split.
  - exact (proj1 (build_without_compiler (Sample.no_build_args None None) Sample.plain []
                    eq_refl) (or_introl eq_refl)).
  - destruct (proj2 (build_without_compiler a Sample.plain [] eq_refl)
                Fixtures.outside_consumer _ eq_refl eq_refl eq_refl) as (c' & Hrun & _).
    exists c'. exact Hrun.
Defined.

(** The sample component in a workspace whose status query fails. *)
Lemma build_status_failure_witness :
  let a := Sample.no_build_args (Some Fixtures.failing_consumer) None in
  compiler Sample.built = Some (Sample.compiler true false)
  /\ build a (mkState Sample.built [])
     = (Throw (External "no status"), mkState Sample.built [EvStatus "my-scope/foo@0.0.1"]).
Proof.
  intros a. split; [reflexivity |].
  exact (build_status_failure a Sample.built (Sample.compiler true false)
           Fixtures.failing_consumer [] (External "no status")
           eq_refl eq_refl eq_refl eq_refl).
Defined.

(** A compiler that cannot be installed. *)
Lemma build_install_failure_witness :
  let c := set_compiler (Some Fixtures.unloaded_compiler) Sample.plain in
  cmp_loaded Fixtures.unloaded_compiler = false
  /\ build (Sample.no_build_args None (Some true)) (mkState c [])
     = (Throw (External "cannot install"), mkState c [EvCompilerInstall "babel"]).
Proof.
  intros c. split; [reflexivity |].
  exact (build_install_failure (Sample.no_build_args None (Some true)) c
           Fixtures.unloaded_compiler [] (External "cannot install")
           eq_refl eq_refl eq_refl (fun _ _ _ => eq_refl)).
Defined.

(** An object whose compiler cannot be loaded, and one without main
    file. *)
Lemma fromObject_failure_order_witness :
  fromObject Fixtures.with_compiler_descriptor
  = Throw (External "compiler is not installed")
  /\ fromObject Fixtures.blank
     = Throw (TypeError "Path must be a string").
Proof.
  split.
  - exact (proj1 (fromObject_failure_order Fixtures.with_compiler_descriptor)
             (External "compiler is not installed") eq_refl).
  - exact (proj1 (proj2 (proj2 (fromObject_failure_order Fixtures.blank)) eq_refl eq_refl) eq_refl).
Defined.


(** A parsed envelope whose dists are [null]. *)
Lemma fromString_parsed_falsy_dists_witness :
  pd_dists Fixtures.null_dists = Some JNull
  /\ exists c,
       fromString_parsed Fixtures.null_dists = Ok c
       /\ Dists.isEmpty (dists c) = true.
Proof.
  split; [reflexivity |].
  eexists. split.
  - vm_compute. reflexivity.
  - refine (proj2 (fromString_parsed_falsy_dists Fixtures.null_dists _ eq_refl _)).
    vm_compute. reflexivity.
Defined.

(** The path src/index.js without the directory src. *)
Lemma pathWithoutSharedDir_head_witness :
  pathWithoutSharedDir "src/index.js" (Some "src") = "index.js"
  /\ pathWithoutSharedDir "index.js" (Some "src") = "index.js".
Proof.
  split.
  - refine (proj1 (proj2 pathWithoutSharedDir_head) "src" "index.js" _). discriminate.
  - exact (proj2 (proj2 pathWithoutSharedDir_head) "src" "index.js" eq_refl).
Defined.

(** The file src/index.js after the strip of src, and back. *)
Lemma cloneFilesWithSharedDir_restores_witness :
  let l := [Sample.file "src/index.js" false] in
  originallySharedDir (Fixtures.stripped l) = Some "src"
  /\ files_value (Fixtures.stripped l) = Some [Sample.file "index.js" false]
  /\ exists c',
       cloneFilesWithSharedDir (mkState (Fixtures.stripped l) []) = (Ok l, mkState c' []).
Proof.
  intros l. split; [reflexivity |]. split; [reflexivity |].
  destruct (cloneFilesWithSharedDir_restores (Fixtures.stripped l) [] "src" l eq_refl)
    as (c' & Hrun & _).
  - discriminate.
  - reflexivity.
  - reflexivity.
  - intros file [<- | []]. exists "index.js".
    split; [discriminate |]. repeat split; reflexivity.
  - exists c'. exact Hrun.
Defined.


(** The two dependencies of the sample model, copied. *)
Lemma copyDependenciesFromModel_count_witness :
  let outcome := copyDependenciesFromModel ["a"; "b"] (mkState Sample.with_model []) in
  fst outcome = Ok tt
  /\ length (getAllDependencies (this (snd outcome))) = 2
  /\ hasDependencies (this (snd outcome)) = true.
Proof.
  intros outcome. split; [reflexivity |].
  destruct (copyDependenciesFromModel_count ["a"; "b"] Sample.with_model [] (snd outcome))
    as [Hlen Hhas].
  - vm_compute. reflexivity.
  - split; [exact Hlen |]. apply Hhas. discriminate.
Defined.

(** The homepage of a component of the collection utils.string of the
    owner bit. *)
Lemma getHomepage_first_dot_witness :
  scope (Fixtures.scoped "bit.utils.string") = Some "bit.utils.string"
  /\ _getHomepage (Fixtures.scoped "bit.utils.string")
     = Some "https://bitsrc.io/bit/utils.string/foo".
Proof.
  split; [reflexivity |].
  exact (proj1 (proj2 (getHomepage_first_dot (Fixtures.scoped "bit.utils.string")))
           "bit" "utils.string" eq_refl eq_refl).
Defined.

(** The command [remote add origin]: the action of [add] gets the
    argument [origin] only. *)
Lemma registerAction_arguments_witness :
  let args := [Cli.Word "add"; Cli.Word "origin"; Cli.Commander] in
  In ("add <url>", [Cli.Word "origin"])
     (Cli.action_args
        (fst (@Cli.registerAction Fixtures.cli_externals Fixtures.remote (fun _ => None) args)))
  /\ [Cli.Word "origin"] = removelast (tail args).
Proof.
  intros args.
  assert (Hin : In ("add <url>", [Cli.Word "origin"])
                   (Cli.action_args
                      (fst (@Cli.registerAction Fixtures.cli_externals Fixtures.remote
                              (fun _ => None) args)))).
  { left. reflexivity. }
  split; [exact Hin |].
  exact (@registerAction_arguments Fixtures.cli_externals Fixtures.remote (fun _ => None)
           args _ _ Hin).
Defined.

(** The same command: the subcommand found is [add]. *)
Lemma registerAction_subcommand_witness :
  let args := [Cli.Word "add"; Cli.Word "origin"; Cli.Commander] in
  @Cli.empty Fixtures.cli_externals (Cli.commands Fixtures.remote) = false
  /\ match List.find (@Cli.names_subcommand Fixtures.cli_externals
                        (@Cli.parseSubcommandFromArgs Fixtures.cli_externals args))
                     [Fixtures.leaf "add <url>"; Fixtures.leaf "rm <name>"] with
     | Some found => "add <url>" = Cli.name found
     | None => False
     end.
Proof.
  intros args. split; [reflexivity |].
  pose proof (@registerAction_subcommand Fixtures.cli_externals Fixtures.remote
                (fun _ => None) args _ "add <url>" [Cli.Word "origin"]
                eq_refl eq_refl (or_introl eq_refl)) as Hsub.
  destruct (List.find _ _) as [found |]; [exact (proj1 Hsub) | discriminate Hsub].
Defined.
